(** * FNF to V-Slice converter: a shallow embedding of [script.js]

    [script.js] holds the class [FNFConverter] twice; the first text
    leaves [convertToVSlice] and [createVSliceZip] as stubs.  The
    development follows the second, complete one: [validateFiles],
    [hasArchive], [extractArchive], [organizeFiles], [convertCharts],
    [convertToVSlice], [createVSliceZip] and [processFiles], and the
    [handleFiles] of its event handlers.  Of the first text it has the
    two methods that are complete and differ, [extractArchive] and
    [organizeFiles], under the names [extractArchive_optimized] and
    [organizeFiles_optimized].

    - JavaScript values produced by [JSON.parse] are an inductive type;
      numbers are IEEE 754 binary64 floats, as in JavaScript.
    - [File] objects live in a heap (a list indexed by reference), because
      the same object is shared by the working set and by the buckets, and
      [convertCharts] mutates it.
    - Methods are computations in a state-and-exception monad over the
      converter's fields, the heap and the log of user-interface calls.
    - The collaborators the program only calls ([JSON.parse],
      [JSON.stringify], [JSZip.loadAsync]) are section variables.
    - The archive under construction is the [files] table of [JSZip]: one
      entry per path, and [file] on a path that is there replaces its
      content.
    - The page is a record of the elements the script writes to; the log
      of user-interface calls is rendered on it. *)

From Stdlib Require Import NArith List String Ascii Bool Lia PrimFloat Sorted.
From stdpp Require Import base option list strings.

Import ListNotations.
Local Open Scope string_scope.
#[local] Set Warnings "-register-all".
Local Open Scope list_scope.

(** ** JavaScript values *)

Module JS.

(** The values [JSON.parse] can produce, plus [undefined], which is what
    reading a missing property gives.  An object is the list of its own
    properties; a key is read at its first binding. *)
Inductive value : Type :=
| VUndef
| VNull
| VBool (b : bool)
| VNum (x : float)
| VStr (s : string)
| VArr (elems : list value)
| VObj (props : list (string * value)).

(** [ToBoolean]: [undefined], [null], [false], [+0], [-0], [NaN] and the
    empty string are falsy, everything else is truthy. *)
Definition truthy (v : value) : bool :=
  match v with
  | VUndef | VNull => false
  | VBool b => b
  | VNum x => negb (PrimFloat.eqb x 0%float || PrimFloat.is_nan x)
  | VStr s => negb (String.eqb s "")
  | VArr _ | VObj _ => true
  end.

(** [a || b] *)
Definition or (a b : value) : value := if truthy a then a else b.

Fixpoint lookup (k : string) (props : list (string * value)) : value :=
  match props with
  | [] => VUndef
  | (k', v) :: rest => if String.eqb k k' then v else lookup k rest
  end.

(** [v.k] for the property names the converter reads ([song], [bpm],
    [speed], [notes], [strumTime], [noteType], [direction],
    [sustainLength]): a [TypeError] ([None]) on [null] and [undefined];
    on a primitive or an array the name is looked up on the prototype,
    which has none of these names, so the result is [undefined]. *)
Definition get (v : value) (k : string) : option value :=
  match v with
  | VUndef | VNull => None
  | VObj props => Some (lookup k props)
  | VBool _ | VNum _ | VStr _ | VArr _ => Some VUndef
  end.

(** [v.map(f)] where [f] may throw: only an array has a [map] method; on
    any other value of [JSON.parse] the call is a [TypeError]. *)
Definition array_map {B} (f : value -> option B) (v : value) : option (list B) :=
  match v with
  | VArr elems => mapM f elems
  | _ => None
  end.

End JS.

Import JS.

(** ** The chart transformer *)

Module Chart.
Record Metadata := { name : value; bpm : value; speed : value }.
Record Note := { time : value; type : value; direction : value; length : value }.
Record Target := { metadata : Metadata; notes : list Note }.
End Chart.

(** The arrow function of [convertToVSlice], applied to one note. *)
Definition convertNote (note : value) : option Chart.Note :=
  strumTime ← get note "strumTime";
  noteType ← get note "noteType";
  direction ← get note "direction";
  sustainLength ← get note "sustainLength";
  Some {| Chart.time := strumTime;
          Chart.type := JS.or noteType (VStr "default");
          Chart.direction := JS.or direction (VStr "middle");
          Chart.length := JS.or sustainLength (VNum 0) |}.

Definition convertToVSlice (fnfChart : value) : option Chart.Target :=
  song ← get fnfChart "song";
  bpm ← get fnfChart "bpm";
  speed ← get fnfChart "speed";
  notes ← get fnfChart "notes";
  out ← array_map convertNote (JS.or notes (VArr []));
  Some {| Chart.metadata := {| Chart.name := JS.or song (VStr "Unknown");
                               Chart.bpm := JS.or bpm (VNum 100);
                               Chart.speed := JS.or speed (VNum 1) |};
          Chart.notes := out |}.

(** ** Strings *)

Definition lower (c : ascii) : ascii :=
  let n := N_of_ascii c in
  if ((65 <=? n) && (n <=? 90))%N then ascii_of_N (n + 32) else c.

(** [s.toLowerCase()], on 8-bit characters. *)
Fixpoint toLowerCase (s : string) : string :=
  match s with
  | EmptyString => EmptyString
  | String c rest => String (lower c) (toLowerCase rest)
  end.

(** [s.endsWith(suffix)] *)
Definition endsWith (s suffix : string) : bool :=
  let n := String.length s in
  let m := String.length suffix in
  (m <=? n)%nat && String.eqb (substring (n - m) m s) suffix.

(** [s.includes(part)] *)
Fixpoint includes (s part : string) : bool :=
  String.prefix part s ||
  match s with
  | EmptyString => false
  | String _ rest => includes rest part
  end.

(** ** Files, the heap and the converter's state *)

Definition SUPPORTED_FILES : list string := [".json"; ".ogg"; ".png"; ".zip"].
Definition MAX_FILE_SIZE : N := 50 * 1024 * 1024.

Definition Blob := list Byte.byte.

(** A [File] as the browser or [new File(..)] makes it. *)
Record File := { name : string; blob : Blob }.

Definition size (f : File) : N := N.of_nat (List.length (blob f)).

(** [new File([fileData], name)] *)
Definition newFile (fileData : Blob) (name : string) : File :=
  {| name := name; blob := fileData |}.

(** A [File] object on the heap, with the two properties [convertCharts]
    adds to it: [converted] (absent, or a chart) and [conversionError]
    (absent, or [true]). *)
Record FileObj := {
  file : File;
  converted : option Chart.Target;
  conversionError : bool
}.

Definition fresh (f : File) : FileObj :=
  {| file := f; converted := None; conversionError := false |}.

Definition set_converted (t : Chart.Target) (o : FileObj) : FileObj :=
  {| file := file o; converted := Some t; conversionError := conversionError o |}.

Definition set_conversionError (o : FileObj) : FileObj :=
  {| file := file o; converted := converted o; conversionError := true |}.

(** References into the heap. *)
Abbreviation ref := nat.

Record Structure := { songs : list ref; data : list ref; images : list ref }.

(** What the program shows: [updateUI], [showError], [console.warn] and
    [console.error]. *)
Inductive Event :=
| Progress (progress : N) (message : string)
| ErrorShown (message : string)
| Warn (message : string)
| ConsoleError (message : string).

#[projections(primitive)]
Record State := {
  heap : list FileObj;
  files : list ref;                (* this.files *)
  vsliceStructure : Structure;     (* this.vsliceStructure *)
  events : list Event
}.

(** The state after [new FNFConverter()]. *)
Definition initial : State :=
  {| heap := []; files := [];
     vsliceStructure := {| songs := []; data := []; images := [] |};
     events := [] |}.

(** [p(file)] for the file a reference points to. *)
Definition at_ref (h : list FileObj) (p : File → bool) (r : ref) : bool :=
  from_option (λ o, p (file o)) false (h !! r).

(** ** The monad of the methods: state and exceptions *)

Inductive outcome (A : Type) :=
| Ok (a : A) (st : State)
| Throw (message : string) (st : State).
Arguments Ok {A} a st.
Arguments Throw {A} message st.

Definition M (A : Type) : Type := State → outcome A.

#[global] Instance M_ret : MRet M := λ A a st, Ok a st.
#[global] Instance M_bind : MBind M := λ A B k m st,
  match m st with
  | Ok a st' => k a st'
  | Throw e st' => Throw e st'
  end.

Definition throw {A} (message : string) : M A := λ st, Throw message st.
Definition get_state : M State := λ st, Ok st st.
Definition modify (f : State → State) : M unit := λ st, Ok () (f st).

(** [try { body } catch (error) { handler(error.message) }] *)
Definition try_catch {A} (body : M A) (handler : string → M A) : M A := λ st,
  match body st with
  | Ok a st' => Ok a st'
  | Throw e st' => handler e st'
  end.

Definition emit (e : Event) : M unit :=
  modify (λ st, {| heap := heap st; files := files st;
                   vsliceStructure := vsliceStructure st;
                   events := events st ++ [e] |}).

Definition set_heap (h : list FileObj) : M unit :=
  modify (λ st, {| heap := h; files := files st;
                   vsliceStructure := vsliceStructure st; events := events st |}).

Definition set_files (l : list ref) : M unit :=
  modify (λ st, {| heap := heap st; files := l;
                   vsliceStructure := vsliceStructure st; events := events st |}).

Definition set_vsliceStructure (s : Structure) : M unit :=
  modify (λ st, {| heap := heap st; files := files st;
                   vsliceStructure := s; events := events st |}).

Definition updateUI (progress : N) (message : string) : M unit :=
  emit (Progress progress message).

Definition showError (message : string) : M unit :=
  emit (ErrorShown message).

(** [for (const x of l) { body(x) }] *)
Fixpoint for_of {A} (l : list A) (body : A → M unit) : M unit :=
  match l with
  | [] => mret ()
  | x :: rest => body x;; for_of rest body
  end.

(** The objects of a list of files enter the heap; the result is their
    references, in the order of the list. *)
Definition alloc (fs : list File) : M (list ref) :=
  st ← get_state;
  set_heap (heap st ++ map fresh fs);;
  mret (seq (List.length (heap st)) (List.length fs)).

(** ** The archive library *)

(** An entry of [content.files] after [zip.loadAsync]: its name, its [dir]
    flag and what [async('blob')] resolves to ([None] when it rejects). *)
Record ZipObject := { zname : string; dir : bool; async_blob : option Blob }.

(** No name occurs twice. *)
Fixpoint distinct (names : list string) : bool :=
  match names with
  | [] => true
  | n :: rest => negb (existsb (String.eqb n) rest) && distinct rest
  end.

(** [content.files], what [zip.loadAsync] resolves to: the entries in the
    order of [Object.keys].  Their names are the keys of one object, so no
    two entries have the same name. *)
Record ZipFiles :=
  { zfiles :> list ZipObject; zkeys : distinct (map zname zfiles) = true }.

(** What [file(path, content)] is given: a string or the [File] itself. *)
Inductive Content :=
| CText (s : string)
| CFile (f : File).

(** A [JSZip] handle: its [root] prefix and the file entries of its
    [files] table, one per path, in the order the paths were first added.
    [folder] returns a handle on the same entries with a longer root; the
    folder entries themselves are left implicit in the paths. *)
Record JSZip := { root : string; entries : list (string * Content) }.

Definition new_JSZip : JSZip := {| root := ""; entries := [] |}.

Definition zip_folder (z : JSZip) (name : string) : JSZip :=
  {| root := root z +:+ name +:+ "/"; entries := entries z |}.

(** [files[path] = c] on the table: a path that is there already keeps its
    place and gets the new content, a new path goes to the end. *)
Fixpoint store (path : string) (c : Content) (es : list (string * Content))
    : list (string * Content) :=
  match es with
  | [] => [(path, c)]
  | (p, c') :: rest =>
    if String.eqb p path then (p, c) :: rest else (p, c') :: store path c rest
  end.

Definition zip_file (z : JSZip) (path : string) (c : Content) : JSZip :=
  {| root := root z; entries := store (root z +:+ path) c (entries z) |}.

(** ** The methods of [FNFConverter] *)

Definition isValidType (f : File) : bool :=
  existsb (λ ext, endsWith (toLowerCase (name f)) ext) SUPPORTED_FILES.

Definition isValidSize (f : File) : bool := (size f <=? MAX_FILE_SIZE)%N.

Definition isValid (f : File) : bool := isValidType f && isValidSize f.

Definition isZip (f : File) : bool := endsWith (name f) ".zip".
Definition isSong (f : File) : bool :=
  endsWith (name f) ".ogg" || includes (name f) "/songs/".
Definition isData (f : File) : bool :=
  endsWith (name f) ".json" || includes (name f) "/data/".
Definition isImage (f : File) : bool :=
  endsWith (name f) ".png" || includes (name f) "/images/".

(** * Definitions for the statements *)

(** A chart source as the data model has it: an object whose [notes], when
    present, is an array of note records. *)
Definition is_record (v : value) : bool :=
  match v with VObj _ => true | _ => false end.

Definition source_notes (props : list (string * value)) : option (list value) :=
  match lookup "notes" props with
  | VUndef => Some []
  | VArr ns => Some ns
  | _ => None
  end.

(** [out] is [src] with [dflt] as its default: the default when the source
    field is absent, the source value when it is truthy. *)
Definition defaulted (src dflt out : value) : Prop :=
  (src = VUndef → out = dflt) ∧ (truthy src = true → out = src).

(** [out] is [src || dflt]: the default when the source value is falsy,
    the source value when it is truthy. *)
Definition or_else (src dflt out : value) : Prop :=
  (truthy src = false → out = dflt) ∧ (truthy src = true → out = src).

(** The object without its property [k]. *)
Definition erase (k : string) (props : list (string * value)) : list (string * value) :=
  List.filter (λ kv, negb (String.eqb k (fst kv))) props.

Definition add_events (es : list Event) (st : State) : State :=
  {| heap := heap st; files := files st;
     vsliceStructure := vsliceStructure st; events := events st ++ es |}.

(** The warnings of [validateFiles] for one rejected candidate. *)
Definition warnings (f : File) : list Event :=
  (if isValidType f then [] else [Warn ("Unsupported file type: " +:+ name f)]) ++
  (if isValidSize f then [] else [Warn ("File too large: " +:+ name f)]).

(** The files made from the listing of an archive: one per entry that is
    not a directory, in the order of the listing. *)
Definition entryFile (e : ZipObject) : option File :=
  fileData ← async_blob e; Some (newFile fileData (zname e)).

Definition readEntries (content : list ZipObject) : option (list File) :=
  mapM entryFile (List.filter (λ e, negb (dir e)) content).

(** The table after the calls [ws] of [file], made in order on the table
    [es]. *)
Definition store_all (es ws : list (string * Content)) : list (string * Content) :=
  foldl (λ es w, store (fst w) (snd w) es) es ws.

Ltac unfold_M_only :=
  cbv beta iota delta
    [mbind M_bind mret M_ret throw get_state modify try_catch emit set_heap
     set_files set_vsliceStructure updateUI showError alloc].

Ltac unfold_M := unfold_M_only; simpl.

(** The working set [validateFiles] leaves, given the heap before. *)
Definition validated (h : list FileObj) (batch : list File) : list ref :=
  List.filter (at_ref (h ++ map fresh batch) isValid)
              (seq (List.length h) (List.length batch)).

(** The state [extractArchive] leaves when it expands [zipFile] into the
    files [fs]. *)
Definition expanded (zipFile : ref) (fs : list File) (st : State) : State :=
  {| heap := heap st ++ map fresh fs;
     files := List.filter (λ f, negb (Nat.eqb f zipFile)) (files st) ++
              seq (List.length (heap st)) (List.length fs);
     vsliceStructure := vsliceStructure st;
     events := events st ++ [Progress 20 "Extracting archive..."] |}.

Inductive Bucket := Songs | Data | Images.

Definition folderName (b : Bucket) : string :=
  match b with Songs => "songs" | Data => "data" | Images => "images" end.

Definition bucket (b : Bucket) (s : Structure) : list ref :=
  match b with Songs => songs s | Data => data s | Images => images s end.

Definition rule (b : Bucket) : File → bool :=
  match b with Songs => isSong | Data => isData | Images => isImage end.

(** Where [createVSliceZip] writes a file of bucket [b]. *)
Definition archivePath (b : Bucket) (f : File) : string :=
  "vslice_mod/" +:+ folderName b +:+ "/" +:+ name f.



(** The entries put where the archive was: the place the specification
    gives them.  Per the specification, the first file equal to [zipFile]
    is replaced by [entries] and the rest of the working set follows. *)
Fixpoint insert_in_place (zipFile : ref) (entries l : list ref) : list ref :=
  match l with
  | [] => []
  | r :: rest =>
    if Nat.eqb r zipFile then entries ++ rest
    else r :: insert_in_place zipFile entries rest
  end.

(** [null] and [undefined]: the values whose properties cannot be read. *)
Definition nullish (v : value) : bool :=
  match v with VUndef | VNull => true | _ => false end.

(** What [fnfChart.notes] reads on a value that is not nullish. *)
Definition chart_notes (chart : value) : value :=
  match chart with VObj props => lookup "notes" props | _ => VUndef end.

(** The charts [convertToVSlice] does not throw on: not nullish, and
    [notes] falsy or an array without nullish elements. *)
Definition convertible (chart : value) : bool :=
  negb (nullish chart) &&
  (negb (truthy (chart_notes chart)) ||
   match chart_notes chart with
   | VArr ns => forallb (λ n, negb (nullish n)) ns
   | _ => false
   end).

(** A value that is truthy, or the number [0]. *)
Definition truthy_or_zero (v : value) : Prop :=
  truthy v = true ∨ v = VNum 0.

(** The list without its first element that satisfies [p]. *)
Fixpoint remove_first {A} (p : A → bool) (l : list A) : list A :=
  match l with
  | [] => []
  | x :: rest => if p x then rest else x :: remove_first p rest
  end.

(** The references [refs] point, one for one and in order, at objects of
    the heap that are the files [fs], with nothing converted or flagged. *)
Definition points_to (h : list FileObj) (refs : list ref) (fs : list File) : Prop :=
  Forall2 (λ r f, h !! r = Some (fresh f)) refs fs.

(** The percentages [updateUI] was called with, in order. *)
Definition progress_values (es : list Event) : list N :=
  flat_map (λ e, match e with Progress p _ => [p] | _ => [] end) es.

Definition is_ErrorShown (e : Event) : bool :=
  match e with ErrorShown _ => true | _ => false end.

(** Console output only: no progress and no error banner. *)
Definition console_only (es : list Event) : Prop :=
  Forall (λ e, match e with Warn _ | ConsoleError _ => True | _ => False end) es.

(** The state a computation ends in, returned or thrown. *)
Definition state_of {A} (o : outcome A) : State :=
  match o with Ok _ st => st | Throw _ st => st end.

(** ** The page *)

(** The elements the script writes to: whether [#progress], [#result]
    and [#error] are displayed, the value of the progress bar, the text
    of [#status] and of [#error], what a click on [#downloadBtn] saves
    (the file's name and its entries), and the console. *)
Record Page := {
  progressVisible : bool;
  resultVisible : bool;
  errorVisible : bool;
  progressValue : N;
  status : string;
  errorText : string;
  download : option (string * list (string * Content));
  console : list string
}.

(** What [updateUI], [showError], [console.warn] and [console.error]
    write. *)
Definition show (e : Event) (p : Page) : Page :=
  match e with
  | Progress v m =>
    {| progressVisible := progressVisible p; resultVisible := resultVisible p;
       errorVisible := errorVisible p; progressValue := v; status := m;
       errorText := errorText p; download := download p; console := console p |}
  | ErrorShown m =>
    {| progressVisible := progressVisible p; resultVisible := resultVisible p;
       errorVisible := true; progressValue := progressValue p; status := status p;
       errorText := m; download := download p; console := console p |}
  | Warn m | ConsoleError m =>
    {| progressVisible := progressVisible p; resultVisible := resultVisible p;
       errorVisible := errorVisible p; progressValue := progressValue p;
       status := status p; errorText := errorText p; download := download p;
       console := console p ++ [m] |}
  end.

Definition render (es : list Event) (p : Page) : Page :=
  foldl (λ p e, show e p) p es.

(** ** Concrete inputs *)

(** Small stand-ins for the collaborators: a decoder of ASCII text, a
    parser that knows the documents of the examples, a serializer with a
    fixed output and an archive reader that knows two archives. *)
Module Example.

Definition bytes (s : string) : Blob := list_byte_of_string s.

Definition text (b : Blob) : string := string_of_list_byte b.

Definition JSON_parse (s : string) : option value :=
  if String.eqb s "{}" then Some (VObj [])
  else if String.eqb s "null" then Some VNull
  else None.

Definition JSON_stringify (t : Chart.Target) : string := "{ metadata, notes }".

Definition mod_listing : ZipFiles :=
  {| zfiles :=
       [ {| zname := "songs/"; dir := true; async_blob := Some [] |};
         {| zname := "songs/a.ogg"; dir := false;
            async_blob := Some (bytes "OggS") |};
         {| zname := "data/b.json"; dir := false;
            async_blob := Some (bytes "{}") |};
         {| zname := "images/c.png"; dir := false;
            async_blob := Some (bytes "PNG") |} ];
     zkeys := eq_refl |}.

Definition extra_listing : ZipFiles :=
  {| zfiles :=
       [ {| zname := "mod/songs/readme.txt"; dir := false;
            async_blob := Some (bytes "read me") |};
         {| zname := "mod/inner.zip"; dir := false;
            async_blob := Some (bytes "PK") |} ];
     zkeys := eq_refl |}.

Definition pack_listing : ZipFiles :=
  {| zfiles :=
       [ {| zname := "track.ogg"; dir := false;
            async_blob := Some (bytes "ZZZZ") |} ];
     zkeys := eq_refl |}.

Definition loadAsync (b : Blob) : option ZipFiles :=
  if String.eqb (text b) "PK mod" then Some mod_listing
  else if String.eqb (text b) "PK extra" then Some extra_listing
  else if String.eqb (text b) "PK pack" then Some pack_listing
  else None.

Definition mod_zip : File := {| name := "mod.zip"; blob := bytes "PK mod" |}.
Definition extra_zip : File := {| name := "extra.zip"; blob := bytes "PK extra" |}.
Definition track_ogg : File := {| name := "track.ogg"; blob := bytes "OggS" |}.
Definition chart_json : File := {| name := "chart.json"; blob := bytes "{}" |}.
Definition broken_json : File := {| name := "broken.json"; blob := bytes "{" |}.
Definition readme_txt : File := {| name := "readme.txt"; blob := bytes "read me" |}.
Definition weird_png : File := {| name := "extra/data/weird.png"; blob := bytes "PNG" |}.

(** A working set with one file, as [validateFiles] leaves it. *)
Definition one_file (f : File) : State :=
  {| heap := [fresh f]; files := [0];
     vsliceStructure := {| songs := []; data := []; images := [] |};
     events := [] |}.

(** A working set with two files. *)
Definition two_files (f g : File) : State :=
  {| heap := [fresh f; fresh g]; files := [0; 1];
     vsliceStructure := {| songs := []; data := []; images := [] |};
     events := [] |}.

Definition broken_zip : File := {| name := "broken.zip"; blob := bytes "not a zip" |}.
Definition upper_zip : File := {| name := "MOD.ZIP"; blob := bytes "PK mod" |}.
Definition upper_ogg : File := {| name := "Track.OGG"; blob := bytes "OggS" |}.

Definition icon_png : File := {| name := "icon.png"; blob := bytes "PNG" |}.

Definition pack_zip : File := {| name := "pack.zip"; blob := bytes "PK pack" |}.

(** Another audio file with the name of [track_ogg] and other bytes. *)
Definition track_ogg_again : File :=
  {| name := "track.ogg"; blob := bytes "OggS again" |}.

End Example.

Section Converter.

(** [blob.text()], [JSON.parse], [JSON.stringify(x, null, 2)] and the
    [files] of what [zip.loadAsync(blob)] resolves to ([None] when the
    promise rejects). *)
Variable text : Blob → string.
Variable JSON_parse : string → option value.
Variable JSON_stringify : Chart.Target → string.
Variable loadAsync : Blob → option ZipFiles.

(** A promise of a collaborator, awaited: a rejection is thrown. *)
Definition await {A} (p : option A) : M A :=
  match p with
  | Some a => mret a
  | None => throw "rejected"
  end.

(** The body of the filter callback of [validateFiles], for its
    warnings. *)
Definition warn_rejected (f : File) : M unit :=
  (if isValidType f then mret ()
   else emit (Warn ("Unsupported file type: " +:+ name f)));;
  (if isValidSize f then mret ()
   else emit (Warn ("File too large: " +:+ name f))).

Definition validateFiles (batch : list File) : M unit :=
  match batch with
  | [] => throw "No files selected"
  | _ =>
    refs ← alloc batch;
    for_of batch warn_rejected;;
    st ← get_state;
    set_files (List.filter (at_ref (heap st) isValid) refs);;
    st ← get_state;
    match files st with
    | [] => throw "No supported files found"
    | _ => mret ()
    end
  end.

Definition hasArchive : M bool :=
  st ← get_state;
  mret (existsb (at_ref (heap st) isZip) (files st)).

(** [content.files[name].async('blob')] then [new File([fileData], name)] *)
Definition extractEntry (e : ZipObject) : M File :=
  fileData ← await (async_blob e);
  mret (newFile fileData (zname e)).

(** [Promise.all(l.map(f))] *)
Fixpoint all_map {A B} (f : A → M B) (l : list A) : M (list B) :=
  match l with
  | [] => mret []
  | x :: rest => y ← f x; ys ← all_map f rest; mret (y :: ys)
  end.

Definition extractArchive : M unit :=
  updateUI 20 "Extracting archive...";;
  st ← get_state;
  match List.find (at_ref (heap st) isZip) (files st) with
  | None => mret ()
  | Some zipFile =>
    try_catch
      (o ← await (heap st !! zipFile);
       content ← await (loadAsync (blob (file o)));
       zipFiles ← all_map extractEntry
                    (List.filter (λ e, negb (dir e)) (zfiles content));
       refs ← alloc zipFiles;
       st ← get_state;
       set_files (List.filter (λ f, negb (Nat.eqb f zipFile)) (files st) ++ refs))
      (λ _, throw "Failed to extract ZIP file")
  end.

Definition organizeFiles : M unit :=
  updateUI 40 "Organizing files...";;
  st ← get_state;
  set_vsliceStructure
    {| songs := List.filter (at_ref (heap st) isSong) (files st);
       data := List.filter (at_ref (heap st) isData) (files st);
       images := List.filter (at_ref (heap st) isImage) (files st) |}.

(** The body of the loop of [convertCharts]. *)
Definition convertChart (r : ref) : M unit :=
  st ← get_state;
  match heap st !! r with
  | None => mret ()
  | Some o =>
    if endsWith (name (file o)) ".json" then
      match JSON_parse (text (blob (file o))) ≫= convertToVSlice with
      | Some t => set_heap (alter (set_converted t) r (heap st))
      | None =>
        emit (ConsoleError ("Chart conversion failed for " +:+ name (file o) +:+ ":"));;
        st ← get_state;
        set_heap (alter set_conversionError r (heap st))
      end
    else mret ()
  end.

Definition convertCharts : M unit :=
  updateUI 60 "Converting charts...";;
  st ← get_state;
  for_of (data (vsliceStructure st)) convertChart.

(** The body of the [forEach] of [addFiles]. *)
Definition addFile (h : list FileObj) (folderName : string) (vslice : JSZip)
    (r : ref) : JSZip :=
  match h !! r with
  | None => vslice
  | Some o =>
    if conversionError o then vslice
    else
      let content :=
        match converted o with
        | Some t => CText (JSON_stringify t)
        | None => CFile (file o)
        end in
      zip_file vslice (folderName +:+ "/" +:+ name (file o)) content
  end.

Definition addFiles (h : list FileObj) (vslice : JSZip) (l : list ref)
    (folderName : string) : JSZip :=
  foldl (addFile h folderName) vslice l.

(** The result stands for [new File([content], "vslice_mod.zip")]: the
    entries the generated archive is made of. *)
Definition createVSliceZip : M (list (string * Content)) :=
  updateUI 80 "Creating package...";;
  st ← get_state;
  let zip := new_JSZip in
  let vslice := zip_folder zip "vslice_mod" in
  let vslice := addFiles (heap st) vslice (songs (vsliceStructure st)) "songs" in
  let vslice := addFiles (heap st) vslice (data (vsliceStructure st)) "data" in
  let vslice := addFiles (heap st) vslice (images (vsliceStructure st)) "images" in
  updateUI 90 "Finalizing...";;
  mret (entries vslice).

(** [if (this.hasArchive()) { await this.extractArchive(); }] *)
Definition extractIfArchive : M unit :=
  archive ← hasArchive;
  if archive : bool then extractArchive else mret ().

Definition processFiles (batch : list File) : M (list (string * Content)) :=
  try_catch
    (updateUI 10 "Checking files...";;
     validateFiles batch;;
     extractIfArchive;;
     organizeFiles;;
     convertCharts;;
     createVSliceZip)
    (λ message, showError message;; throw message).

(** What [extractArchive] reads of the archive [zipFile]: its listing,
    then the files of its entries. *)
Definition unzip (h : list FileObj) (zipFile : ref) : option (list File) :=
  o ← h !! zipFile;
  content ← loadAsync (blob (file o));
  readEntries (zfiles content).

(** What [convertCharts] does to one file object of the data bucket. *)
Definition chartOutcome (o : FileObj) : FileObj :=
  if endsWith (name (file o)) ".json" then
    match JSON_parse (text (blob (file o))) ≫= convertToVSlice with
    | Some t => set_converted t o
    | None => set_conversionError o
    end
  else o.

(** The heap after the loop over [l]: the outcome at the references of
    [l], unchanged elsewhere. *)
Definition converted_heap (l : list ref) (h h' : list FileObj) : Prop :=
  ∀ r, (In r l → h' !! r = chartOutcome <$> h !! r) ∧
       (¬ In r l → h' !! r = h !! r).

(** What [addFiles] hands to the archive for one file object. *)
Definition packed (o : FileObj) : Content :=
  match converted o with
  | Some t => CText (JSON_stringify t)
  | None => CFile (file o)
  end.

(** The call of [file] one reference of a bucket makes under
    [folderName], as the path and the content it writes: none when the
    file is flagged. *)
Definition written (h : list FileObj) (folderName : string) (r : ref)
    : list (string * Content) :=
  match h !! r with
  | None => []
  | Some o =>
    if conversionError o then []
    else [("vslice_mod/" +:+ folderName +:+ "/" +:+ name (file o), packed o)]
  end.

(** The calls of [file] that [createVSliceZip] makes, in order. *)
Definition writes (h : list FileObj) (s : Structure) : list (string * Content) :=
  flat_map (written h "songs") (songs s) ++
  flat_map (written h "data") (data s) ++
  flat_map (written h "images") (images s).

(** The table these calls leave in a new archive. *)
Definition package (h : list FileObj) (s : Structure) : list (string * Content) :=
  store_all [] (writes h s).

(** The stages of [processFiles] up to and including [organizeFiles]. *)
Definition intake (batch : list File) : M unit :=
  updateUI 10 "Checking files...";;
  validateFiles batch;;
  extractIfArchive;;
  organizeFiles.

(** *** The run as a function of the batch *)

(** The files of the working set when [organizeFiles] starts, or the
    message the run throws before: the valid files of the batch, in order,
    with the first one named [*.zip] taken out and the files of its
    entries added at the end. *)
Definition workingSetOf (batch : list File) : string + list File :=
  match batch with
  | [] => inl "No files selected"
  | _ =>
    match List.filter isValid batch with
    | [] => inl "No supported files found"
    | valid =>
      match List.find isZip valid with
      | None => inr valid
      | Some zipFile =>
        match loadAsync (blob zipFile) ≫= (λ content, readEntries (zfiles content)) with
        | Some fs => inr (remove_first isZip valid ++ fs)
        | None => inl "Failed to extract ZIP file"
        end
      end
    end
  end.

(** What is packaged for a file of a bucket: nothing for a [.json] file
    that does not parse or map, the text of the converted chart for one
    that does, the file itself otherwise. *)
Definition contentOf (f : File) : option Content :=
  if endsWith (name f) ".json" then
    match JSON_parse (text (blob f)) ≫= convertToVSlice with
    | Some t => Some (CText (JSON_stringify t))
    | None => None
    end
  else Some (CFile f).

Definition entryOf (b : Bucket) (f : File) : list (string * Content) :=
  if rule b f then
    match contentOf f with
    | Some c => [(archivePath b f, c)]
    | None => []
    end
  else [].

(** The calls of [file] for the working set [W], bucket after bucket, and
    the table they leave: a path written more than once keeps the place of
    its first call and the content of its last. *)
Definition writesOf (W : list File) : list (string * Content) :=
  flat_map (entryOf Songs) W ++ flat_map (entryOf Data) W ++
  flat_map (entryOf Images) W.

Definition archiveOf (W : list File) : list (string * Content) :=
  store_all [] (writesOf W).

(** [handleFiles] of the page's event handlers, on the page as it is when
    the files are dropped or picked; the result is the page when the
    handler is done (the timer of [showError] has not fired yet). *)
Definition handleFiles (batch : list File) (page : Page) : Page :=
  let page :=
    {| progressVisible := true; resultVisible := false; errorVisible := false;
       progressValue := progressValue page; status := status page;
       errorText := errorText page; download := download page;
       console := console page |} in
  match processFiles batch initial with
  | Ok result st' =>
    let page := render (events st') page in
    {| progressVisible := progressVisible page; resultVisible := true;
       errorVisible := errorVisible page; progressValue := progressValue page;
       status := status page; errorText := errorText page;
       download := Some ("vslice_mod.zip", result); console := console page |}
  | Throw message st' =>
    let page := render (events st') page in
    {| progressVisible := progressVisible page;
       resultVisible := resultVisible page;
       errorVisible := errorVisible page; progressValue := progressValue page;
       status := status page; errorText := errorText page;
       download := download page;
       console := console page ++ ["Conversion failed: " +:+ message] |}
  end.

(** *** The first text of the class

    Its [extractArchive] and [organizeFiles] are complete; they differ
    from the second text in the progress they show and in the message. *)

Definition extractArchive_optimized : M unit :=
  st ← get_state;
  match List.find (at_ref (heap st) isZip) (files st) with
  | None => mret ()
  | Some zipFile =>
    try_catch
      (o ← await (heap st !! zipFile);
       content ← await (loadAsync (blob (file o)));
       zipFiles ← all_map extractEntry
                    (List.filter (λ e, negb (dir e)) (zfiles content));
       refs ← alloc zipFiles;
       st ← get_state;
       set_files (List.filter (λ f, negb (Nat.eqb f zipFile)) (files st) ++ refs))
      (λ _, throw "Failed to extract ZIP")
  end.

Definition organizeFiles_optimized : M unit :=
  st ← get_state;
  set_vsliceStructure
    {| songs := List.filter (at_ref (heap st) isSong) (files st);
       data := List.filter (at_ref (heap st) isData) (files st);
       images := List.filter (at_ref (heap st) isImage) (files st) |};;
  updateUI 40 "Files organized".

(** * Properties *)

(** ** The chart transformer *)

Lemma or_defaulted src dflt : defaulted src dflt (JS.or src dflt).
Proof.
  split; unfold JS.or.
  - intros ->. reflexivity.
  - intros ->. reflexivity.
Qed.

Lemma convertNote_record p :
  convertNote (VObj p) =
  Some {| Chart.time := lookup "strumTime" p;
          Chart.type := JS.or (lookup "noteType" p) (VStr "default");
          Chart.direction := JS.or (lookup "direction" p) (VStr "middle");
          Chart.length := JS.or (lookup "sustainLength" p) (VNum 0) |}.
Proof. reflexivity. Qed.

(** On note records the conversion of the notes is a plain [map]. *)
Lemma mapM_convertNote_records ns :
  forallb is_record ns = true →
  ∃ out, mapM convertNote ns = Some out ∧
         Forall2 (λ note n, convertNote note = Some n) ns out.
Proof.
  induction ns as [|note ns IH]; simpl; intros H.
  - exists []. split; [reflexivity | constructor].
  - apply andb_prop in H as [Hr Hrest].
    destruct (IH Hrest) as (out & Hout & Hall).
    destruct note; try discriminate.
    eexists. rewrite convertNote_record. simpl. rewrite Hout. simpl.
    split; [reflexivity|]. constructor; [apply convertNote_record | exact Hall].
Qed.

Lemma convertToVSlice_object props :
  convertToVSlice (VObj props) =
  out ← array_map convertNote (JS.or (lookup "notes" props) (VArr []));
  Some {| Chart.metadata :=
            {| Chart.name := JS.or (lookup "song" props) (VStr "Unknown");
               Chart.bpm := JS.or (lookup "bpm" props) (VNum 100);
               Chart.speed := JS.or (lookup "speed" props) (VNum 1) |};
          Chart.notes := out |}.
Proof. reflexivity. Qed.

Lemma source_notes_array props ns :
  source_notes props = Some ns →
  JS.or (lookup "notes" props) (VArr []) = VArr ns.
Proof.
  unfold source_notes, JS.or.
  destruct (lookup "notes" props); intros [= <-]; reflexivity.
Qed.

(** C1. For a chart source (an object whose [notes] is absent or an array
    of note records) [convertToVSlice] returns a target whose metadata
    [name], [bpm] and [speed] are the source's [song], [bpm] and [speed]
    with the defaults ["Unknown"], [100] and [1] when the field is absent,
    and whose notes are the source's notes in the same order, one for one:
    [time] is the note's [strumTime] as it is ([undefined] when missing),
    [type], [direction] and [length] are [noteType], [direction] and
    [sustainLength] with the defaults ["default"], ["middle"] and [0].  The
    chart [{"song":"Test","bpm":150,"notes":[{"strumTime":1000,
    "direction":"left"}]}] maps to exactly the target of the
    specification. *)
Theorem C1_convertToVSlice_fields_and_defaults
    (props : list (string * value)) (ns : list value) :
  source_notes props = Some ns →
  forallb is_record ns = true →
  (∃ t, convertToVSlice (VObj props) = Some t ∧
     defaulted (lookup "song" props) (VStr "Unknown") (Chart.name (Chart.metadata t)) ∧
     defaulted (lookup "bpm" props) (VNum 100) (Chart.bpm (Chart.metadata t)) ∧
     defaulted (lookup "speed" props) (VNum 1) (Chart.speed (Chart.metadata t)) ∧
     List.length (Chart.notes t) = List.length ns ∧
     ∀ (i : nat) (p : list (string * value)),
       ns !! i = Some (VObj p) →
       ∃ n, Chart.notes t !! i = Some n ∧
         Chart.time n = lookup "strumTime" p ∧
         defaulted (lookup "noteType" p) (VStr "default") (Chart.type n) ∧
         defaulted (lookup "direction" p) (VStr "middle") (Chart.direction n) ∧
         defaulted (lookup "sustainLength" p) (VNum 0) (Chart.length n)) ∧
  convertToVSlice
    (VObj [("song", VStr "Test"); ("bpm", VNum 150);
           ("notes", VArr [VObj [("strumTime", VNum 1000);
                                 ("direction", VStr "left")]])])
  = Some {| Chart.metadata := {| Chart.name := VStr "Test";
                                 Chart.bpm := VNum 150;
                                 Chart.speed := VNum 1 |};
            Chart.notes := [ {| Chart.time := VNum 1000;
                                Chart.type := VStr "default";
                                Chart.direction := VStr "left";
                                Chart.length := VNum 0 |} ] |}.
Proof.
  intros Hnotes Hrec. split; [|reflexivity].
  destruct (mapM_convertNote_records ns Hrec) as (out & Hout & Hall).
  rewrite convertToVSlice_object, (source_notes_array _ _ Hnotes).
  simpl. rewrite Hout. simpl. eexists. split; [reflexivity|]. simpl.
  repeat (split; [apply or_defaulted|]).
  split; [symmetry; eapply Forall2_length; exact Hall|].
  intros i p Hi.
  destruct (Forall2_lookup_l _ _ _ _ _ Hall Hi) as (n & Hn & Hconv).
  exists n. split; [exact Hn|].
  rewrite convertNote_record in Hconv. injection Hconv as <-. simpl.
  repeat split; apply or_defaulted.
Qed.

Lemma C1_witness :
  ∃ t, convertToVSlice (VObj [("song", VStr "Test"); ("notes", VArr [VObj []])]) = Some t ∧
       Chart.bpm (Chart.metadata t) = VNum 100 ∧
       List.length (Chart.notes t) = 1.
Proof.
  destruct (C1_convertToVSlice_fields_and_defaults
              [("song", VStr "Test"); ("notes", VArr [VObj []])] [VObj []]
              eq_refl eq_refl) as [(t & Ht & _ & [Hbpm _] & _ & Hlen & _) _].
  exists t. split; [exact Ht|]. split; [apply Hbpm; reflexivity | exact Hlen].
Defined.

(** A mapping failure: [null] is valid JSON, and reading its [song] is a
    [TypeError], which [convertCharts] catches. *)
Remark convertToVSlice_null : convertToVSlice VNull = None.
Proof. reflexivity. Qed.

(** *** Falsy fields *)

Lemma lookup_erase_eq k props : lookup k (erase k props) = VUndef.
Proof.
  induction props as [|[k' v] props IH]; simpl; [reflexivity|].
  destruct (String.eqb k k') eqn:E; simpl; [exact IH|].
  rewrite E. exact IH.
Qed.

Lemma lookup_erase_ne k k' props :
  k ≠ k' → lookup k' (erase k props) = lookup k' props.
Proof.
  intros Hne. induction props as [|[k0 v] props IH]; simpl; [reflexivity|].
  destruct (String.eqb k k0) eqn:E; simpl.
  - apply String.eqb_eq in E. subst k0.
    destruct (String.eqb k' k) eqn:E'; [|exact IH].
    apply String.eqb_eq in E'. congruence.
  - rewrite IH. reflexivity.
Qed.

Lemma or_falsy v dflt : truthy v = false → JS.or v dflt = dflt.
Proof. unfold JS.or. intros ->. reflexivity. Qed.

Lemma or_erase k k' props dflt :
  truthy (lookup k props) = false →
  JS.or (lookup k' (erase k props)) dflt = JS.or (lookup k' props) dflt.
Proof.
  intros Hf. destruct (String.eqb_spec k k') as [<-|Hne].
  - rewrite lookup_erase_eq, (or_falsy _ _ Hf). reflexivity.
  - rewrite lookup_erase_ne by exact Hne. reflexivity.
Qed.

Lemma mapM_insert_same {A B} (f : A → option B) (l : list A) i x y :
  l !! i = Some x → f y = f x → mapM f (<[i:=y]> l) = mapM f l.
Proof.
  revert i. induction l as [|a l IH]; intros [|i] Hi Hf; simpl in *; try discriminate.
  - injection Hi as ->. rewrite Hf. reflexivity.
  - rewrite (IH i Hi Hf). reflexivity.
Qed.

Lemma or_or_else src dflt : or_else src dflt (JS.or src dflt).
Proof. split; unfold JS.or; intros ->; reflexivity. Qed.

(** The target of a chart source, field by field. *)
Lemma convertToVSlice_source props ns :
  source_notes props = Some ns →
  forallb is_record ns = true →
  ∃ out,
    convertToVSlice (VObj props) =
    Some {| Chart.metadata :=
              {| Chart.name := JS.or (lookup "song" props) (VStr "Unknown");
                 Chart.bpm := JS.or (lookup "bpm" props) (VNum 100);
                 Chart.speed := JS.or (lookup "speed" props) (VNum 1) |};
            Chart.notes := out |} ∧
    Forall2 (λ note n, convertNote note = Some n) ns out.
Proof.
  intros Hnotes Hrec.
  destruct (mapM_convertNote_records ns Hrec) as (out & Hout & Hall).
  exists out. split; [|exact Hall].
  rewrite convertToVSlice_object, (source_notes_array _ _ Hnotes).
  simpl. rewrite Hout. reflexivity.
Qed.

(** C9. A field whose value is falsy ([0], the empty string, and likewise
    [null], [false], [-0]) is converted exactly as if the object did not
    have it.  For [song], [bpm] and [speed]: the chart without the
    property has the same target, and on a chart source that target has
    the default there (["Unknown"], [100], [1]), each metadata field
    being the default when the source value is falsy and the source value
    when it is truthy, and the notes being the source's notes, one for
    one.  For a note's [noteType] and [direction]: the note without the
    property has the same target note, which has the default there
    (["default"], ["middle"]), [time] being [strumTime] and the other
    fields the source value when truthy; the chart in which that note is
    replaced has the same target, and that target has this note at the
    same place.  So [bpm] 0 becomes 100, [song] [""] becomes ["Unknown"]
    and [speed] 0 becomes 1, while a truthy [song] and the notes stay. *)
Theorem C9_falsy_field_is_absent_field
    (props : list (string * value)) (k : string) :
  truthy (lookup k props) = false →
  (In k ["song"; "bpm"; "speed"] →
     convertToVSlice (VObj props) = convertToVSlice (VObj (erase k props)) ∧
     ∀ ns, source_notes props = Some ns → forallb is_record ns = true →
       ∃ t, convertToVSlice (VObj props) = Some t ∧
         (k = "song" → Chart.name (Chart.metadata t) = VStr "Unknown") ∧
         (k = "bpm" → Chart.bpm (Chart.metadata t) = VNum 100) ∧
         (k = "speed" → Chart.speed (Chart.metadata t) = VNum 1) ∧
         or_else (lookup "song" props) (VStr "Unknown") (Chart.name (Chart.metadata t)) ∧
         or_else (lookup "bpm" props) (VNum 100) (Chart.bpm (Chart.metadata t)) ∧
         or_else (lookup "speed" props) (VNum 1) (Chart.speed (Chart.metadata t)) ∧
         List.length (Chart.notes t) = List.length ns ∧
         ∀ (i : nat) (p : list (string * value)),
           ns !! i = Some (VObj p) →
           ∃ n, Chart.notes t !! i = Some n ∧
             Chart.time n = lookup "strumTime" p ∧
             or_else (lookup "noteType" p) (VStr "default") (Chart.type n) ∧
             or_else (lookup "direction" p) (VStr "middle") (Chart.direction n) ∧
             or_else (lookup "sustainLength" p) (VNum 0) (Chart.length n)) ∧
  (In k ["noteType"; "direction"] →
     ∃ n, convertNote (VObj props) = Some n ∧
       convertNote (VObj (erase k props)) = Some n ∧
       (k = "noteType" → Chart.type n = VStr "default") ∧
       (k = "direction" → Chart.direction n = VStr "middle") ∧
       Chart.time n = lookup "strumTime" props ∧
       or_else (lookup "noteType" props) (VStr "default") (Chart.type n) ∧
       or_else (lookup "direction" props) (VStr "middle") (Chart.direction n) ∧
       or_else (lookup "sustainLength" props) (VNum 0) (Chart.length n) ∧
       ∀ (chart : list (string * value)) (ns : list value) (i : nat),
         lookup "notes" chart = VArr ns →
         ns !! i = Some (VObj props) →
         convertToVSlice (VObj chart) =
         convertToVSlice
           (VObj (("notes", VArr (<[i := VObj (erase k props)]> ns)) :: chart)) ∧
         (forallb is_record ns = true →
          ∃ t, convertToVSlice (VObj chart) = Some t ∧
               List.length (Chart.notes t) = List.length ns ∧
               Chart.notes t !! i = Some n)) ∧
  (Chart.metadata <$> convertToVSlice (VObj [("song", VStr ""); ("bpm", VNum 0); ("speed", VNum 0)])
   = Chart.metadata <$> convertToVSlice (VObj []) ∧
   Chart.metadata <$> convertToVSlice (VObj [])
   = Some {| Chart.name := VStr "Unknown"; Chart.bpm := VNum 100; Chart.speed := VNum 1 |} ∧
   convertToVSlice
     (VObj [("song", VStr "Test"); ("bpm", VNum 0);
            ("notes", VArr [VObj [("strumTime", VNum 1000); ("noteType", VStr "");
                                  ("direction", VStr "left")]])])
   = Some {| Chart.metadata := {| Chart.name := VStr "Test";
                                  Chart.bpm := VNum 100;
                                  Chart.speed := VNum 1 |};
             Chart.notes := [ {| Chart.time := VNum 1000;
                                 Chart.type := VStr "default";
                                 Chart.direction := VStr "left";
                                 Chart.length := VNum 0 |} ] |}).
Proof.
  intros Hf. split; [|split; [|split; [|split]; reflexivity]].
  - intros Hk. split.
    + rewrite !convertToVSlice_object.
      assert (Hn : lookup "notes" (erase k props) = lookup "notes" props).
      { apply lookup_erase_ne. simpl in Hk.
        destruct Hk as [<-|[<-|[<-|[]]]]; discriminate. }
      rewrite Hn, !(or_erase k _ props _ Hf). reflexivity.
    + intros ns Hnotes Hrec.
      destruct (convertToVSlice_source props ns Hnotes Hrec) as (out & Ht & Hall).
      eexists. split; [exact Ht|]. cbn [Chart.metadata Chart.name Chart.bpm
                                         Chart.speed Chart.notes].
      split; [intros ->; apply or_falsy, Hf|].
      split; [intros ->; apply or_falsy, Hf|].
      split; [intros ->; apply or_falsy, Hf|].
      split; [apply or_or_else|]. split; [apply or_or_else|].
      split; [apply or_or_else|].
      split; [symmetry; eapply Forall2_length; exact Hall|].
      intros i p Hi.
      destruct (Forall2_lookup_l _ _ _ _ _ Hall Hi) as (n & Hn & Hconv).
      exists n. split; [exact Hn|].
      rewrite convertNote_record in Hconv. injection Hconv as <-. simpl.
      split; [reflexivity|]. split; [apply or_or_else|].
      split; apply or_or_else.
  - intros Hk.
    assert (Hnote : convertNote (VObj (erase k props)) = convertNote (VObj props)).
    { rewrite !convertNote_record.
      assert (Hs : lookup "strumTime" (erase k props) = lookup "strumTime" props).
      { apply lookup_erase_ne. simpl in Hk. destruct Hk as [<-|[<-|[]]]; discriminate. }
      rewrite Hs, !(or_erase k _ props _ Hf). reflexivity. }
    eexists. split; [apply convertNote_record|].
    split; [rewrite Hnote; apply convertNote_record|].
    cbn [Chart.time Chart.type Chart.direction Chart.length].
    split; [intros ->; apply or_falsy, Hf|].
    split; [intros ->; apply or_falsy, Hf|].
    split; [reflexivity|].
    split; [apply or_or_else|]. split; [apply or_or_else|].
    split; [apply or_or_else|].
    intros chart ns i Hns Hi. split.
    + rewrite !convertToVSlice_object. simpl lookup. rewrite Hns.
      unfold JS.or. simpl.
      rewrite (mapM_insert_same convertNote ns i _ _ Hi Hnote). reflexivity.
    + intros Hrec.
      assert (Hsrc : source_notes chart = Some ns)
        by (unfold source_notes; rewrite Hns; reflexivity).
      destruct (convertToVSlice_source chart ns Hsrc Hrec) as (out & Ht & Hall).
      eexists. split; [exact Ht|]. cbn [Chart.notes].
      split; [symmetry; eapply Forall2_length; exact Hall|].
      destruct (Forall2_lookup_l _ _ _ _ _ Hall Hi) as (n & Hn & Hconv).
      rewrite convertNote_record in Hconv. injection Hconv as <-. exact Hn.
Qed.

(** [bpm] 0 is converted as no [bpm]: the target has [bpm] 100, and keeps
    the [song] it was given. *)
Lemma C9_witness :
  convertToVSlice (VObj [("song", VStr "Test"); ("bpm", VNum 0)])
  = convertToVSlice (VObj [("song", VStr "Test")]) ∧
  ∃ t, convertToVSlice (VObj [("song", VStr "Test"); ("bpm", VNum 0)]) = Some t ∧
       Chart.bpm (Chart.metadata t) = VNum 100 ∧
       Chart.name (Chart.metadata t) = VStr "Test".
Proof.
  destruct (C9_falsy_field_is_absent_field
              [("song", VStr "Test"); ("bpm", VNum 0)] "bpm" eq_refl)
    as [Hchart _].
  destruct (Hchart (or_intror (or_introl eq_refl))) as [Hsame Hsource].
  destruct (Hsource [] eq_refl eq_refl)
    as (t & Ht & _ & Hbpm & _ & [_ Hname] & _).
  split; [exact Hsame|]. exists t. split; [exact Ht|].
  split; [exact (Hbpm eq_refl) | exact (Hname eq_refl)].
Defined.

(** ** The stages, one by one *)

Lemma add_events_nil st : add_events [] st = st.
Proof. unfold add_events. rewrite app_nil_r. reflexivity. Qed.

Lemma add_events_app es1 es2 st :
  add_events es2 (add_events es1 st) = add_events (es1 ++ es2) st.
Proof. unfold add_events. simpl. rewrite app_assoc. reflexivity. Qed.

Lemma warn_rejected_run f st :
  warn_rejected f st = Ok () (add_events (warnings f) st).
Proof.
  unfold warn_rejected, warnings. unfold_M.
  destruct (isValidType f), (isValidSize f); simpl;
    unfold add_events; simpl; rewrite <- ?app_assoc, ?app_nil_r; reflexivity.
Qed.

Lemma for_of_warn_rejected batch st :
  for_of batch warn_rejected st = Ok () (add_events (flat_map warnings batch) st).
Proof.
  revert st. induction batch as [|f batch IH]; intros st; simpl.
  - rewrite add_events_nil. reflexivity.
  - unfold mbind, M_bind. rewrite warn_rejected_run, IH, add_events_app.
    reflexivity.
Qed.

Lemma validateFiles_run batch st :
  validateFiles batch st =
  match batch with
  | [] => Throw "No files selected" st
  | _ =>
    let st' := {| heap := heap st ++ map fresh batch;
                  files := validated (heap st) batch;
                  vsliceStructure := vsliceStructure st;
                  events := events st ++ flat_map warnings batch |} in
    match validated (heap st) batch with
    | [] => Throw "No supported files found" st'
    | _ => Ok () st'
    end
  end.
Proof.
  destruct batch as [|f batch]; [reflexivity|].
  unfold validateFiles. unfold_M_only.
  rewrite for_of_warn_rejected. unfold validated, add_events.
  cbv beta iota zeta. cbn [heap files events vsliceStructure].
  destruct (List.filter _ _); reflexivity.
Qed.

Lemma at_ref_alloc (h : list FileObj) (fs : list File) p i f :
  fs !! i = Some f → at_ref (h ++ map fresh fs) p (List.length h + i) = p f.
Proof.
  intros Hi. unfold at_ref.
  rewrite lookup_app_r by lia.
  replace (List.length h + i - List.length h) with i by lia.
  change (map fresh fs) with (fresh <$> fs).
  rewrite list_lookup_fmap, Hi. reflexivity.
Qed.

Lemma filter_alloc (h : list FileObj) (fs : list File) p :
  List.filter (at_ref (h ++ map fresh fs) p) (seq (List.length h) (List.length fs)) = []
  ↔ List.filter p fs = [].
Proof.
  assert (G : ∀ (l : list File) k,
    (∀ i f, l !! i = Some f → fs !! (k + i) = Some f) →
    List.filter (at_ref (h ++ map fresh fs) p) (seq (List.length h + k) (List.length l)) = []
    ↔ List.filter p l = []).
  { induction l as [|f l IH]; intros k Hl; simpl; [tauto|].
    rewrite (at_ref_alloc h fs p k f).
    2:{ specialize (Hl 0 f eq_refl). rewrite Nat.add_0_r in Hl. exact Hl. }
    destruct (p f); [split; discriminate|].
    replace (S (List.length h + k)) with (List.length h + S k) by lia.
    apply IH. intros i f' Hi. specialize (Hl (S i) f' Hi).
    replace (S k + i) with (k + S i) by lia. exact Hl. }
  specialize (G fs 0). rewrite Nat.add_0_r in G. apply G. intros i f Hi. exact Hi.
Qed.

Lemma validated_nil h batch :
  validated h batch = [] ↔ List.filter isValid batch = [].
Proof. apply filter_alloc. Qed.

Lemma for_of_cons {A} (x : A) l body st :
  for_of (x :: l) body st =
  match body x st with
  | Ok _ st' => for_of l body st'
  | Throw e st' => Throw e st'
  end.
Proof. reflexivity. Qed.

Lemma hasArchive_run st :
  hasArchive st = Ok (existsb (at_ref (heap st) isZip) (files st)) st.
Proof. reflexivity. Qed.

Lemma existsb_find {A} (p : A → bool) (l : list A) :
  existsb p l = true ↔ ∃ x, List.find p l = Some x.
Proof.
  induction l as [|a l IH]; simpl.
  - split; [discriminate | intros [x Hx]; discriminate].
  - destruct (p a); simpl; [split; eauto | exact IH].
Qed.

Lemma all_map_extractEntry l st :
  all_map extractEntry l st =
  match mapM entryFile l with
  | Some fs => Ok fs st
  | None => Throw "rejected" st
  end.
Proof.
  revert st. induction l as [|e l IH]; intros st; [reflexivity|].
  change (all_map extractEntry (e :: l) st)
    with (match extractEntry e st with
          | Ok y st' =>
            match all_map extractEntry l st' with
            | Ok ys st'' => Ok (y :: ys) st''
            | Throw m st'' => Throw m st''
            end
          | Throw m st' => Throw m st'
          end).
  change (mapM entryFile (e :: l))
    with (y ← entryFile e; ys ← mapM entryFile l; Some (y :: ys)).
  unfold extractEntry, entryFile, await.
  destruct (async_blob e) as [d|]; [|reflexivity].
  change (match all_map extractEntry l st with
          | Ok ys st'' => Ok (newFile d (zname e) :: ys) st''
          | Throw m st'' => Throw m st''
          end =
          match ys ← mapM entryFile l; Some (newFile d (zname e) :: ys) with
          | Some fs => Ok fs st
          | None => Throw "rejected" st
          end).
  rewrite IH. destruct (mapM entryFile l); reflexivity.
Qed.

Lemma extractArchive_run st :
  extractArchive st =
  match List.find (at_ref (heap st) isZip) (files st) with
  | None => Ok () (add_events [Progress 20 "Extracting archive..."] st)
  | Some zipFile =>
    match unzip (heap st) zipFile with
    | Some fs => Ok () (expanded zipFile fs st)
    | None => Throw "Failed to extract ZIP file"
                    (add_events [Progress 20 "Extracting archive..."] st)
    end
  end.
Proof.
  unfold extractArchive. unfold_M_only. cbn [heap files].
  destruct (List.find _ _) as [z|]; [|reflexivity].
  unfold unzip, await. unfold_M_only. cbn [heap files].
  destruct (heap st !! z) as [o|]; simpl; [|reflexivity].
  destruct (loadAsync (blob (file o))) as [content|]; simpl; [|reflexivity].
  rewrite all_map_extractEntry. unfold readEntries.
  destruct (mapM entryFile _); reflexivity.
Qed.

Lemma organizeFiles_run st :
  organizeFiles st =
  Ok () {| heap := heap st; files := files st;
           vsliceStructure :=
             {| songs := List.filter (at_ref (heap st) isSong) (files st);
                data := List.filter (at_ref (heap st) isData) (files st);
                images := List.filter (at_ref (heap st) isImage) (files st) |};
           events := events st ++ [Progress 40 "Organizing files..."] |}.
Proof. reflexivity. Qed.

Lemma chartOutcome_file o : file (chartOutcome o) = file o.
Proof.
  unfold chartOutcome. destruct (endsWith _ _); [|reflexivity].
  destruct (_ ≫= _); reflexivity.
Qed.

Lemma chartOutcome_idem o : chartOutcome (chartOutcome o) = chartOutcome o.
Proof.
  unfold chartOutcome at 1. rewrite chartOutcome_file.
  unfold chartOutcome. destruct (endsWith _ _); [|reflexivity].
  destruct (_ ≫= _); reflexivity.
Qed.

Lemma chartOutcome_fmap_idem (o : option FileObj) :
  chartOutcome <$> (chartOutcome <$> o) = chartOutcome <$> o.
Proof. destruct o; simpl; [rewrite chartOutcome_idem|]; reflexivity. Qed.

Lemma chartOutcome_fmap_file (o : option FileObj) :
  file <$> (chartOutcome <$> o) = file <$> o.
Proof. destruct o; simpl; [rewrite chartOutcome_file|]; reflexivity. Qed.

Lemma alter_at (f g : FileObj → FileObj) (h : list FileObj) r o :
  h !! r = Some o → f o = g o → alter f r h = alter g r h.
Proof.
  intros Hr Hfg. apply list_eq. intros i.
  destruct (decide (r = i)) as [<-|Hne].
  - rewrite !list_lookup_alter_eq, Hr. simpl. rewrite Hfg. reflexivity.
  - rewrite !list_lookup_alter_ne by exact Hne. reflexivity.
Qed.

Lemma alter_missing (f : FileObj → FileObj) (h : list FileObj) r :
  h !! r = None → alter f r h = h.
Proof.
  intros Hr. apply list_eq. intros i.
  destruct (decide (r = i)) as [<-|Hne].
  - rewrite list_lookup_alter_eq, Hr. reflexivity.
  - rewrite list_lookup_alter_ne by exact Hne. reflexivity.
Qed.

Lemma alter_fixed (f : FileObj → FileObj) (h : list FileObj) r o :
  h !! r = Some o → f o = o → alter f r h = h.
Proof.
  intros Hr Hf. apply list_eq. intros i.
  destruct (decide (r = i)) as [<-|Hne].
  - rewrite list_lookup_alter_eq, Hr. simpl. rewrite Hf. reflexivity.
  - rewrite list_lookup_alter_ne by exact Hne. reflexivity.
Qed.

(** One turn of the loop changes the heap at [r] only, and nothing else
    but the log. *)
Lemma convertChart_run r st :
  ∃ es, convertChart r st =
        Ok () {| heap := alter chartOutcome r (heap st);
                 files := files st;
                 vsliceStructure := vsliceStructure st;
                 events := events st ++ es |}.
Proof.
  unfold convertChart. unfold_M_only. cbn [heap files events vsliceStructure].
  destruct (heap st !! r) as [o|] eqn:Hr.
  - destruct (endsWith (name (file o)) ".json") eqn:Hjson.
    + destruct (option_bind _ _ convertToVSlice (JSON_parse (text (blob (file o)))))
        as [t|] eqn:Hc.
      * exists []. rewrite app_nil_r. f_equal. f_equal.
        apply (alter_at _ _ _ _ _ Hr). unfold chartOutcome, mbind.
        rewrite Hjson, Hc. reflexivity.
      * eexists. f_equal. f_equal.
        apply (alter_at _ _ _ _ _ Hr). unfold chartOutcome, mbind.
        rewrite Hjson, Hc. reflexivity.
    + exists []. rewrite app_nil_r. f_equal.
      rewrite (alter_fixed _ _ _ _ Hr); [reflexivity|].
      unfold chartOutcome. rewrite Hjson. reflexivity.
  - exists []. rewrite app_nil_r, (alter_missing _ _ _ Hr). reflexivity.
Qed.

Lemma for_of_convertChart l st :
  ∃ st', for_of l (convertChart) st = Ok () st' ∧
         files st' = files st ∧
         vsliceStructure st' = vsliceStructure st ∧
         converted_heap l (heap st) (heap st').
Proof.
  revert st. induction l as [|x l IH]; intros st.
  - exists st. split; [reflexivity|]. split; [reflexivity|].
    split; [reflexivity|]. intros r. split; [intros [] | reflexivity].
  - destruct (convertChart_run x st) as [es Hx].
    destruct (IH {| heap := alter chartOutcome x (heap st);
                    files := files st;
                    vsliceStructure := vsliceStructure st;
                    events := events st ++ es |})
      as (st' & Hrun & Hfiles & Hstruct & Hheap).
    exists st'. rewrite for_of_cons, Hx.
    split; [exact Hrun|]. split; [exact Hfiles|]. split; [exact Hstruct|].
    intros r. destruct (Hheap r) as [Hin Hout]. cbn [heap] in Hin, Hout.
    destruct (decide (x = r)) as [<-|Hne].
    + split; [|intros Hn; exfalso; apply Hn; left; reflexivity].
      intros _. destruct (In_dec Nat.eq_dec x l) as [Hl|Hl].
      * rewrite (Hin Hl), list_lookup_alter_eq.
        apply chartOutcome_fmap_idem.
      * rewrite (Hout Hl), list_lookup_alter_eq. reflexivity.
    + rewrite list_lookup_alter_ne in Hin, Hout by exact Hne. split.
      * intros [Heq|Hl]; [congruence | exact (Hin Hl)].
      * intros Hn. apply Hout. intros Hl. apply Hn. right. exact Hl.
Qed.

Lemma convertCharts_run st :
  ∃ st', convertCharts st = Ok () st' ∧
         files st' = files st ∧
         vsliceStructure st' = vsliceStructure st ∧
         converted_heap (data (vsliceStructure st)) (heap st) (heap st').
Proof.
  destruct (for_of_convertChart (data (vsliceStructure st))
              (add_events [Progress 60 "Converting charts..."] st))
    as (st' & Hrun & Hfiles & Hstruct & Hheap).
  exists st'. split; [exact Hrun|]. split; [exact Hfiles|].
  split; [exact Hstruct | exact Hheap].
Qed.

Lemma converted_heap_files l h h' :
  converted_heap l h h' → map file h' = map file h.
Proof.
  intros Hc. apply list_eq. intros r.
  change (map file h') with (file <$> h'). change (map file h) with (file <$> h).
  rewrite !list_lookup_fmap.
  destruct (Hc r) as [Hin Hout].
  destruct (In_dec Nat.eq_dec r l) as [Hl|Hl].
  - rewrite (Hin Hl). apply chartOutcome_fmap_file.
  - rewrite (Hout Hl). reflexivity.
Qed.

(** *** The file table of the archive *)

Lemma store_paths path c es q :
  In q (map fst (store path c es)) ↔ q = path ∨ In q (map fst es).
Proof.
  induction es as [|[p c'] es IH]; simpl.
  - split; intros [H|H]; auto.
  - destruct (String.eqb_spec p path) as [->|Hne]; simpl.
    + split; [intros [H|H]; auto | intros [H|[H|H]]; auto].
    + rewrite IH. split; [intros [H|[H|H]]; auto | intros [H|[H|H]]; auto].
Qed.

Lemma store_NoDup path c es :
  List.NoDup (map fst es) → List.NoDup (map fst (store path c es)).
Proof.
  induction es as [|[p c'] es IH]; simpl; intros Hnd.
  - constructor; [simpl; tauto | constructor].
  - apply List.NoDup_cons_iff in Hnd as [Hp Hnd].
    destruct (String.eqb_spec p path) as [->|Hne]; simpl.
    + apply List.NoDup_cons_iff. auto.
    + apply List.NoDup_cons_iff. split; [|auto].
      rewrite store_paths. intros [->|H]; [congruence | contradiction].
Qed.

Lemma store_In path c es q d :
  List.NoDup (map fst es) →
  In (q, d) (store path c es) ↔ (q = path ∧ d = c) ∨ (q ≠ path ∧ In (q, d) es).
Proof.
  induction es as [|[p c'] es IH]; simpl; intros Hnd.
  - split.
    + intros [[= <- <-]|[]]. auto.
    + intros [[-> ->]|[_ []]]. auto.
  - apply List.NoDup_cons_iff in Hnd as [Hp Hnd].
    destruct (String.eqb_spec p path) as [->|Hne]; simpl.
    + split.
      * intros [[= <- <-]|Hin]; [auto|]. right. split; [|auto].
        intros ->. apply Hp. apply in_map_iff. exists (path, d). auto.
      * intros [[-> ->]|[Hq [[= -> ->]|Hin]]]; [auto | congruence | auto].
    + rewrite (IH Hnd). split.
      * intros [[= <- <-]|[[-> ->]|[Hq Hin]]]; [right; auto | auto | right; auto].
      * intros [[-> ->]|[Hq [Heq|Hin]]]; [right; left; auto | left; auto | right; right; auto].
Qed.

Lemma store_length path c es :
  (List.length (store path c es) ≤ S (List.length es))%nat.
Proof.
  induction es as [|[p c'] es IH]; simpl; [lia|].
  destruct (String.eqb p path); simpl; lia.
Qed.

Lemma store_all_app es ws ws' :
  store_all es (ws ++ ws') = store_all (store_all es ws) ws'.
Proof. unfold store_all. apply foldl_app. Qed.

Lemma store_all_cons es w ws :
  store_all es (w :: ws) = store_all (store (fst w) (snd w) es) ws.
Proof. reflexivity. Qed.

(** The paths of the table are the paths written, ... *)
Lemma store_all_paths es ws q :
  In q (map fst (store_all es ws)) ↔ In q (map fst es) ∨ In q (map fst ws).
Proof.
  revert es. induction ws as [|[p c] ws IH]; intros es.
  - simpl. tauto.
  - rewrite store_all_cons, IH, store_paths. simpl.
    split; [intros [[H|H]|H]; auto | intros [H|[H|H]]; auto].
Qed.

(** ... each of them once, ... *)
Lemma store_all_NoDup es ws :
  List.NoDup (map fst es) → List.NoDup (map fst (store_all es ws)).
Proof.
  revert es. induction ws as [|[p c] ws IH]; intros es Hnd; [exact Hnd|].
  rewrite store_all_cons. apply IH, store_NoDup, Hnd.
Qed.

(** ... with a content that was written there, ... *)
Lemma store_all_In es ws q d :
  List.NoDup (map fst es) →
  In (q, d) (store_all es ws) → In (q, d) es ∨ In (q, d) ws.
Proof.
  revert es. induction ws as [|[p c] ws IH]; intros es Hnd Hin; [auto|].
  rewrite store_all_cons in Hin.
  apply IH in Hin as [Hin|Hin]; [|simpl; auto | apply store_NoDup, Hnd].
  apply store_In in Hin as [[-> ->]|[_ Hin]]; simpl; auto.
Qed.

Lemma store_all_keeps es ws q d :
  List.NoDup (map fst es) → In (q, d) es → ¬ In q (map fst ws) →
  In (q, d) (store_all es ws).
Proof.
  revert es. induction ws as [|[p c] ws IH]; intros es Hnd Hin Hq; [exact Hin|].
  rewrite store_all_cons. simpl in Hq. apply IH.
  - apply store_NoDup, Hnd.
  - apply store_In; [exact Hnd|]. right. split; [|exact Hin].
    intros ->. apply Hq. auto.
  - intros H. apply Hq. auto.
Qed.

(** ... the one of the last call at that path. *)
Lemma store_all_last es ws q d ws' :
  List.NoDup (map fst es) → ¬ In q (map fst ws') →
  In (q, d) (store_all es (ws ++ (q, d) :: ws')).
Proof.
  intros Hnd Hq. rewrite store_all_app, store_all_cons.
  apply store_all_keeps; [| |exact Hq].
  - apply store_NoDup, store_all_NoDup, Hnd.
  - apply store_In; [apply store_all_NoDup, Hnd|]. auto.
Qed.

Lemma store_all_length es ws :
  (List.length (store_all es ws) ≤ List.length es + List.length ws)%nat.
Proof.
  revert es. induction ws as [|[p c] ws IH]; intros es; [simpl; lia|].
  rewrite store_all_cons. specialize (IH (store p c es)).
  pose proof (store_length p c es). simpl in *. lia.
Qed.

Lemma addFiles_entries h es l folderName :
  addFiles h {| root := "vslice_mod/"; entries := es |} l folderName =
  {| root := "vslice_mod/";
     entries := store_all es (flat_map (written h folderName) l) |}.
Proof.
  unfold addFiles. revert es. induction l as [|r l IH]; intros es; simpl.
  - reflexivity.
  - unfold addFile at 2, written at 1.
    destruct (h !! r) as [o|]; [|exact (IH es)].
    destruct (conversionError o); [exact (IH es)|].
    unfold zip_file. cbn [root entries]. rewrite IH. reflexivity.
Qed.

Lemma createVSliceZip_run st :
  createVSliceZip st =
  Ok (package (heap st) (vsliceStructure st))
     (add_events [Progress 80 "Creating package..."; Progress 90 "Finalizing..."] st).
Proof.
  unfold createVSliceZip. unfold_M_only. cbn [heap files events vsliceStructure].
  change (zip_folder new_JSZip "vslice_mod")
    with {| root := "vslice_mod/"; entries := [] |}.
  rewrite !addFiles_entries. cbn [entries]. unfold package, writes, add_events.
  rewrite !store_all_app, <- !app_assoc. reflexivity.
Qed.

(** *** The whole run *)

Lemma run_intake batch st :
  processFiles batch st =
  match intake batch st with
  | Ok _ s3 =>
    match convertCharts s3 with
    | Ok _ s4 => createVSliceZip s4
    | Throw e s4 => Throw e (add_events [ErrorShown e] s4)
    end
  | Throw e s => Throw e (add_events [ErrorShown e] s)
  end.
Proof.
  unfold processFiles, intake.
  cbv beta iota delta [mbind M_bind try_catch showError emit modify throw].
  destruct (updateUI 10 "Checking files..." st) as [[] s0|e s0]; [|reflexivity].
  destruct (validateFiles batch s0) as [[] s1|e s1]; [|reflexivity].
  destruct (extractIfArchive s1) as [[] s2|e s2]; [|reflexivity].
  destruct (organizeFiles s2) as [[] s3|e s3]; [|reflexivity].
  destruct (convertCharts s3) as [[] s4|e s4]; [|reflexivity].
  rewrite createVSliceZip_run. reflexivity.
Qed.

(** Once the files are organized the run completes: neither
    [convertCharts] nor [createVSliceZip] throws. *)
Lemma run_completes batch st s3 :
  intake batch st = Ok () s3 →
  ∃ s4, convertCharts s3 = Ok () s4 ∧
        files s4 = files s3 ∧
        vsliceStructure s4 = vsliceStructure s3 ∧
        converted_heap (data (vsliceStructure s3)) (heap s3) (heap s4) ∧
        processFiles batch st =
        Ok (package (heap s4) (vsliceStructure s3))
           (add_events [Progress 80 "Creating package...";
                        Progress 90 "Finalizing..."] s4).
Proof.
  intros Hin. destruct (convertCharts_run s3) as (s4 & Hc & Hf & Hs & Hh).
  exists s4. split; [exact Hc|]. split; [exact Hf|]. split; [exact Hs|].
  split; [exact Hh|].
  rewrite run_intake, Hin, Hc, createVSliceZip_run, Hs. reflexivity.
Qed.

Lemma run_Ok batch st archive st' :
  processFiles batch st = Ok archive st' →
  ∃ s3 s4, intake batch st = Ok () s3 ∧
           convertCharts s3 = Ok () s4 ∧
           files s4 = files s3 ∧
           vsliceStructure s4 = vsliceStructure s3 ∧
           converted_heap (data (vsliceStructure s3)) (heap s3) (heap s4) ∧
           archive = package (heap s4) (vsliceStructure s4) ∧
           heap st' = heap s4 ∧ files st' = files s4 ∧
           vsliceStructure st' = vsliceStructure s4.
Proof.
  rewrite run_intake.
  destruct (intake batch st) as [[] s3|e s3] eqn:Hin; [|discriminate].
  destruct (run_completes batch st s3 Hin) as (s4 & Hc & Hf & Hs & Hh & _).
  rewrite Hc, createVSliceZip_run. intros [= <- <-].
  exists s3, s4. split_and!; try assumption; reflexivity.
Qed.

Lemma intake_Ok batch st s3 :
  intake batch st = Ok () s3 →
  ∃ s1 s2,
    validateFiles batch (add_events [Progress 10 "Checking files..."] st) = Ok () s1 ∧
    extractIfArchive s1 = Ok () s2 ∧
    organizeFiles s2 = Ok () s3.
Proof.
  unfold intake. cbv beta iota delta [mbind M_bind].
  change (updateUI 10 "Checking files..." st)
    with (Ok () (add_events [Progress 10 "Checking files..."] st)).
  cbv beta iota.
  destruct (validateFiles batch _) as [[] s1|e s1] eqn:H1; [|discriminate].
  destruct (extractIfArchive s1) as [[] s2|e s2] eqn:H2; [|discriminate].
  intros H. exists s1, s2. split_and!; [reflexivity|exact H2|exact H].
Qed.

Lemma validateFiles_Ok batch st s1 :
  validateFiles batch st = Ok () s1 →
  heap s1 = heap st ++ map fresh batch ∧
  files s1 = validated (heap st) batch ∧
  vsliceStructure s1 = vsliceStructure st.
Proof.
  rewrite validateFiles_run. destruct batch; [discriminate|].
  cbv zeta. destruct (validated (heap st) _) eqn:E; [discriminate|].
  intros [= <-]. cbn [heap files vsliceStructure]. auto.
Qed.

Lemma extractIfArchive_Ok s1 s2 :
  extractIfArchive s1 = Ok () s2 →
  (List.find (at_ref (heap s1) isZip) (files s1) = None ∧ s2 = s1) ∨
  (∃ z fs, List.find (at_ref (heap s1) isZip) (files s1) = Some z ∧
           unzip (heap s1) z = Some fs ∧ s2 = expanded z fs s1).
Proof.
  unfold extractIfArchive. cbv beta iota delta [mbind M_bind].
  rewrite hasArchive_run.
  destruct (existsb (at_ref (heap s1) isZip) (files s1)) eqn:E.
  - apply existsb_find in E as [z Hz]. rewrite extractArchive_run, Hz.
    destruct (unzip (heap s1) z) as [fs|] eqn:Hu; [|discriminate].
    intros [= <-]. right. exists z, fs. auto.
  - intros [= <-]. left. split; [|reflexivity].
    destruct (List.find _ _) as [z|] eqn:Hz; [|reflexivity].
    assert (existsb (at_ref (heap s1) isZip) (files s1) = true) as E'
      by (apply existsb_find; eauto).
    congruence.
Qed.

Lemma organizeFiles_Ok s2 s3 :
  organizeFiles s2 = Ok () s3 →
  heap s3 = heap s2 ∧ files s3 = files s2 ∧
  songs (vsliceStructure s3) = List.filter (at_ref (heap s2) isSong) (files s2) ∧
  data (vsliceStructure s3) = List.filter (at_ref (heap s2) isData) (files s2) ∧
  images (vsliceStructure s3) = List.filter (at_ref (heap s2) isImage) (files s2).
Proof. rewrite organizeFiles_run. intros [= <-]. auto. Qed.

Lemma map_file_fresh fs : map file (map fresh fs) = fs.
Proof. induction fs as [|f fs IH]; simpl; [|rewrite IH]; reflexivity. Qed.

(** ** Intake *)

(** C5. When the batch is empty or the filter of [validateFiles] rejects
    every candidate, the run throws "No files selected" (empty batch) or
    "No supported files found": no archive is returned, the error is
    shown, and nothing of a later stage has run: the log holds the
    progress of the check, the warnings for the rejected candidates and
    the error, and the buckets are untouched. *)
Theorem C5_no_usable_files_aborts (batch : list File) (st : State) :
  List.filter isValid batch = [] →
  ∃ message st',
    processFiles batch st = Throw message st' ∧
    (message = "No files selected" ∨ message = "No supported files found") ∧
    vsliceStructure st' = vsliceStructure st ∧
    events st' = events st ++ [Progress 10 "Checking files..."] ++
                 flat_map warnings batch ++ [ErrorShown message].
Proof.
  intros Hnone.
  assert (Hin : ∃ message s,
    intake batch st = Throw message s ∧
    (message = "No files selected" ∨ message = "No supported files found") ∧
    vsliceStructure s = vsliceStructure st ∧
    events s = events st ++ [Progress 10 "Checking files..."] ++
               flat_map warnings batch).
  { unfold intake. cbv beta iota delta [mbind M_bind].
    change (updateUI 10 "Checking files..." st)
      with (Ok () (add_events [Progress 10 "Checking files..."] st)).
    cbv beta iota. rewrite validateFiles_run.
    destruct batch as [|f batch].
    - eexists _, _. split; [reflexivity|]. split; [left; reflexivity|].
      split; reflexivity.
    - cbv zeta. apply (validated_nil (heap st)) in Hnone.
      cbn [heap add_events]. rewrite Hnone.
      eexists _, _. split; [reflexivity|]. split; [right; reflexivity|].
      split; [reflexivity|]. cbn [events add_events]. rewrite <- app_assoc.
      reflexivity. }
  destruct Hin as (message & s & Hin & Hmsg & Hstruct & Hev).
  exists message, (add_events [ErrorShown message] s).
  rewrite run_intake, Hin. split; [reflexivity|]. split; [exact Hmsg|].
  split; [exact Hstruct|]. cbn [add_events events]. rewrite Hev.
  rewrite <- !app_assoc. reflexivity.
Qed.

(** ** The classifier *)

Lemma filter_at_ref (h : list FileObj) p (l : list ref) r o :
  h !! r = Some o →
  In r l →
  (In r (List.filter (at_ref h p) l) ↔ p (file o) = true).
Proof.
  intros Hr Hl. rewrite filter_In. unfold at_ref. rewrite Hr. simpl. tauto.
Qed.

(** C7. [organizeFiles] puts a file of the working set in every bucket
    whose rule its name matches, each rule on its own: songs when the name
    ends in [.ogg] or contains [/songs/], data when it ends in [.json] or
    contains [/data/], images when it ends in [.png] or contains
    [/images/]; the working set itself is unchanged.  A file named
    [extra/data/weird.png] is in the data bucket and in the images
    bucket. *)
Theorem C7_classifier_rule_union (st : State) (r : ref) (o : FileObj) :
  In r (files st) →
  heap st !! r = Some o →
  ∃ st',
    organizeFiles st = Ok () st' ∧
    heap st' = heap st ∧ files st' = files st ∧
    (In r (songs (vsliceStructure st')) ↔
       endsWith (name (file o)) ".ogg" || includes (name (file o)) "/songs/" = true) ∧
    (In r (data (vsliceStructure st')) ↔
       endsWith (name (file o)) ".json" || includes (name (file o)) "/data/" = true) ∧
    (In r (images (vsliceStructure st')) ↔
       endsWith (name (file o)) ".png" || includes (name (file o)) "/images/" = true) ∧
    (name (file o) = "extra/data/weird.png" →
       In r (data (vsliceStructure st')) ∧ In r (images (vsliceStructure st'))).
Proof.
  intros Hl Hr. eexists. rewrite organizeFiles_run. split; [reflexivity|].
  cbn [heap files vsliceStructure songs data images].
  pose proof (filter_at_ref (heap st) isSong (files st) r o Hr Hl) as Hs.
  pose proof (filter_at_ref (heap st) isData (files st) r o Hr Hl) as Hd.
  pose proof (filter_at_ref (heap st) isImage (files st) r o Hr Hl) as Hi.
  split_and!; [reflexivity | reflexivity | exact Hs | exact Hd | exact Hi |].
  intros Hname. split.
  - apply Hd. unfold isData. rewrite Hname. reflexivity.
  - apply Hi. unfold isImage. rewrite Hname. reflexivity.
Qed.

(** ** The package builder *)

Lemma In_written h b r pc :
  In pc (written h (folderName b) r) ↔
  ∃ o, h !! r = Some o ∧ conversionError o = false ∧
       pc = (archivePath b (file o), packed o).
Proof.
  unfold written. destruct (h !! r) as [o|].
  - destruct (conversionError o) eqn:E; simpl.
    + split; [tauto|]. intros (o' & [= <-] & He & _). congruence.
    + split.
      * intros [<-|[]]. exists o. auto.
      * intros (o' & [= <-] & _ & ->). left. reflexivity.
  - simpl. split; [tauto|]. intros (o' & Ho & _). discriminate.
Qed.

Lemma archivePath_inj b f b' f' :
  archivePath b f = archivePath b' f' → b = b' ∧ name f = name f'.
Proof.
  unfold archivePath. destruct b, b'; cbn; intros H;
    try discriminate; injection H as H; auto.
Qed.

Lemma In_writes h s pc :
  In pc (writes h s) ↔
  ∃ b r o, In r (bucket b s) ∧ h !! r = Some o ∧ conversionError o = false ∧
           pc = (archivePath b (file o), packed o).
Proof.
  unfold writes. rewrite !in_app_iff, !in_flat_map. split.
  - intros [(r & Hr & Hw)|[(r & Hr & Hw)|(r & Hr & Hw)]].
    + apply (In_written h Songs) in Hw as (o & Ho & He & ->).
      exists Songs, r, o. auto.
    + apply (In_written h Data) in Hw as (o & Ho & He & ->).
      exists Data, r, o. auto.
    + apply (In_written h Images) in Hw as (o & Ho & He & ->).
      exists Images, r, o. auto.
  - intros (b & r & o & Hr & Ho & He & ->).
    assert (Hw : In (archivePath b (file o), packed o) (written h (folderName b) r))
      by (apply In_written; eauto).
    destruct b; [left | right; left | right; right]; exists r; auto.
Qed.

(** Every entry of the archive is the entry of a file of a bucket that is
    not flagged. *)
Lemma In_package h s pc :
  In pc (package h s) →
  ∃ b r o, In r (bucket b s) ∧ h !! r = Some o ∧ conversionError o = false ∧
           pc = (archivePath b (file o), packed o).
Proof.
  intros Hin. destruct pc as [p c]. unfold package in Hin.
  apply store_all_In in Hin as [[]|Hin]; [|constructor].
  apply In_writes, Hin.
Qed.

(** The paths of the archive are the paths of these files. *)
Lemma package_paths h s p :
  In p (map fst (package h s)) ↔
  ∃ b r o, In r (bucket b s) ∧ h !! r = Some o ∧ conversionError o = false ∧
           p = archivePath b (file o).
Proof.
  unfold package. rewrite store_all_paths. simpl. split.
  - intros [[]|Hin]. apply in_map_iff in Hin as ([p' c] & <- & Hin).
    apply In_writes in Hin as (b & r & o & Hr & Ho & He & [= -> ->]).
    exists b, r, o. auto.
  - intros (b & r & o & Hr & Ho & He & ->). right. apply in_map_iff.
    exists (archivePath b (file o), packed o). split; [reflexivity|].
    apply In_writes. eauto 10.
Qed.

(** No path has two entries. *)
Lemma package_NoDup h s : List.NoDup (map fst (package h s)).
Proof. apply store_all_NoDup. constructor. Qed.

Lemma written_paths h b l q :
  In q (map fst (flat_map (written h (folderName b)) l)) →
  ∃ r o, In r l ∧ h !! r = Some o ∧ conversionError o = false ∧
         q = archivePath b (file o).
Proof.
  intros Hin. apply in_map_iff in Hin as ([p c] & <- & Hin).
  apply in_flat_map in Hin as (r & Hr & Hw).
  apply In_written in Hw as (o & Ho & He & [= -> ->]).
  exists r, o. auto.
Qed.

Lemma written_unflagged h b r o :
  h !! r = Some o → conversionError o = false →
  written h (folderName b) r = [(archivePath b (file o), packed o)].
Proof. intros Ho He. unfold written. rewrite Ho, He. reflexivity. Qed.

(** A file of a bucket that is not flagged has its own content at its
    path when no file after it in the bucket that is not flagged has the
    same name. *)
Lemma package_last h s b r o before after :
  bucket b s = before ++ r :: after →
  h !! r = Some o → conversionError o = false →
  (∀ r' o', In r' after → h !! r' = Some o' → conversionError o' = false →
            name (file o') ≠ name (file o)) →
  In (archivePath b (file o), packed o) (package h s).
Proof.
  intros Hb Ho He Hlast.
  assert (Hafter : ¬ In (archivePath b (file o))
                        (map fst (flat_map (written h (folderName b)) after))).
  { intros Hin. apply written_paths in Hin as (r' & o' & Hr' & Ho' & He' & Hp).
    apply archivePath_inj in Hp as [_ Hn]. apply (Hlast r' o'); auto. }
  assert (Hother : ∀ b' l, b' ≠ b →
            ¬ In (archivePath b (file o))
                 (map fst (flat_map (written h (folderName b')) l))).
  { intros b' l Hne Hin.
    apply written_paths in Hin as (r' & o' & _ & _ & _ & Hp).
    apply archivePath_inj in Hp as [Hb' _]. congruence. }
  unfold package, writes.
  pose proof (written_unflagged h b r o Ho He) as Hw.
  destruct b; cbn [bucket] in Hb; cbn [folderName] in Hw;
    rewrite Hb, flat_map_app; cbn [flat_map]; rewrite Hw.
  - rewrite <- app_assoc. cbn [app].
    apply store_all_last; [constructor|].
    rewrite !map_app, !in_app_iff. intros [H|[H|H]].
    + exact (Hafter H).
    + exact (Hother Data _ ltac:(discriminate) H).
    + exact (Hother Images _ ltac:(discriminate) H).
  - rewrite <- (app_assoc _ _ (flat_map (written h "images") (images s))).
    cbn [app]. rewrite app_assoc.
    apply store_all_last; [constructor|].
    rewrite !map_app, !in_app_iff. intros [H|H].
    + exact (Hafter H).
    + exact (Hother Images _ ltac:(discriminate) H).
  - cbn [app]. rewrite !app_assoc.
    apply store_all_last; [constructor|]. exact Hafter.
Qed.

(** C2 (amended). When the run completes, every surviving file of a
    bucket (one not flagged as failed) is written in the archive at
    [vslice_mod/<bucket>/<name>], where [<bucket>] is [songs], [data] or
    [images] and [<name>] is the file's name; and the archive has no
    other entries, so all of it lies inside the one enclosing folder
    [vslice_mod/]. *)
Theorem C2_entries_under_vslice_mod
    (batch : list File) (st : State) (archive : list (string * Content))
    (st' : State) :
  processFiles batch st = Ok archive st' →
  (∀ b r o,
     In r (bucket b (vsliceStructure st')) →
     heap st' !! r = Some o →
     conversionError o = false →
     In ("vslice_mod/" +:+ folderName b +:+ "/" +:+ name (file o))
        (map fst archive)) ∧
  (∀ path,
     In path (map fst archive) →
     ∃ b r o, In r (bucket b (vsliceStructure st')) ∧
              heap st' !! r = Some o ∧ conversionError o = false ∧
              path = "vslice_mod/" +:+ folderName b +:+ "/" +:+ name (file o)).
Proof.
  intros Hrun.
  destruct (run_Ok _ _ _ _ Hrun)
    as (s3 & s4 & _ & _ & _ & _ & _ & -> & Hh & _ & Hs).
  rewrite Hh, Hs. split.
  - intros b r o Hr Ho He.
    apply (package_paths (heap s4) (vsliceStructure s4)). eauto 10.
  - intros path Hp. apply package_paths, Hp.
Qed.

(** The [File] objects of the heap are never replaced: after the intake
    the heap holds, after what it held before, the files of the batch and
    then the files made from the entries of the archive. *)
Lemma intake_heap batch st s3 :
  intake batch st = Ok () s3 →
  ∃ extracted,
    heap s3 = heap st ++ map fresh batch ++ map fresh extracted.
Proof.
  intros Hin. destruct (intake_Ok _ _ _ Hin) as (s1 & s2 & H1 & H2 & H3).
  apply validateFiles_Ok in H1 as (Hh1 & _ & _).
  apply organizeFiles_Ok in H3 as (Hh3 & _).
  rewrite Hh3. cbn [heap add_events] in Hh1.
  destruct (extractIfArchive_Ok _ _ H2) as [[_ ->]|(z & fs & _ & _ & ->)].
  - exists []. rewrite Hh1, app_nil_r. reflexivity.
  - exists fs. cbn [heap expanded]. rewrite Hh1, <- app_assoc. reflexivity.
Qed.

(** C8 (amended). When the run completes, the [File] objects of the heap
    are the ones submitted or extracted, name and bytes unchanged.  Take a
    surviving file of a bucket such that no surviving file after it in
    that bucket has its name: without a converted chart it is packaged at
    its path as that very [File], its original bytes; with a converted
    chart it is packaged as the text [JSON.stringify] gives for the chart,
    not as the [File].  Every entry of the archive is the path and the
    content of some surviving file of a bucket, and no path has two
    entries: of the surviving files of a bucket that share a name, only
    the last one is packaged. *)
Theorem C8_packaged_content
    (batch : list File) (st : State) (archive : list (string * Content))
    (st' : State) :
  processFiles batch st = Ok archive st' →
  (∃ extracted, map file (heap st') = map file (heap st) ++ batch ++ extracted) ∧
  (∀ b r o before after,
     bucket b (vsliceStructure st') = before ++ r :: after →
     heap st' !! r = Some o →
     conversionError o = false →
     (∀ r' o', In r' after → heap st' !! r' = Some o' →
               conversionError o' = false →
               name (file o') ≠ name (file o)) →
     (converted o = None →
        In (archivePath b (file o), CFile (file o)) archive) ∧
     (∀ t, converted o = Some t →
        In (archivePath b (file o), CText (JSON_stringify t)) archive)) ∧
  (∀ path content,
     In (path, content) archive →
     ∃ b r o, In r (bucket b (vsliceStructure st')) ∧
              heap st' !! r = Some o ∧ conversionError o = false ∧
              path = archivePath b (file o) ∧
              content = match converted o with
                        | Some t => CText (JSON_stringify t)
                        | None => CFile (file o)
                        end) ∧
  List.NoDup (map fst archive).
Proof.
  intros Hrun.
  destruct (run_Ok _ _ _ _ Hrun)
    as (s3 & s4 & Hin & _ & _ & _ & Hconv & -> & Hh & _ & Hs).
  rewrite Hh, Hs. split; [|split; [|split]].
  - destruct (intake_heap _ _ _ Hin) as [extracted Hh3].
    exists extracted. rewrite (converted_heap_files _ _ _ Hconv), Hh3.
    rewrite !map_app, !map_file_fresh. reflexivity.
  - intros b r o before after Hb Ho He Hlast.
    pose proof (package_last _ _ _ _ _ _ _ Hb Ho He Hlast) as Hown.
    unfold packed in Hown. split.
    + intros Hc. rewrite Hc in Hown. exact Hown.
    + intros t Hc. rewrite Hc in Hown. exact Hown.
  - intros path content Hpc.
    apply In_package in Hpc as (b & r & o & Hr & Ho & He & [= -> ->]).
    exists b, r, o. auto.
  - apply package_NoDup.
Qed.

(** ** Failed charts *)

Lemma lookup_alloc (h : list FileObj) (fs : list File) r :
  In r (seq (List.length h) (List.length fs)) →
  ∃ f, (h ++ map fresh fs) !! r = Some (fresh f) ∧
       fs !! (r - List.length h) = Some f.
Proof.
  rewrite in_seq. intros [Hlo Hhi].
  destruct (lookup_lt_is_Some_2 fs (r - List.length h)) as [f Hf]; [lia|].
  exists f. split; [|exact Hf].
  rewrite lookup_app_r by lia.
  change (map fresh fs) with (fresh <$> fs).
  rewrite list_lookup_fmap, Hf. reflexivity.
Qed.






(** ** Archive expansion *)

Lemma entryFile_Some e f :
  entryFile e = Some f ↔ async_blob e = Some (blob f) ∧ zname e = name f.
Proof.
  unfold entryFile. destruct (async_blob e) as [d|]; simpl.
  - split.
    + intros [= <-]. auto.
    + intros [[= ->] Hn]. destruct f as [n b]. simpl in *. subst n. reflexivity.
  - split; [discriminate | intros [? _]; discriminate].
Qed.

Lemma readEntries_Some content fs :
  readEntries content = Some fs ↔
  Forall2 (λ e f, async_blob e = Some (blob f) ∧ zname e = name f)
          (List.filter (λ e, negb (dir e)) content) fs.
Proof.
  unfold readEntries. rewrite mapM_Some. split; intros H.
  - eapply Forall2_impl; [exact H|]. intros e f. apply entryFile_Some.
  - eapply Forall2_impl; [exact H|]. intros e f. apply entryFile_Some.
Qed.

Lemma unzip_Some h z fs :
  unzip h z = Some fs ↔
  ∃ o content, h !! z = Some o ∧ loadAsync (blob (file o)) = Some content ∧
               readEntries content = Some fs.
Proof.
  unfold unzip. destruct (h !! z) as [o|]; simpl.
  - destruct (loadAsync (blob (file o))) as [content|] eqn:E; simpl.
    + split; [eauto|]. intros (o' & c' & [= <-] & Hc & Hf). congruence.
    + split; [discriminate|]. intros (o' & c' & [= <-] & Hc & _). congruence.
  - split; [discriminate|]. intros (o' & c' & Ho & _). discriminate.
Qed.

Lemma find_first {A} (p : A → bool) (l : list A) x :
  List.find p l = Some x →
  p x = true ∧
  ∃ before after, l = before ++ x :: after ∧ ∀ y, In y before → p y = false.
Proof.
  induction l as [|a l IH]; simpl; [discriminate|].
  destruct (p a) eqn:E.
  - intros [= ->]. split; [exact E|]. exists [], l. split; [reflexivity|].
    intros y [].
  - intros H. destruct (IH H) as (Hx & before & after & -> & Hb).
    split; [exact Hx|]. exists (a :: before), after. split; [reflexivity|].
    intros y [<-|Hy]; [exact E | exact (Hb y Hy)].
Qed.

Lemma at_ref_Some h p r :
  at_ref h p r = true → ∃ o, h !! r = Some o ∧ p (file o) = true.
Proof.
  unfold at_ref. destruct (h !! r) as [o|]; simpl; [eauto | discriminate].
Qed.

Lemma expanded_removes z fs st :
  at_ref (heap st) isZip z = true → ¬ In z (files (expanded z fs st)).
Proof.
  intros Hz. cbn [files expanded]. rewrite in_app_iff, filter_In, in_seq.
  intros [[_ Hne]|[Hge _]].
  - rewrite Nat.eqb_refl in Hne. discriminate.
  - apply at_ref_Some in Hz as (o & Ho & _).
    apply lookup_lt_Some in Ho. lia.
Qed.

(** C4 (amended). When the working set has an archive file,
    [extractArchive] expands the first one, [zipFile]: given the listing
    of that archive and the files [fs] of its entries that are not
    directories (one per entry, same name, same bytes, same order), it
    adds these files to the heap as new objects, removes [zipFile] from
    the working set, and appends the new files at the end of the working
    set, after the files that were already there. *)
Theorem C4_expansion_appends_entries (st : State) :
  hasArchive st = Ok true st →
  ∃ zipFile o before after,
    List.find (at_ref (heap st) isZip) (files st) = Some zipFile ∧
    files st = before ++ zipFile :: after ∧
    (∀ r, In r before → at_ref (heap st) isZip r = false) ∧
    heap st !! zipFile = Some o ∧
    endsWith (name (file o)) ".zip" = true ∧
    ∀ content fs,
      loadAsync (blob (file o)) = Some content →
      Forall2 (λ e f, async_blob e = Some (blob f) ∧ zname e = name f)
              (List.filter (λ e, negb (dir e)) content) fs →
      ∃ st',
        extractArchive st = Ok () st' ∧
        heap st' = heap st ++ map fresh fs ∧
        files st' =
          List.filter (λ r, negb (Nat.eqb r zipFile)) (files st) ++
          seq (List.length (heap st)) (List.length fs) ∧
        ¬ In zipFile (files st').
Proof.
  rewrite hasArchive_run. intros [= Hex].
  apply existsb_find in Hex as [z Hz].
  destruct (find_first _ _ _ Hz) as (Hzip & before & after & Hl & Hb).
  destruct (at_ref_Some _ _ _ Hzip) as (o & Ho & Hname).
  exists z, o, before, after. split_and!; try assumption.
  intros content fs Hload Hfs.
  exists (expanded z fs st). rewrite extractArchive_run, Hz.
  assert (Hu : unzip (heap st) z = Some fs).
  { apply unzip_Some. exists o, content. split_and!; try assumption.
    apply readEntries_Some, Hfs. }
  rewrite Hu. split_and!; try reflexivity.
  apply expanded_removes, Hzip.
Qed.

Lemma lookup_alloc_inv (h : list FileObj) (fs : list File) r o :
  (h ++ map fresh fs) !! r = Some o →
  h !! r = Some o ∨ ∃ f, In f fs ∧ o = fresh f.
Proof.
  intros H. apply lookup_app_Some in H as [H|[_ H]]; [left; exact H|].
  right. change (map fresh fs) with (fresh <$> fs) in H.
  rewrite list_lookup_fmap in H.
  destruct (fs !! _) as [f|] eqn:Hf; [|discriminate].
  injection H as <-. exists f. split; [|reflexivity].
  apply list_elem_of_In. eapply list_elem_of_lookup_2, Hf.
Qed.

(** C3 (amended). After [extractArchive] has expanded [zipFile], the
    first file of the working set whose name ends in [.zip], that file
    is no longer in the working set.  When it was the only file of the
    working set with such a name and no file entry of the archive has
    such a name, no file of the working set has a name ending in
    [.zip]. *)
Theorem C3_expanded_archive_leaves_working_set (st st' : State) (zipFile : ref) :
  List.find (at_ref (heap st) isZip) (files st) = Some zipFile →
  extractArchive st = Ok () st' →
  ¬ In zipFile (files st') ∧
  ((∀ r, In r (files st) → r ≠ zipFile → at_ref (heap st) isZip r = false) →
   (∀ o content e,
      heap st !! zipFile = Some o →
      loadAsync (blob (file o)) = Some content →
      In e content → dir e = false → endsWith (zname e) ".zip" = false) →
   ∀ r, In r (files st') → at_ref (heap st') isZip r = false).
Proof.
  intros Hz. rewrite extractArchive_run, Hz.
  destruct (unzip (heap st) zipFile) as [fs|] eqn:Hu; [|discriminate].
  intros [= <-].
  destruct (find_first _ _ _ Hz) as (Hzip & _).
  split; [apply expanded_removes, Hzip|].
  intros Honly Hentries r Hr.
  apply unzip_Some in Hu as (o & content & Ho & Hload & Hfs).
  apply readEntries_Some in Hfs.
  assert (Hnew : ∀ f, In f fs → isZip f = false).
  { intros f Hf. apply list_elem_of_In, list_elem_of_lookup in Hf as [i Hi].
    destruct (Forall2_lookup_r _ _ _ _ _ Hfs Hi) as (e & He & _ & Hname).
    apply list_elem_of_lookup_2, list_elem_of_In, filter_In in He as [He Hdir].
    unfold isZip. rewrite <- Hname.
    apply (Hentries o content e Ho Hload He).
    destruct (dir e); [discriminate | reflexivity]. }
  cbn [heap files expanded] in *.
  unfold at_ref. destruct ((heap st ++ map fresh fs) !! r) as [o'|] eqn:Ho';
    [|reflexivity].
  simpl. apply lookup_alloc_inv in Ho' as [Hold|(f & Hf & ->)].
  - apply in_app_iff in Hr as [Hr|Hr].
    + apply filter_In in Hr as [Hr Hne].
      assert (r ≠ zipFile) as Hne'.
      { intros ->. rewrite Nat.eqb_refl in Hne. discriminate. }
      specialize (Honly r Hr Hne'). unfold at_ref in Honly.
      rewrite Hold in Honly. exact Honly.
    + apply in_seq in Hr as [Hge _]. apply lookup_lt_Some in Hold. lia.
  - apply Hnew, Hf.
Qed.

Lemma distinct_NoDup names : distinct names = true → List.NoDup names.
Proof.
  induction names as [|n rest IH]; simpl; intros H; [constructor|].
  apply andb_prop in H as [Hn Hrest]. constructor; [|auto].
  intros Hin. apply negb_true_iff in Hn.
  assert (existsb (String.eqb n) rest = true) as E; [|congruence].
  apply existsb_exists. exists n. split; [exact Hin | apply String.eqb_refl].
Qed.

Lemma NoDup_map_filter {A B} (f : A → B) (p : A → bool) l :
  List.NoDup (map f l) → List.NoDup (map f (List.filter p l)).
Proof.
  induction l as [|a l IH]; simpl; intros H; [constructor|].
  apply List.NoDup_cons_iff in H as [Ha Hl].
  destruct (p a); simpl; [|auto].
  apply List.NoDup_cons_iff. split; [|auto].
  intros Hin. apply Ha. apply in_map_iff in Hin as (x & Hx & Hin).
  apply filter_In in Hin as [Hin _]. apply in_map_iff. eauto.
Qed.

Lemma filter_split {A} (p : A → bool) l1 x l2 :
  p x = true →
  List.filter p (l1 ++ x :: l2) = List.filter p l1 ++ x :: List.filter p l2.
Proof. intros Hx. rewrite List.filter_app. simpl. rewrite Hx. reflexivity. Qed.

Lemma seq_split base i n :
  (i < n)%nat → seq base n = seq base i ++ (base + i) :: seq (S (base + i)) (n - S i).
Proof.
  intros Hi. replace n with (i + S (n - S i)) at 1 by lia.
  rewrite List.seq_app. reflexivity.
Qed.

Lemma validated_valid (h : list FileObj) batch r :
  In r (validated h batch) → at_ref (h ++ map fresh batch) isValid r = true.
Proof. unfold validated. rewrite filter_In. tauto. Qed.

(** C10. In a run that completes after expanding an archive, every entry
    of the archive that is not a directory becomes a file of the working
    set, with the entry's name and bytes, whatever its extension and its
    size: only the files of the submitted batch pass the filter of
    [validateFiles].  The new file is in every bucket whose rule its name
    matches, and unless it is flagged as a failed chart it is written in
    the archive under that bucket: the files of the entries are written
    after the files of the batch and the names of the entries are
    distinct, so nothing replaces it at its path. *)
Theorem C10_archive_entries_skip_validation
    (batch : list File) (st s1 : State) (zipFile : ref) (o : FileObj)
    (content : ZipFiles) (e : ZipObject)
    (archive : list (string * Content)) (st' : State) :
  validateFiles batch (add_events [Progress 10 "Checking files..."] st) = Ok () s1 →
  List.find (at_ref (heap s1) isZip) (files s1) = Some zipFile →
  heap s1 !! zipFile = Some o →
  loadAsync (blob (file o)) = Some content →
  In e content →
  dir e = false →
  processFiles batch st = Ok archive st' →
  (∀ r, In r (files s1) → at_ref (heap s1) isValid r = true) ∧
  ∃ r fileData o',
    async_blob e = Some fileData ∧
    In r (files st') ∧
    heap st' !! r = Some o' ∧
    file o' = newFile fileData (zname e) ∧
    ∀ b, rule b (file o') = true →
         In r (bucket b (vsliceStructure st')) ∧
         (conversionError o' = false →
          In (archivePath b (file o'),
              match converted o' with
              | Some t => CText (JSON_stringify t)
              | None => CFile (file o')
              end) archive).
Proof.
  intros Hval Hz Ho Hload He Hdir Hrun. split.
  - apply validateFiles_Ok in Hval as (Hh1 & Hf1 & _).
    intros r Hr. rewrite Hh1. rewrite Hf1 in Hr. apply validated_valid, Hr.
  - destruct (run_Ok _ _ _ _ Hrun)
      as (s3 & s4 & Hin & _ & Hf4 & Hs4 & Hconv & -> & Hh & Hf & Hs).
    destruct (intake_Ok _ _ _ Hin) as (s1' & s2 & H1 & H2 & H3).
    rewrite Hval in H1. injection H1 as <-.
    apply organizeFiles_Ok in H3 as (Hh3 & Hf3 & Hsongs & Hdata & Himages).
    destruct (extractIfArchive_Ok _ _ H2) as [[Hnone _]|(z & fs & Hz' & Hu & ->)];
      [congruence|].
    rewrite Hz in Hz'. injection Hz' as <-.
    apply unzip_Some in Hu as (o1 & content1 & Ho1 & Hload1 & Hfs).
    rewrite Ho in Ho1. injection Ho1 as <-.
    rewrite Hload in Hload1. injection Hload1 as <-.
    unfold readEntries in Hfs. rewrite mapM_Some in Hfs.
    set (base := List.length (heap s1)).
    assert (Hnew : ∀ j fj, fs !! j = Some fj →
              heap s3 !! (base + j) = Some (fresh fj) ∧
              ∃ o', heap s4 !! (base + j) = Some o' ∧ file o' = fj).
    { intros j fj Hj.
      assert (Hseq : In (base + j) (seq base (List.length fs))).
      { apply in_seq. apply lookup_lt_Some in Hj. lia. }
      assert (Hj3 : heap s3 !! (base + j) = Some (fresh fj)).
      { rewrite Hh3. cbn [heap expanded].
        destruct (lookup_alloc _ _ _ Hseq) as (f' & Hf' & Hidx). rewrite Hf'.
        replace (base + j - List.length (heap s1)) with j in Hidx
          by (unfold base; lia).
        congruence. }
      split; [exact Hj3|].
      destruct (Hconv (base + j)) as [Hd Hnd].
      destruct (In_dec Nat.eq_dec (base + j) (data (vsliceStructure s3))) as [Hl|Hl].
      + rewrite (Hd Hl), Hj3. eexists. split; [reflexivity|].
        apply chartOutcome_file.
      + rewrite (Hnd Hl), Hj3. eexists. split; reflexivity. }
    assert (Hin_e : In e (List.filter (λ e, negb (dir e)) content)).
    { apply filter_In. rewrite Hdir. auto. }
    apply list_elem_of_In, list_elem_of_lookup in Hin_e as [i Hi].
    destruct (Forall2_lookup_l _ _ _ _ _ Hfs Hi) as (f & Hfi & Hentry).
    pose proof Hentry as Hname. apply entryFile_Some in Hname as [_ Hname].
    unfold entryFile in Hentry.
    destruct (async_blob e) as [fileData|]; [|discriminate].
    simpl in Hentry. injection Hentry as <-.
    set (f := newFile fileData (zname e)) in *.
    set (r := base + i).
    assert (Hi_lt : (i < List.length fs)%nat) by (apply lookup_lt_Some in Hfi; exact Hfi).
    assert (Hseq : In r (seq base (List.length fs))).
    { apply in_seq. unfold r. lia. }
    destruct (Hnew i f Hfi) as (Hr2 & o' & Ho' & Hfile). fold r in Hr2, Ho'.
    assert (Hr3 : In r (files s3)).
    { rewrite Hf3. cbn [files expanded]. apply in_app_iff. right. exact Hseq. }
    exists r, fileData, o'. rewrite Hh, Hf, Hs, Hf4.
    split; [reflexivity|]. split; [exact Hr3|]. split; [exact Ho'|].
    split; [exact Hfile|].
    intros b Hrule. rewrite Hfile in Hrule.
    set (s2 := expanded zipFile fs s1) in *.
    assert (Hbucket : bucket b (vsliceStructure s4) =
                      List.filter (at_ref (heap s2) (rule b)) (files s2)).
    { rewrite Hs4. destruct b; cbn [bucket rule]; assumption. }
    assert (Hpr : at_ref (heap s2) (rule b) r = true).
    { unfold at_ref. rewrite <- Hh3, Hr2. exact Hrule. }
    split.
    { rewrite Hbucket. apply filter_In. split; [|exact Hpr].
      rewrite <- Hf3. exact Hr3. }
    intros Herr.
    assert (Hsplit : files s2 =
              (List.filter (λ f, negb (Nat.eqb f zipFile)) (files s1) ++ seq base i) ++
              r :: seq (S r) (List.length fs - S i)).
    { unfold s2. cbn [files expanded]. fold base.
      rewrite (seq_split base i _ Hi_lt), app_assoc. reflexivity. }
    rewrite Hsplit, (filter_split _ _ _ _ Hpr) in Hbucket.
    refine (package_last _ _ _ _ _ _ _ Hbucket Ho' Herr _).
    intros r' o'' Hr' Ho'' _ Hsame.
    apply filter_In in Hr' as [Hr' _]. apply in_seq in Hr' as [Hlo Hhi].
    destruct (lookup_lt_is_Some_2 fs (r' - base)) as [fj Hfj]; [unfold r in *; lia|].
    destruct (Hnew _ _ Hfj) as (_ & oj & Hoj & Hfilej).
    replace (base + (r' - base)) with r' in Hoj by (unfold r in *; lia).
    rewrite Ho'' in Hoj. injection Hoj as <-.
    destruct (Forall2_lookup_r _ _ _ _ _ Hfs Hfj) as (ej & Hej & Hentryj).
    apply entryFile_Some in Hentryj as [_ Hnamej].
    assert (Hnd : NoDup (map zname (List.filter (λ e, negb (dir e)) content))).
    { apply NoDup_ListNoDup, NoDup_map_filter, distinct_NoDup, zkeys. }
    assert (i = r' - base) as Hij; [|unfold r in *; lia].
    apply (NoDup_lookup _ _ _ (zname e) Hnd).
    + change (map zname ?l) with (zname <$> l). rewrite list_lookup_fmap, Hi.
      reflexivity.
    + change (map zname ?l) with (zname <$> l). rewrite list_lookup_fmap, Hej.
      simpl. f_equal. rewrite Hnamej, <- Hfilej, Hsame, Hfile. reflexivity.
Qed.

(** ** More on the chart transformer *)

Lemma convertNote_None note : convertNote note = None ↔ nullish note = true.
Proof. destruct note; simpl; split; (discriminate || reflexivity). Qed.

Lemma mapM_convertNote_is_Some ns :
  is_Some (mapM convertNote ns) ↔ forallb (λ n, negb (nullish n)) ns = true.
Proof.
  rewrite mapM_is_Some, forallb_forall, Forall_forall.
  split; intros H n Hn.
  - apply list_elem_of_In in Hn. specialize (H n Hn).
    destruct (nullish n) eqn:E; [|reflexivity].
    apply convertNote_None in E. unfold compose in H. rewrite E in H.
    destruct H as [? H]. discriminate.
  - apply list_elem_of_In in Hn. specialize (H n Hn). unfold compose.
    destruct (convertNote n) eqn:E; [eauto|].
    apply convertNote_None in E. rewrite E in H. discriminate.
Qed.

Lemma get_not_nullish chart k :
  nullish chart = false →
  get chart k = Some (match chart with VObj props => lookup k props | _ => VUndef end).
Proof. destruct chart; intros H; try discriminate; reflexivity. Qed.

Lemma convertToVSlice_not_nullish chart :
  nullish chart = false →
  convertToVSlice chart =
  out ← array_map convertNote (JS.or (chart_notes chart) (VArr []));
  Some {| Chart.metadata :=
            {| Chart.name :=
                 JS.or (match chart with VObj props => lookup "song" props | _ => VUndef end)
                       (VStr "Unknown");
               Chart.bpm :=
                 JS.or (match chart with VObj props => lookup "bpm" props | _ => VUndef end)
                       (VNum 100);
               Chart.speed :=
                 JS.or (match chart with VObj props => lookup "speed" props | _ => VUndef end)
                       (VNum 1) |};
          Chart.notes := out |}.
Proof. destruct chart; intros H; try discriminate; reflexivity. Qed.

(** X1. [convertToVSlice] returns a target exactly on the charts that are
    not [null] or [undefined] and whose [notes] is falsy or an array
    without [null] elements; on every other chart it throws.  When [notes]
    is falsy (absent, [null], [0], [false], the empty string) the target
    has no notes. *)
Theorem X1_convertToVSlice_domain (chart : value) :
  match convertToVSlice chart with Some _ => true | None => false end
  = convertible chart ∧
  ∀ t, convertToVSlice chart = Some t →
       truthy (chart_notes chart) = false →
       Chart.notes t = [].
Proof.
  unfold convertible. destruct (nullish chart) eqn:Hn.
  - destruct chart; try discriminate; simpl; split; try reflexivity;
      intros t Ht; discriminate.
  - rewrite (convertToVSlice_not_nullish _ Hn). simpl negb. cbn [andb].
    unfold JS.or. destruct (truthy (chart_notes chart)) eqn:Ht.
    + split; [|intros t _ Hf; discriminate].
      destruct (chart_notes chart) as [| | | | |ns|]; try reflexivity.
      simpl. destruct (mapM convertNote ns) as [out|] eqn:E; simpl.
      * symmetry. apply mapM_convertNote_is_Some. rewrite E. eauto.
      * destruct (forallb _ ns) eqn:F; [|reflexivity].
        apply mapM_convertNote_is_Some in F. rewrite E in F.
        destruct F as [? F]. discriminate.
    + simpl. split; [reflexivity|]. intros t [= <-] _. reflexivity.
Qed.

Lemma convertNote_not_nullish note :
  nullish note = false →
  convertNote note =
  Some {| Chart.time :=
            match note with VObj p => lookup "strumTime" p | _ => VUndef end;
          Chart.type :=
            JS.or (match note with VObj p => lookup "noteType" p | _ => VUndef end)
                  (VStr "default");
          Chart.direction :=
            JS.or (match note with VObj p => lookup "direction" p | _ => VUndef end)
                  (VStr "middle");
          Chart.length :=
            JS.or (match note with VObj p => lookup "sustainLength" p | _ => VUndef end)
                  (VNum 0) |}.
Proof. destruct note; intros H; try discriminate; reflexivity. Qed.

Lemma truthy_or v dflt : truthy dflt = true → truthy (JS.or v dflt) = true.
Proof. unfold JS.or. destruct (truthy v) eqn:E; auto. Qed.

Lemma or_truthy_or_zero v : truthy_or_zero (JS.or v (VNum 0)).
Proof. unfold JS.or, truthy_or_zero. destruct (truthy v) eqn:E; auto. Qed.

(** X2. Whatever the chart holds, a target that [convertToVSlice] returns
    has a truthy [name], [bpm] and [speed], and each of its notes has a
    truthy [type] and [direction] and a [length] that is truthy or the
    number [0]: these fields are never [undefined], [null], [false], [NaN]
    or the empty string.  As many notes come out as the chart's [notes]
    array holds. *)
Theorem X2_target_fields_are_never_falsy (chart : value) (t : Chart.Target) :
  convertToVSlice chart = Some t →
  truthy (Chart.name (Chart.metadata t)) = true ∧
  truthy (Chart.bpm (Chart.metadata t)) = true ∧
  truthy (Chart.speed (Chart.metadata t)) = true ∧
  (∀ n, In n (Chart.notes t) →
        truthy (Chart.type n) = true ∧
        truthy (Chart.direction n) = true ∧
        truthy_or_zero (Chart.length n)) ∧
  (∀ ns, chart_notes chart = VArr ns →
         List.length (Chart.notes t) = List.length ns).
Proof.
  destruct (nullish chart) eqn:Hn.
  { destruct chart; discriminate. }
  rewrite (convertToVSlice_not_nullish _ Hn).
  destruct (array_map convertNote _) as [out|] eqn:Hout; [|discriminate].
  simpl. intros [= <-]. simpl.
  split; [apply truthy_or; reflexivity|].
  split; [apply truthy_or; reflexivity|].
  split; [apply truthy_or; reflexivity|].
  assert (Hmap : ∃ ns, JS.or (chart_notes chart) (VArr []) = VArr ns ∧
                       mapM convertNote ns = Some out).
  { unfold array_map in Hout.
    destruct (JS.or (chart_notes chart) (VArr [])) as [| | | | |ns|];
      try discriminate. eauto. }
  destruct Hmap as (ns & Hor & Hm). apply mapM_Some in Hm. split.
  - intros n Hin. apply list_elem_of_In, list_elem_of_lookup in Hin as [i Hi].
    destruct (Forall2_lookup_r _ _ _ _ _ Hm Hi) as (note & _ & Hc).
    destruct (nullish note) eqn:Hnote.
    { apply convertNote_None in Hnote. congruence. }
    rewrite (convertNote_not_nullish _ Hnote) in Hc. injection Hc as <-.
    cbn [Chart.type Chart.direction Chart.length].
    split; [apply truthy_or; reflexivity|].
    split; [apply truthy_or; reflexivity | apply or_truthy_or_zero].
  - intros ns' Hns. rewrite Hns in Hor. unfold JS.or in Hor. simpl in Hor.
    injection Hor as <-. symmetry. eapply Forall2_length, Hm.
Qed.

Lemma lookup_cons_ne k k' v props :
  k ≠ k' → lookup k' ((k, v) :: props) = lookup k' props.
Proof.
  intros Hne. simpl. destruct (String.eqb_spec k' k); [congruence | reflexivity].
Qed.

(** X3. [convertToVSlice] reads only [song], [bpm], [speed] and [notes] of
    the chart and only [strumTime], [noteType], [direction] and
    [sustainLength] of a note: a property with any other name, added or
    removed, leaves the result the same, so it never reaches the target. *)
Theorem X3_other_properties_are_dropped
    (props : list (string * value)) (k : string) (v : value) :
  (¬ In k ["song"; "bpm"; "speed"; "notes"] →
     convertToVSlice (VObj ((k, v) :: props)) = convertToVSlice (VObj props) ∧
     convertToVSlice (VObj (erase k props)) = convertToVSlice (VObj props)) ∧
  (¬ In k ["strumTime"; "noteType"; "direction"; "sustainLength"] →
     convertNote (VObj ((k, v) :: props)) = convertNote (VObj props) ∧
     convertNote (VObj (erase k props)) = convertNote (VObj props)).
Proof.
  split; intros Hk.
  - assert (H1 : k ≠ "song") by (intros ->; apply Hk; simpl; auto).
    assert (H2 : k ≠ "bpm") by (intros ->; apply Hk; simpl; auto).
    assert (H3 : k ≠ "speed") by (intros ->; apply Hk; simpl; auto).
    assert (H4 : k ≠ "notes") by (intros ->; apply Hk; simpl; auto).
    rewrite !convertToVSlice_object.
    rewrite !(lookup_cons_ne k _ v props), !(lookup_erase_ne k _ props)
      by assumption.
    split; reflexivity.
  - assert (H1 : k ≠ "strumTime") by (intros ->; apply Hk; simpl; auto).
    assert (H2 : k ≠ "noteType") by (intros ->; apply Hk; simpl; auto).
    assert (H3 : k ≠ "direction") by (intros ->; apply Hk; simpl; auto).
    assert (H4 : k ≠ "sustainLength") by (intros ->; apply Hk; simpl; auto).
    rewrite !convertNote_record.
    rewrite !(lookup_cons_ne k _ v props), !(lookup_erase_ne k _ props)
      by assumption.
    split; reflexivity.
Qed.

(** ** The run as a function of the batch *)

Lemma alloc_points (h : list FileObj) (fs : list File) p :
  points_to (h ++ map fresh fs)
            (List.filter (at_ref (h ++ map fresh fs) p)
                         (seq (List.length h) (List.length fs)))
            (List.filter p fs).
Proof.
  assert (G : ∀ (l : list File) k,
    (∀ i f, l !! i = Some f → fs !! (k + i) = Some f) →
    points_to (h ++ map fresh fs)
      (List.filter (at_ref (h ++ map fresh fs) p)
                   (seq (List.length h + k) (List.length l)))
      (List.filter p l)).
  { induction l as [|f l IH]; intros k Hl; simpl; [constructor|].
    assert (Hf : fs !! k = Some f).
    { specialize (Hl 0 f eq_refl). rewrite Nat.add_0_r in Hl. exact Hl. }
    assert (Hrest : points_to (h ++ map fresh fs)
              (List.filter (at_ref (h ++ map fresh fs) p)
                           (seq (S (List.length h + k)) (List.length l)))
              (List.filter p l)).
    { replace (S (List.length h + k)) with (List.length h + S k) by lia.
      apply IH. intros i f' Hi. specialize (Hl (S i) f' Hi).
      replace (S k + i) with (k + S i) by lia. exact Hl. }
    rewrite (at_ref_alloc h fs p k f Hf).
    destruct (p f); [|exact Hrest].
    constructor; [|exact Hrest].
    rewrite lookup_app_r by lia.
    replace (List.length h + k - List.length h) with k by lia.
    change (map fresh fs) with (fresh <$> fs).
    rewrite list_lookup_fmap, Hf. reflexivity. }
  specialize (G fs 0). rewrite Nat.add_0_r in G. apply G. auto.
Qed.

Lemma filter_all {A} (l : list A) : List.filter (λ _, true) l = l.
Proof. induction l as [|x l IH]; simpl; [|rewrite IH]; reflexivity. Qed.

Lemma alloc_points_all (h : list FileObj) (fs : list File) :
  points_to (h ++ map fresh fs) (seq (List.length h) (List.length fs)) fs.
Proof.
  pose proof (alloc_points h fs (λ _, true)) as H.
  rewrite filter_all in H.
  replace (List.filter _ (seq _ _)) with (seq (List.length h) (List.length fs)) in H;
    [exact H|].
  transitivity (List.filter (λ _ : ref, true) (seq (List.length h) (List.length fs)));
    [symmetry; apply filter_all|].
  apply filter_ext_in. intros r Hr.
  destruct (lookup_alloc h fs r Hr) as (f & Hf & _).
  unfold at_ref. rewrite Hf. reflexivity.
Qed.

Lemma points_to_grow h h' refs fs :
  points_to h refs fs → points_to (h ++ h') refs fs.
Proof.
  intros H. eapply Forall2_impl; [exact H|].
  intros r f Hr. apply lookup_app_l_Some, Hr.
Qed.

Lemma points_to_lt h refs fs r :
  points_to h refs fs → In r refs → r < List.length h.
Proof.
  intros H Hr. apply list_elem_of_In, list_elem_of_lookup in Hr as [i Hi].
  destruct (Forall2_lookup_l _ _ _ _ _ H Hi) as (f & _ & Hf).
  apply lookup_lt_Some in Hf. exact Hf.
Qed.

Lemma points_to_at_ref h p r f :
  h !! r = Some (fresh f) → at_ref h p r = p f.
Proof. intros H. unfold at_ref. rewrite H. reflexivity. Qed.

Lemma points_to_filter h refs fs p :
  points_to h refs fs →
  points_to h (List.filter (at_ref h p) refs) (List.filter p fs).
Proof.
  induction 1 as [|r f refs fs Hr _ IH]; simpl; [constructor|].
  rewrite (points_to_at_ref h p r f Hr).
  destruct (p f); [constructor; assumption | exact IH].
Qed.

Lemma points_to_find h refs fs p :
  points_to h refs fs →
  match List.find (at_ref h p) refs, List.find p fs with
  | Some z, Some f => h !! z = Some (fresh f)
  | None, None => True
  | _, _ => False
  end.
Proof.
  induction 1 as [|r f refs fs Hr _ IH]; simpl; [exact I|].
  rewrite (points_to_at_ref h p r f Hr).
  destruct (p f); [exact Hr | exact IH].
Qed.

Lemma filter_not_in (l : list ref) z :
  ¬ In z l → List.filter (λ r, negb (Nat.eqb r z)) l = l.
Proof.
  intros Hz. induction l as [|x l IH]; simpl; [reflexivity|].
  destruct (Nat.eqb_spec x z) as [->|Hne]; simpl.
  - exfalso. apply Hz. left. reflexivity.
  - rewrite IH; [reflexivity|]. intros H. apply Hz. right. exact H.
Qed.

Lemma points_to_remove h refs fs p z :
  points_to h refs fs →
  List.NoDup refs →
  List.find (at_ref h p) refs = Some z →
  points_to h (List.filter (λ r, negb (Nat.eqb r z)) refs) (remove_first p fs).
Proof.
  induction 1 as [|r f refs fs Hr Hrest IH]; simpl; [discriminate|].
  intros Hnd Hfind. apply List.NoDup_cons_iff in Hnd as [Hnotin Hnd].
  rewrite (points_to_at_ref h p r f Hr) in Hfind.
  destruct (p f).
  - injection Hfind as <-. rewrite Nat.eqb_refl. simpl.
    rewrite (filter_not_in _ _ Hnotin). exact Hrest.
  - assert (Hin : In z refs) by (apply find_some in Hfind; tauto).
    destruct (Nat.eqb_spec r z) as [->|Hne]; [contradiction|].
    simpl. constructor; [exact Hr | exact (IH Hnd Hfind)].
Qed.

Lemma NoDup_validated h batch : List.NoDup (validated h batch).
Proof. apply List.NoDup_filter, seq_NoDup. Qed.

Lemma NoDup_expanded z fs st :
  List.NoDup (files st) →
  (∀ r, In r (files st) → r < List.length (heap st)) →
  List.NoDup (files (expanded z fs st)).
Proof.
  intros Hnd Hlt. cbn [files expanded]. apply List.NoDup_app.
  - apply List.NoDup_filter, Hnd.
  - apply seq_NoDup.
  - intros r Hr Hs. apply filter_In in Hr as [Hr _].
    apply in_seq in Hs. specialize (Hlt r Hr). lia.
Qed.

Lemma intake_run batch st :
  intake batch st =
  match validateFiles batch (add_events [Progress 10 "Checking files..."] st) with
  | Throw e s => Throw e s
  | Ok _ s1 =>
    match extractIfArchive s1 with
    | Throw e s => Throw e s
    | Ok _ s2 => organizeFiles s2
    end
  end.
Proof. reflexivity. Qed.

Lemma extractIfArchive_run s1 :
  extractIfArchive s1 =
  match List.find (at_ref (heap s1) isZip) (files s1) with
  | None => Ok () s1
  | Some z =>
    match unzip (heap s1) z with
    | Some fs => Ok () (expanded z fs s1)
    | None => Throw "Failed to extract ZIP file"
                    (add_events [Progress 20 "Extracting archive..."] s1)
    end
  end.
Proof.
  unfold extractIfArchive. cbv beta iota delta [mbind M_bind].
  rewrite hasArchive_run.
  destruct (existsb (at_ref (heap s1) isZip) (files s1)) eqn:E.
  - rewrite extractArchive_run.
    apply existsb_find in E as [z ->]. reflexivity.
  - destruct (List.find _ _) as [z|] eqn:Hz; [|reflexivity].
    assert (existsb (at_ref (heap s1) isZip) (files s1) = true)
      by (apply existsb_find; eauto).
    congruence.
Qed.

(** The intake, stage by stage, against [workingSetOf]. *)
Lemma intake_refines batch st :
  match workingSetOf batch with
  | inl message => ∃ s, intake batch st = Throw message s
  | inr W =>
    ∃ s3, intake batch st = Ok () s3 ∧
          points_to (heap s3) (files s3) W ∧
          List.NoDup (files s3) ∧
          ∀ b, bucket b (vsliceStructure s3)
               = List.filter (at_ref (heap s3) (rule b)) (files s3)
  end.
Proof.
  unfold workingSetOf. rewrite intake_run, validateFiles_run.
  destruct batch as [|f0 batch0]; [eauto|].
  set (batch := f0 :: batch0). cbv zeta. cbn [heap add_events].
  pose proof (alloc_points (heap st) batch isValid) as Hpts.
  pose proof (NoDup_validated (heap st) batch) as Hnd.
  fold (validated (heap st) batch) in Hpts.
  destruct (List.filter isValid batch) as [|v valid] eqn:Hvalid.
  { apply (validated_nil (heap st)) in Hvalid. rewrite Hvalid. eauto. }
  destruct (validated (heap st) batch) as [|r refs] eqn:Hrefs.
  { apply validated_nil in Hrefs. congruence. }
  rewrite extractIfArchive_run. cbn [heap files].
  pose proof (points_to_find _ _ _ isZip Hpts) as Hfind.
  destruct (List.find (at_ref _ isZip) (r :: refs)) as [z|] eqn:Hz;
    destruct (List.find isZip (v :: valid)) as [zipFile|] eqn:Hzf;
    try contradiction.
  - unfold unzip. rewrite Hfind. cbn [mbind option_bind file blob fresh].
    destruct (loadAsync (blob zipFile)) as [content|];
      cbn [mbind option_bind]; [|eauto].
    destruct (readEntries content) as [fs|]; [|eauto].
    rewrite organizeFiles_run. eexists. split; [reflexivity|].
    cbn [heap files vsliceStructure expanded].
    split_and!.
    + apply Forall2_app.
      * apply points_to_grow. apply (points_to_remove _ _ _ _ _ Hpts Hnd Hz).
      * apply alloc_points_all.
    + apply (NoDup_expanded z fs
               {| heap := heap st ++ map fresh batch; files := r :: refs;
                  vsliceStructure := vsliceStructure st;
                  events := events st |}); [exact Hnd|].
      intros r' Hr'. exact (points_to_lt _ _ _ _ Hpts Hr').
    + intros []; reflexivity.
  - rewrite organizeFiles_run. eexists. split; [reflexivity|].
    cbn [heap files vsliceStructure]. split_and!; [exact Hpts | exact Hnd |].
    intros []; reflexivity.
Qed.

Lemma written_refines h h4 (s : Structure) refs b r f :
  h !! r = Some (fresh f) →
  In r refs →
  data s = List.filter (at_ref h isData) refs →
  converted_heap (data s) h h4 →
  written h4 (folderName b) r =
  match contentOf f with
  | Some c => [(archivePath b f, c)]
  | None => []
  end.
Proof.
  intros Hr Hin Hdata Hconv. destruct (Hconv r) as [Hd Hnd].
  unfold written, contentOf.
  destruct (In_dec Nat.eq_dec r (data s)) as [Hl|Hl].
  - rewrite (Hd Hl), Hr. cbn [fmap option_fmap option_map].
    unfold chartOutcome. cbn [file fresh].
    destruct (endsWith (name f) ".json"); [|reflexivity].
    destruct (JSON_parse (text (blob f)) ≫= convertToVSlice); reflexivity.
  - rewrite (Hnd Hl), Hr. cbn [conversionError fresh].
    assert (Hnot : isData f = false).
    { destruct (isData f) eqn:E; [|reflexivity].
      exfalso. apply Hl. rewrite Hdata. apply filter_In. split; [exact Hin|].
      rewrite (points_to_at_ref h isData r f Hr). exact E. }
    unfold isData in Hnot. apply orb_false_elim in Hnot as [-> _]. reflexivity.
Qed.

Lemma bucket_refines h h4 (s : Structure) refs W b :
  points_to h refs W →
  data s = List.filter (at_ref h isData) refs →
  converted_heap (data s) h h4 →
  flat_map (written h4 (folderName b)) (List.filter (at_ref h (rule b)) refs)
  = flat_map (entryOf b) W.
Proof.
  intros Hpts Hdata Hconv.
  assert (G : ∀ refs' W',
    points_to h refs' W' → (∀ r, In r refs' → In r refs) →
    flat_map (written h4 (folderName b)) (List.filter (at_ref h (rule b)) refs')
    = flat_map (entryOf b) W').
  { induction 1 as [|r f refs' W' Hr _ IH]; intros Hsub; [reflexivity|].
    simpl. rewrite (points_to_at_ref h (rule b) r f Hr).
    assert (Hrest : ∀ r', In r' refs' → In r' refs)
      by (intros r' Hr'; apply Hsub; right; exact Hr').
    unfold entryOf at 1. destruct (rule b f).
    - simpl. rewrite (IH Hrest).
      rewrite (written_refines h h4 s refs b r f Hr
                 (Hsub r (or_introl eq_refl)) Hdata Hconv).
      reflexivity.
    - simpl. exact (IH Hrest). }
  apply (G refs W Hpts). auto.
Qed.

Lemma package_refines h h4 (s : Structure) refs W :
  points_to h refs W →
  (∀ b, bucket b s = List.filter (at_ref h (rule b)) refs) →
  converted_heap (data s) h h4 →
  package h4 s = archiveOf W.
Proof.
  intros Hpts Hb Hconv. unfold package, archiveOf, writes, writesOf.
  pose proof (Hb Songs) as Hs. pose proof (Hb Data) as Hd.
  pose proof (Hb Images) as Hi. cbn [bucket rule] in Hs, Hd, Hi.
  pose proof (bucket_refines h h4 s refs W Songs Hpts Hd Hconv) as Es.
  pose proof (bucket_refines h h4 s refs W Data Hpts Hd Hconv) as Ed.
  pose proof (bucket_refines h h4 s refs W Images Hpts Hd Hconv) as Ei.
  cbn [folderName rule] in Es, Ed, Ei.
  rewrite <- Hs in Es. rewrite <- Hd in Ed. rewrite <- Hi in Ei.
  rewrite Es, Ed, Ei. reflexivity.
Qed.

Lemma run_refines (batch : list File) (st : State) :
  match workingSetOf batch with
  | inl message => ∃ st', processFiles batch st = Throw message st'
  | inr W => ∃ st', processFiles batch st = Ok (archiveOf W) st'
  end.
Proof.
  pose proof (intake_refines batch st) as Hin.
  destruct (workingSetOf batch) as [message|W].
  - destruct Hin as [s Hin]. rewrite run_intake, Hin. eauto.
  - destruct Hin as (s3 & Hin & Hpts & _ & Hb).
    destruct (run_completes _ _ _ Hin) as (s4 & _ & _ & _ & Hconv & Hrun).
    rewrite Hrun. rewrite (package_refines _ _ _ _ _ Hpts Hb Hconv). eauto.
Qed.

(** X4. Whatever the state of the converter before, the outcome of
    [processFiles] is a function of the batch and of what the
    collaborators answer.  It throws "No files selected" on an empty
    batch, "No supported files found" when no file passes the filter, and
    "Failed to extract ZIP file" when the first valid file named [*.zip]
    cannot be read.  Otherwise it returns: the working set is the valid
    files in batch order, with that archive taken out and the files of its
    entries added at the end; the archive is the table left by writing the
    songs, then the data, then the images, each in working-set order, a
    file under every bucket whose rule it matches: a [.json] file is
    written as the text of its converted chart, or not at all when it does
    not parse or map, and any other file as itself; a path written more
    than once has one entry, at the place of the first write and with the
    content of the last. *)
Theorem X4_run_is_a_function_of_the_batch (batch : list File) (st : State) :
  match workingSetOf batch with
  | inl message => ∃ st', processFiles batch st = Throw message st'
  | inr W => ∃ st', processFiles batch st = Ok (archiveOf W) st'
  end.
Proof. exact (run_refines batch st). Qed.

(** ** What the run shows *)

Lemma console_only_app es1 es2 :
  console_only es1 → console_only es2 → console_only (es1 ++ es2).
Proof. apply Forall_app_2. Qed.

Lemma console_only_warnings batch : console_only (flat_map warnings batch).
Proof.
  induction batch as [|f batch IH]; simpl; [constructor|].
  apply console_only_app; [|exact IH]. unfold warnings.
  destruct (isValidType f), (isValidSize f); repeat constructor.
Qed.

Lemma console_only_progress es : console_only es → progress_values es = [].
Proof.
  induction 1 as [|e es He _ IH]; [reflexivity|].
  destruct e; try contradiction; exact IH.
Qed.

Lemma console_only_no_error es :
  console_only es → forallb (λ e, negb (is_ErrorShown e)) es = true.
Proof.
  induction 1 as [|e es He _ IH]; [reflexivity|].
  destruct e; try contradiction; exact IH.
Qed.

Lemma progress_values_app es1 es2 :
  progress_values (es1 ++ es2) = progress_values es1 ++ progress_values es2.
Proof. apply flat_map_app. Qed.

Lemma convertChart_events r st :
  ∃ st' es, convertChart r st = Ok () st' ∧
            events st' = events st ++ es ∧ console_only es.
Proof.
  unfold convertChart. unfold_M_only. cbn [heap files events vsliceStructure].
  destruct (heap st !! r) as [o|].
  - destruct (endsWith (name (file o)) ".json").
    + destruct (option_bind _ _ convertToVSlice (JSON_parse (text (blob (file o))))).
      * eexists _, []. split; [reflexivity|]. cbn [events].
        rewrite app_nil_r. split; [reflexivity | constructor].
      * eexists _, [_]. split; [reflexivity|]. cbn [events].
        split; [reflexivity | repeat constructor].
    + eexists _, []. split; [reflexivity|]. rewrite app_nil_r.
      split; [reflexivity | constructor].
  - eexists _, []. split; [reflexivity|]. rewrite app_nil_r.
    split; [reflexivity | constructor].
Qed.

Lemma for_of_convertChart_events l st :
  ∃ st' es, for_of l convertChart st = Ok () st' ∧
            events st' = events st ++ es ∧ console_only es.
Proof.
  revert st. induction l as [|r l IH]; intros st.
  - exists st, []. rewrite app_nil_r. split; [reflexivity|].
    split; [reflexivity | constructor].
  - destruct (convertChart_events r st) as (s1 & es1 & Hr & He1 & Hc1).
    destruct (IH s1) as (st' & es2 & Hl & He2 & Hc2).
    exists st', (es1 ++ es2). rewrite for_of_cons, Hr.
    split; [exact Hl|]. rewrite He2, He1, app_assoc.
    split; [reflexivity | apply console_only_app; assumption].
Qed.

Lemma convertCharts_events st :
  ∃ st' es, convertCharts st = Ok () st' ∧
            events st' = events st ++ [Progress 60 "Converting charts..."] ++ es ∧
            console_only es.
Proof.
  destruct (for_of_convertChart_events (data (vsliceStructure st))
              (add_events [Progress 60 "Converting charts..."] st))
    as (st' & es & Hrun & He & Hc).
  exists st', es. split; [exact Hrun|]. split; [|exact Hc].
  rewrite He. cbn [events add_events]. rewrite <- app_assoc. reflexivity.
Qed.

Lemma intake_events batch st :
  ∃ es mid,
    console_only es ∧
    (mid = [] ∨ mid = [Progress 20 "Extracting archive..."]) ∧
    match intake batch st with
    | Ok _ s3 =>
      events s3 = events st ++ [Progress 10 "Checking files..."] ++ es ++ mid ++
                  [Progress 40 "Organizing files..."]
    | Throw _ s =>
      events s = events st ++ [Progress 10 "Checking files..."] ++ es ++ mid
    end.
Proof.
  rewrite intake_run, validateFiles_run.
  destruct batch as [|f0 batch0].
  { exists [], []. split; [constructor|]. split; [left; reflexivity|].
    reflexivity. }
  set (batch := f0 :: batch0). cbv zeta. cbn [heap events add_events].
  exists (flat_map warnings batch).
  destruct (validated (heap st) batch) as [|r refs].
  { exists []. split; [apply console_only_warnings|].
    split; [left; reflexivity|]. cbn [events].
    rewrite app_nil_r, <- app_assoc. reflexivity. }
  rewrite extractIfArchive_run. cbn [heap files].
  destruct (List.find _ _) as [z|].
  - exists [Progress 20 "Extracting archive..."].
    split; [apply console_only_warnings|]. split; [right; reflexivity|].
    destruct (unzip _ z) as [fs|].
    + rewrite organizeFiles_run. cbn [events expanded].
      rewrite <- !app_assoc. reflexivity.
    + cbn [events add_events]. rewrite <- !app_assoc. reflexivity.
  - exists []. split; [apply console_only_warnings|].
    split; [left; reflexivity|].
    rewrite organizeFiles_run. cbn [events]. rewrite <- !app_assoc. reflexivity.
Qed.

(** Everything a run adds to the log, in both outcomes. *)
Lemma run_events batch st :
  ∃ es1 mid es2,
    console_only es1 ∧
    (mid = [] ∨ mid = [Progress 20 "Extracting archive..."]) ∧
    console_only es2 ∧
    match processFiles batch st with
    | Ok _ st' =>
      events st' = events st ++ [Progress 10 "Checking files..."] ++ es1 ++ mid ++
                   [Progress 40 "Organizing files...";
                    Progress 60 "Converting charts..."] ++ es2 ++
                   [Progress 80 "Creating package..."; Progress 90 "Finalizing..."]
    | Throw message st' =>
      events st' = events st ++ [Progress 10 "Checking files..."] ++ es1 ++ mid ++
                   [ErrorShown message]
    end.
Proof.
  destruct (intake_events batch st) as (es1 & mid & Hc1 & Hmid & Hin).
  rewrite run_intake.
  destruct (intake batch st) as [[] s3|message s].
  - destruct (convertCharts_events s3) as (s4 & es2 & Hconv & He & Hc2).
    exists es1, mid, es2. split_and!; try assumption.
    rewrite Hconv, createVSliceZip_run. cbn [events add_events].
    rewrite He, Hin. rewrite <- !app_assoc. reflexivity.
  - exists es1, mid, []. split_and!; try assumption; [constructor|].
    cbn [events add_events]. rewrite Hin, <- !app_assoc. reflexivity.
Qed.

(** X5. In every run the progress goes up: the percentages shown are 10,
    then 20 when an archive is expanded, then 40, 60, 80 and 90 when the
    run returns, and only 10, or 10 and 20, when it throws.  [showError]
    is called exactly when the run throws, once, with the message thrown,
    and it is the last thing the run shows; what the run adds to the log
    comes after what was there. *)
Theorem X5_progress_goes_up_and_errors_are_shown (batch : list File) (st : State) :
  ∃ new,
    events (state_of (processFiles batch st)) = events st ++ new ∧
    StronglySorted N.lt (progress_values new) ∧
    match processFiles batch st with
    | Ok _ _ =>
      (progress_values new = [10; 40; 60; 80; 90] ∨
       progress_values new = [10; 20; 40; 60; 80; 90])%N ∧
      forallb (λ e, negb (is_ErrorShown e)) new = true
    | Throw message _ =>
      (progress_values new = [10] ∨ progress_values new = [10; 20])%N ∧
      ∃ before, new = before ++ [ErrorShown message] ∧
                forallb (λ e, negb (is_ErrorShown e)) before = true
    end.
Proof.
  destruct (run_events batch st) as (es1 & mid & es2 & Hc1 & Hmid & Hc2 & Hrun).
  pose proof (console_only_progress _ Hc1) as Hp1.
  pose proof (console_only_progress _ Hc2) as Hp2.
  pose proof (console_only_no_error _ Hc1) as Hn1.
  pose proof (console_only_no_error _ Hc2) as Hn2.
  destruct (processFiles batch st) as [archive st'|message st']; cbn [state_of].
  - eexists. split; [exact Hrun|].
    rewrite !progress_values_app, Hp1, Hp2, !forallb_app, Hn1, Hn2.
    destruct Hmid as [-> | ->]; simpl.
    + split; [repeat constructor|]. split; [left|]; reflexivity.
    + split; [repeat constructor|]. split; [right|]; reflexivity.
  - eexists. split; [exact Hrun|].
    rewrite !progress_values_app, Hp1.
    destruct Hmid as [-> | ->]; simpl.
    + split; [repeat constructor|]. split; [left; reflexivity|].
      exists (Progress 10 "Checking files..." :: es1).
      split; [reflexivity|]. simpl. exact Hn1.
    + split; [repeat constructor|]. split; [right; reflexivity|].
      exists (Progress 10 "Checking files..." :: es1 ++
              [Progress 20 "Extracting archive..."]).
      split; [simpl; rewrite <- app_assoc; reflexivity|].
      simpl. rewrite forallb_app, Hn1. reflexivity.
Qed.

(** ** More on the intake *)

Lemma validated_all h batch :
  List.filter isValid batch = batch →
  validated h batch = seq (List.length h) (List.length batch).
Proof.
  intros Hall. unfold validated.
  transitivity (List.filter (λ _ : ref, true)
                            (seq (List.length h) (List.length batch)));
    [|apply filter_all].
  apply filter_ext_in. intros r Hr.
  destruct (lookup_alloc h batch r Hr) as (f & Hf & Hidx).
  unfold at_ref. rewrite Hf. cbn [from_option file fresh].
  assert (Hin : In f batch)
    by (apply list_elem_of_In; eapply list_elem_of_lookup_2, Hidx).
  rewrite <- Hall in Hin. apply filter_In in Hin. tauto.
Qed.

(** X6. [validateFiles] throws when no file of the batch passes its
    filter, and otherwise leaves as working set exactly the files that
    pass, in the order of the batch, each a different object with nothing
    converted or flagged; the files it rejects stay out.  When every file
    passes, the working set is the whole batch. *)
Theorem X6_validateFiles_keeps_the_valid_files (batch : list File) (st : State) :
  match List.filter isValid batch with
  | [] => ∃ message s, validateFiles batch st = Throw message s ∧
                       vsliceStructure s = vsliceStructure st
  | valid =>
    ∃ s1, validateFiles batch st = Ok () s1 ∧
          heap s1 = heap st ++ map fresh batch ∧
          Forall2 (λ r f, heap s1 !! r = Some (fresh f)) (files s1) valid ∧
          List.NoDup (files s1) ∧
          (valid = batch →
           files s1 = seq (List.length (heap st)) (List.length batch))
  end.
Proof.
  rewrite validateFiles_run.
  pose proof (alloc_points (heap st) batch isValid) as Hpts.
  fold (validated (heap st) batch) in Hpts.
  pose proof (validated_nil (heap st) batch) as Hnil.
  destruct (List.filter isValid batch) as [|v valid] eqn:Hvalid.
  - destruct batch as [|f0 batch0]; [eauto|]. cbv zeta.
    rewrite (proj2 Hnil eq_refl). eauto.
  - destruct batch as [|f0 batch0]; [discriminate|]. cbv zeta.
    destruct (validated (heap st) (f0 :: batch0)) as [|r refs] eqn:Hrefs.
    { apply proj1 in Hnil. specialize (Hnil eq_refl). discriminate. }
    eexists. split; [reflexivity|]. cbn [heap files].
    split; [reflexivity|]. split; [exact Hpts|]. split.
    + rewrite <- Hrefs. apply NoDup_validated.
    + intros Hall. rewrite <- Hrefs. apply validated_all.
      rewrite Hvalid. exact Hall.
Qed.

Lemma unzip_None h z o :
  h !! z = Some o →
  (loadAsync (blob (file o)) = None ∨
   ∃ content e, loadAsync (blob (file o)) = Some content ∧
                In e content ∧ dir e = false ∧ async_blob e = None) →
  unzip h z = None.
Proof.
  intros Ho Hfail. destruct (unzip h z) as [fs|] eqn:Hu; [|reflexivity].
  exfalso. apply unzip_Some in Hu as (o' & content & Ho' & Hload & Hfs).
  rewrite Ho in Ho'. injection Ho' as <-.
  destruct Hfail as [Hnone|(content' & e & Hload' & He & Hdir & Hblob)];
    [congruence|].
  rewrite Hload in Hload'. injection Hload' as <-.
  apply readEntries_Some in Hfs.
  assert (Hin : In e (List.filter (λ e, negb (dir e)) content))
    by (apply filter_In; rewrite Hdir; auto).
  apply list_elem_of_In, list_elem_of_lookup in Hin as [i Hi].
  destruct (Forall2_lookup_l _ _ _ _ _ Hfs Hi) as (f & _ & Hsome & _).
  congruence.
Qed.

(** X7. When the archive the run would expand cannot be read (the
    listing is rejected, or the bytes of one entry that is not a
    directory), the run throws "Failed to extract ZIP file" and shows it,
    and nothing of the expansion is kept: the heap, the working set (the
    archive still in it) and the buckets are as [validateFiles] left
    them, and no later stage has run. *)
Theorem X7_failed_extraction_keeps_nothing
    (batch : list File) (st s1 : State) (zipFile : ref) (o : FileObj) :
  validateFiles batch (add_events [Progress 10 "Checking files..."] st) = Ok () s1 →
  List.find (at_ref (heap s1) isZip) (files s1) = Some zipFile →
  heap s1 !! zipFile = Some o →
  (loadAsync (blob (file o)) = None ∨
   ∃ content e, loadAsync (blob (file o)) = Some content ∧
                In e content ∧ dir e = false ∧ async_blob e = None) →
  processFiles batch st =
  Throw "Failed to extract ZIP file"
        {| heap := heap s1; files := files s1;
           vsliceStructure := vsliceStructure s1;
           events := events s1 ++ [Progress 20 "Extracting archive...";
                                   ErrorShown "Failed to extract ZIP file"] |}.
Proof.
  intros Hval Hz Ho Hfail.
  rewrite run_intake, intake_run, Hval, extractIfArchive_run, Hz.
  rewrite (unzip_None _ _ _ Ho Hfail), add_events_app. reflexivity.
Qed.

(** ** The state a run ends in *)

Lemma at_ref_same_files h h' p r :
  map file h' = map file h → at_ref h' p r = at_ref h p r.
Proof.
  intros Hf. unfold at_ref.
  assert (E : file <$> h' !! r = file <$> h !! r).
  { rewrite <- !list_lookup_fmap.
    change (file <$> h') with (map file h'). change (file <$> h) with (map file h).
    rewrite Hf. reflexivity. }
  destruct (h' !! r) as [o'|], (h !! r) as [o|]; simpl in *; congruence.
Qed.

Lemma chartOutcome_not_data f :
  isData f = false → chartOutcome (fresh f) = fresh f.
Proof.
  unfold isData, chartOutcome. intros H.
  apply orb_false_elim in H as [H _]. cbn [file fresh]. rewrite H. reflexivity.
Qed.

(** A run that returns, against [workingSetOf] and [archiveOf]: where the
    references of the working set point at the end. *)
Lemma run_Ok_refines batch st archive st' :
  processFiles batch st = Ok archive st' →
  ∃ W, workingSetOf batch = inr W ∧
       archive = archiveOf W ∧
       Forall2 (λ r f, heap st' !! r = Some (chartOutcome (fresh f))) (files st') W ∧
       List.NoDup (files st') ∧
       ∀ b, bucket b (vsliceStructure st')
            = List.filter (at_ref (heap st') (rule b)) (files st').
Proof.
  intros Hrun. pose proof (intake_refines batch st) as Hin.
  destruct (workingSetOf batch) as [message|W].
  { destruct Hin as [s Hin]. rewrite run_intake, Hin in Hrun. discriminate. }
  destruct Hin as (s3 & Hin & Hpts & Hnd & Hb).
  destruct (run_completes _ _ _ Hin) as (s4 & _ & Hf4 & Hs4 & Hconv & Hrun').
  rewrite Hrun' in Hrun. injection Hrun as <- <-.
  exists W. split; [reflexivity|].
  split; [apply (package_refines _ _ _ _ _ Hpts Hb Hconv)|].
  cbn [heap files vsliceStructure add_events]. rewrite Hf4, Hs4.
  split; [|split; [exact Hnd|]].
  - apply Forall2_same_length_lookup. split; [eapply Forall2_length, Hpts|].
    intros i r f Hr Hf.
    assert (Hfresh : heap s3 !! r = Some (fresh f)).
    { destruct (Forall2_lookup_l _ _ _ _ _ Hpts Hr) as (f' & Hf' & Hp).
      congruence. }
    assert (Hin_r : In r (files s3))
      by (apply list_elem_of_In; eapply list_elem_of_lookup_2, Hr).
    destruct (Hconv r) as [Hd Hnd'].
    destruct (In_dec Nat.eq_dec r (data (vsliceStructure s3))) as [Hl|Hl].
    + rewrite (Hd Hl), Hfresh. reflexivity.
    + rewrite (Hnd' Hl), Hfresh. f_equal. symmetry.
      apply chartOutcome_not_data.
      destruct (isData f) eqn:E; [|reflexivity].
      exfalso. apply Hl. specialize (Hb Data). cbn [bucket rule] in Hb.
      rewrite Hb. apply filter_In. split; [exact Hin_r|].
      rewrite (points_to_at_ref _ isData r f Hfresh). exact E.
  - intros b. rewrite Hb. apply filter_ext. intros r.
    symmetry. apply at_ref_same_files, (converted_heap_files _ _ _ Hconv).
Qed.

(** X8. When the run returns, every file of the working set has its
    outcome settled by its own name and text alone: it carries a
    converted chart exactly when its name ends in [.json] and its text
    parses and maps, the chart being [convertToVSlice] of the parsed
    text; it is flagged exactly when its name ends in [.json] and parsing
    or mapping fails; it is never both, and a file with another name is
    neither. *)
Theorem X8_conversion_outcome_of_each_file
    (batch : list File) (st : State) (archive : list (string * Content))
    (st' : State) (r : ref) :
  processFiles batch st = Ok archive st' →
  In r (files st') →
  ∃ o, heap st' !! r = Some o ∧
       converted o =
         (if endsWith (name (file o)) ".json"
          then JSON_parse (text (blob (file o))) ≫= convertToVSlice
          else None) ∧
       conversionError o =
         (endsWith (name (file o)) ".json" &&
          match JSON_parse (text (blob (file o))) ≫= convertToVSlice with
          | Some _ => false
          | None => true
          end) ∧
       (conversionError o = true → converted o = None).
Proof.
  intros Hrun Hr.
  destruct (run_Ok_refines _ _ _ _ Hrun) as (W & _ & _ & Hpts & _).
  apply list_elem_of_In, list_elem_of_lookup in Hr as [i Hi].
  destruct (Forall2_lookup_l _ _ _ _ _ Hpts Hi) as (f & _ & Ho).
  exists (chartOutcome (fresh f)). split; [exact Ho|].
  rewrite chartOutcome_file. unfold chartOutcome. cbn [file fresh].
  destruct (endsWith (name f) ".json"); [|split_and!; (reflexivity || discriminate)].
  destruct (JSON_parse (text (blob f)) ≫= convertToVSlice);
    split_and!; (reflexivity || discriminate).
Qed.

(** X9. When the run returns, the working set has no reference twice,
    and each bucket is still the filter of the working set by its rule,
    in working-set order: nothing after [organizeFiles] moves a file in or
    out of a bucket, so a file is written at most once under a folder. *)
Theorem X9_buckets_stay_filters_of_the_working_set
    (batch : list File) (st : State) (archive : list (string * Content))
    (st' : State) :
  processFiles batch st = Ok archive st' →
  List.NoDup (files st') ∧
  (∀ r, In r (files st') → r < List.length (heap st')) ∧
  songs (vsliceStructure st') = List.filter (at_ref (heap st') isSong) (files st') ∧
  data (vsliceStructure st') = List.filter (at_ref (heap st') isData) (files st') ∧
  images (vsliceStructure st') = List.filter (at_ref (heap st') isImage) (files st') ∧
  (∀ b, List.NoDup (bucket b (vsliceStructure st'))).
Proof.
  intros Hrun.
  destruct (run_Ok_refines _ _ _ _ Hrun) as (W & _ & _ & Hpts & Hnd & Hb).
  split; [exact Hnd|]. split.
  - intros r Hr. apply list_elem_of_In, list_elem_of_lookup in Hr as [i Hi].
    destruct (Forall2_lookup_l _ _ _ _ _ Hpts Hi) as (f & _ & Ho).
    apply lookup_lt_Some in Ho. exact Ho.
  - split; [exact (Hb Songs)|]. split; [exact (Hb Data)|].
    split; [exact (Hb Images)|].
    intros b. rewrite Hb. apply List.NoDup_filter, Hnd.
Qed.

(** ** Files that match no rule, and files that match one *)

Lemma In_entryOf b f p c :
  In (p, c) (entryOf b f) →
  rule b f = true ∧ p = archivePath b f ∧ contentOf f = Some c.
Proof.
  unfold entryOf. destruct (rule b f); [|intros []].
  destruct (contentOf f) as [c'|]; [|intros []].
  intros [[= <- <-]|[]]. auto.
Qed.

Lemma In_archiveOf W p c :
  In (p, c) (archiveOf W) →
  ∃ b f, In f W ∧ rule b f = true ∧ p = archivePath b f ∧ contentOf f = Some c.
Proof.
  unfold archiveOf. intros Hin.
  apply store_all_In in Hin as [[]|Hin]; [|constructor].
  revert Hin. unfold writesOf. rewrite !in_app_iff, !in_flat_map.
  intros [(f & Hf & He)|[(f & Hf & He)|(f & Hf & He)]];
    apply In_entryOf in He as (Hr & Hp & Hc); eauto 10.
Qed.

Lemma rule_name b f f' : name f = name f' → rule b f = rule b f'.
Proof.
  intros H. destruct b; cbn [rule]; unfold isSong, isData, isImage;
    rewrite H; reflexivity.
Qed.

Lemma archive_entries_match_rules
    (batch : list File) (st : State) (archive : list (string * Content))
    (st' : State) :
  processFiles batch st = Ok archive st' →
  (∀ path content,
     In (path, content) archive →
     ∃ b r o, In r (files st') ∧ heap st' !! r = Some o ∧
              rule b (file o) = true ∧ path = archivePath b (file o)) ∧
  (∀ r o,
     In r (files st') → heap st' !! r = Some o →
     isSong (file o) = false → isData (file o) = false →
     isImage (file o) = false →
     ∀ b content, ¬ In (archivePath b (file o), content) archive).
Proof.
  intros Hrun.
  destruct (run_Ok_refines _ _ _ _ Hrun) as (W & _ & -> & Hpts & _ & _).
  assert (Hentries : ∀ path content,
     In (path, content) (archiveOf W) →
     ∃ b r o, In r (files st') ∧ heap st' !! r = Some o ∧
              rule b (file o) = true ∧ path = archivePath b (file o)).
  { intros path content Hin.
    apply In_archiveOf in Hin as (b & f & Hf & Hrule & -> & _).
    apply list_elem_of_In, list_elem_of_lookup in Hf as [i Hi].
    destruct (Forall2_lookup_r _ _ _ _ _ Hpts Hi) as (r & Hr & Ho).
    exists b, r, (chartOutcome (fresh f)).
    rewrite chartOutcome_file. split_and!; try assumption; try reflexivity.
    apply list_elem_of_In. eapply list_elem_of_lookup_2, Hr. }
  split; [exact Hentries|].
  intros r o Hr Ho Hs Hd Hi b content Hin.
  destruct (Hentries _ _ Hin) as (b' & r' & o' & _ & _ & Hrule & Hpath).
  apply archivePath_inj in Hpath as [<- Hname].
  rewrite <- (rule_name b _ _ Hname) in Hrule.
  destruct b; cbn [rule] in Hrule; congruence.
Qed.

(** X10. When the run returns, every entry of the archive is the entry
    of a file of the working set under a bucket whose rule the file's
    name matches; so a file whose name matches no rule (neither the
    extension nor the folder of any bucket) is dropped without a word:
    the archive has no entry at any path the file could have. *)
Theorem X10_unmatched_files_are_dropped
    (batch : list File) (st : State) (archive : list (string * Content))
    (st' : State) :
  processFiles batch st = Ok archive st' →
  (∀ path content,
     In (path, content) archive →
     ∃ b r o, In r (files st') ∧ heap st' !! r = Some o ∧
              rule b (file o) = true ∧ path = archivePath b (file o)) ∧
  (∀ r o,
     In r (files st') → heap st' !! r = Some o →
     isSong (file o) = false → isData (file o) = false →
     isImage (file o) = false →
     ∀ b content, ¬ In (archivePath b (file o), content) archive).
Proof. exact (archive_entries_match_rules batch st archive st'). Qed.

Lemma flat_map_nil {A B} (g : A → list B) (l : list A) :
  (∀ x, In x l → g x = []) → flat_map g l = [].
Proof.
  induction l as [|x l IH]; intros H; [reflexivity|]. simpl.
  rewrite (H x (or_introl eq_refl)), IH; [reflexivity|].
  intros y Hy. apply H. right. exact Hy.
Qed.

Lemma find_none_all {A} (p : A → bool) (l : list A) :
  (∀ x, In x l → p x = false) → List.find p l = None.
Proof.
  induction l as [|x l IH]; intros H; [reflexivity|]. simpl.
  rewrite (H x (or_introl eq_refl)). apply IH.
  intros y Hy. apply H. right. exact Hy.
Qed.

Lemma filter_all_true {A} (p : A → bool) (l : list A) :
  (∀ x, In x l → p x = true) → List.filter p l = l.
Proof.
  induction l as [|x l IH]; intros H; [reflexivity|]. simpl.
  rewrite (H x (or_introl eq_refl)), IH; [reflexivity|].
  intros y Hy. apply H. right. exact Hy.
Qed.

(** X11. A batch that is not empty, whose files all pass the filter of
    [validateFiles] but whose names match no rule of the classifier and
    do not end in [.zip], gives a run that returns, with an archive
    without entries.  The filter compares the extension without regard
    to case and the classifier and [hasArchive] with regard to it, so a
    file named [MOD.ZIP] or [Track.OGG] is accepted and then left out. *)
Theorem X11_accepted_files_can_all_be_left_out (batch : list File) (st : State) :
  batch ≠ [] →
  (∀ f, In f batch →
        isValid f = true ∧ isZip f = false ∧
        isSong f = false ∧ isData f = false ∧ isImage f = false) →
  ∃ st', processFiles batch st = Ok [] st'.
Proof.
  intros Hne Hall. pose proof (run_refines batch st) as Hrun.
  unfold workingSetOf in Hrun.
  destruct batch as [|f0 batch0]; [contradiction|].
  rewrite (filter_all_true isValid (f0 :: batch0)) in Hrun
    by (intros f Hf; apply (Hall f Hf)).
  cbv beta iota in Hrun.
  rewrite (find_none_all isZip (f0 :: batch0)) in Hrun
    by (intros f Hf; apply (Hall f Hf)).
  replace (archiveOf (f0 :: batch0)) with (@nil (string * Content)) in Hrun;
    [exact Hrun|].
  symmetry. unfold archiveOf, writesOf.
  rewrite !flat_map_nil; [reflexivity|..];
    intros f Hf; destruct (Hall f Hf) as (_ & _ & Hs & Hd & Hi);
    unfold entryOf; cbn [rule]; rewrite ?Hs, ?Hd, ?Hi; reflexivity.
Qed.

(** ** Names without a folder *)

Lemma endsWith_get s suffix :
  endsWith s suffix = true →
  (String.length suffix ≤ String.length s)%nat ∧
  ∀ p, (p < String.length suffix)%nat →
       String.get (p + (String.length s - String.length suffix)) s
       = String.get p suffix.
Proof.
  unfold endsWith. intros H. apply andb_prop in H as [Hlen Heq].
  apply Nat.leb_le in Hlen. apply String.eqb_eq in Heq.
  split; [exact Hlen|]. intros p Hp.
  rewrite <- (substring_correct1 s _ _ p Hp), Heq. reflexivity.
Qed.

(** Two suffixes of one string agree on their last characters. *)
Lemma endsWith_agree s suffix1 suffix2 k :
  endsWith s suffix1 = true →
  endsWith s suffix2 = true →
  (k < String.length suffix1)%nat →
  (k < String.length suffix2)%nat →
  String.get (String.length suffix1 - 1 - k) suffix1
  = String.get (String.length suffix2 - 1 - k) suffix2.
Proof.
  intros H1 H2 Hk1 Hk2.
  apply endsWith_get in H1 as [Hl1 H1]. apply endsWith_get in H2 as [Hl2 H2].
  rewrite <- H1, <- H2 by lia. f_equal. lia.
Qed.

Lemma extensions_exclusive s :
  (endsWith s ".ogg" && endsWith s ".json" = false) ∧
  (endsWith s ".ogg" && endsWith s ".png" = false) ∧
  (endsWith s ".json" && endsWith s ".png" = false).
Proof.
  split_and!.
  - destruct (endsWith s ".ogg") eqn:E1, (endsWith s ".json") eqn:E2;
      try reflexivity.
    pose proof (endsWith_agree s _ _ 0 E1 E2) as H. simpl in H.
    specialize (H ltac:(lia) ltac:(lia)). discriminate.
  - destruct (endsWith s ".ogg") eqn:E1, (endsWith s ".png") eqn:E2;
      try reflexivity.
    pose proof (endsWith_agree s _ _ 1 E1 E2) as H. simpl in H.
    specialize (H ltac:(lia) ltac:(lia)). discriminate.
  - destruct (endsWith s ".json") eqn:E1, (endsWith s ".png") eqn:E2;
      try reflexivity.
    pose proof (endsWith_agree s _ _ 0 E1 E2) as H. simpl in H.
    specialize (H ltac:(lia) ltac:(lia)). discriminate.
Qed.

Lemma includes_first s c rest :
  includes s (String c rest) = true → includes s (String c EmptyString) = true.
Proof.
  induction s as [|a s IH]; simpl; [discriminate|].
  destruct (ascii_dec c a); simpl.
  - intros _. destruct s; reflexivity.
  - exact IH.
Qed.

Lemma includes_slash s part :
  includes s "/" = false → includes s (String "/" part) = false.
Proof.
  intros H. destruct (includes s (String "/" part)) eqn:E; [|reflexivity].
  apply includes_first in E. congruence.
Qed.

Lemma flat_store_rules f :
  includes (name f) "/" = false →
  isSong f = endsWith (name f) ".ogg" ∧
  isData f = endsWith (name f) ".json" ∧
  isImage f = endsWith (name f) ".png".
Proof.
  intros H. unfold isSong, isData, isImage.
  rewrite !(includes_slash _ _ H), !orb_false_r. auto.
Qed.

(** X12. A file whose name has no [/] in it (a file picked from a disk,
    not an entry of an archive) is classified by its extension alone, and
    the three extensions exclude one another: such a file is in at most
    one bucket. *)
Theorem X12_plain_names_match_at_most_one_rule (f : File) :
  includes (name f) "/" = false →
  isSong f = endsWith (name f) ".ogg" ∧
  isData f = endsWith (name f) ".json" ∧
  isImage f = endsWith (name f) ".png" ∧
  isSong f && isData f = false ∧
  isSong f && isImage f = false ∧
  isData f && isImage f = false.
Proof.
  intros H. destruct (flat_store_rules f H) as (Hs & Hd & Hi).
  destruct (extensions_exclusive (name f)) as (H1 & H2 & H3).
  rewrite Hs, Hd, Hi. auto 10.
Qed.

Lemma length_entryOf b f :
  (List.length (entryOf b f) ≤ (if rule b f then 1 else 0))%nat.
Proof.
  unfold entryOf. destruct (rule b f); [|simpl; lia].
  destruct (contentOf f); simpl; lia.
Qed.

Lemma length_writesOf W :
  (∀ f, In f W → includes (name f) "/" = false) →
  (List.length (writesOf W) ≤ List.length W)%nat.
Proof.
  unfold writesOf. rewrite !length_app.
  induction W as [|f W IH]; intros H; [simpl; lia|].
  simpl. rewrite !length_app.
  assert (Hrest : ∀ f', In f' W → includes (name f') "/" = false)
    by (intros f' Hf'; apply H; right; exact Hf').
  specialize (IH Hrest).
  destruct (flat_store_rules f (H f (or_introl eq_refl))) as (Hs & Hd & Hi).
  destruct (extensions_exclusive (name f)) as (H1 & H2 & H3).
  pose proof (length_entryOf Songs f) as Ls.
  pose proof (length_entryOf Data f) as Ld.
  pose proof (length_entryOf Images f) as Li.
  cbn [rule] in Ls, Ld, Li. rewrite Hs in Ls. rewrite Hd in Ld. rewrite Hi in Li.
  destruct (endsWith (name f) ".ogg"), (endsWith (name f) ".json"),
    (endsWith (name f) ".png"); try discriminate; lia.
Qed.

Lemma length_archiveOf W :
  (∀ f, In f W → includes (name f) "/" = false) →
  (List.length (archiveOf W) ≤ List.length W)%nat.
Proof.
  intros H. pose proof (length_writesOf W H) as Hw.
  pose proof (store_all_length [] (writesOf W)) as Hs.
  unfold archiveOf. simpl in Hs. lia.
Qed.

(** X13. When the run returns and no name in the working set has a [/]
    in it, no file is packaged twice: the archive has at most as many
    entries as the working set has files. *)
Theorem X13_plain_names_are_packaged_at_most_once
    (batch : list File) (st : State) (archive : list (string * Content))
    (st' : State) :
  processFiles batch st = Ok archive st' →
  (∀ r o, In r (files st') → heap st' !! r = Some o →
          includes (name (file o)) "/" = false) →
  (List.length archive ≤ List.length (files st'))%nat.
Proof.
  intros Hrun Hplain.
  destruct (run_Ok_refines _ _ _ _ Hrun) as (W & _ & -> & Hpts & _ & _).
  rewrite (Forall2_length _ _ _ Hpts). apply length_archiveOf.
  intros f Hf. apply list_elem_of_In, list_elem_of_lookup in Hf as [i Hi].
  destruct (Forall2_lookup_r _ _ _ _ _ Hpts Hi) as (r & Hr & Ho).
  assert (Hin : In r (files st'))
    by (apply list_elem_of_In; eapply list_elem_of_lookup_2, Hr).
  specialize (Hplain r _ Hin Ho). rewrite chartOutcome_file in Hplain.
  exact Hplain.
Qed.

(** ** The page's handler *)

Lemma render_app es1 es2 p : render (es1 ++ es2) p = render es2 (render es1 p).
Proof. unfold render. apply foldl_app. Qed.

Lemma render_cons e es p : render (e :: es) p = render es (show e p).
Proof. reflexivity. Qed.

(** What no event changes. *)
Lemma render_fixed es p :
  progressVisible (render es p) = progressVisible p ∧
  resultVisible (render es p) = resultVisible p ∧
  download (render es p) = download p.
Proof.
  revert p. induction es as [|e es IH]; intros p; [auto|].
  rewrite render_cons. destruct (IH (show e p)) as (H1 & H2 & H3).
  rewrite H1, H2, H3. destruct e; auto.
Qed.

Lemma render_console_only es p :
  console_only es →
  progressValue (render es p) = progressValue p ∧
  status (render es p) = status p ∧
  errorVisible (render es p) = errorVisible p ∧
  errorText (render es p) = errorText p.
Proof.
  intros H. revert p. induction H as [|e es He _ IH]; intros p; [auto|].
  rewrite render_cons. destruct (IH (show e p)) as (H1 & H2 & H3 & H4).
  rewrite H1, H2, H3, H4. destruct e; try contradiction; auto.
Qed.

Lemma render_mid mid p :
  mid = [] ∨ mid = [Progress 20 "Extracting archive..."] →
  errorVisible (render mid p) = errorVisible p ∧
  errorText (render mid p) = errorText p ∧
  (progressValue (render mid p) = progressValue p ∨
   progressValue (render mid p) = 20%N).
Proof. intros [-> | ->]; simpl; auto. Qed.

(** X14. [handleFiles] shows the progress section and, when it is done,
    the page tells the outcome of the run on a new converter.  When the
    run returned, the result section is displayed, the error banner is
    not, the download button saves the new archive as [vslice_mod.zip],
    and the progress bar is at 90 with the status "Finalizing...".  When
    the run threw, the result section is hidden, the error banner is
    displayed with the message thrown, the progress bar stopped at 10 or
    20, and the download button is as it was before. *)
Theorem X14_handleFiles_shows_the_outcome (batch : list File) (page : Page) :
  progressVisible (handleFiles batch page) = true ∧
  match processFiles batch initial with
  | Ok archive _ =>
    resultVisible (handleFiles batch page) = true ∧
    errorVisible (handleFiles batch page) = false ∧
    download (handleFiles batch page) = Some ("vslice_mod.zip", archive) ∧
    progressValue (handleFiles batch page) = 90%N ∧
    status (handleFiles batch page) = "Finalizing..."
  | Throw message _ =>
    resultVisible (handleFiles batch page) = false ∧
    errorVisible (handleFiles batch page) = true ∧
    errorText (handleFiles batch page) = message ∧
    download (handleFiles batch page) = download page ∧
    (progressValue (handleFiles batch page) = 10%N ∨
     progressValue (handleFiles batch page) = 20%N)
  end.
Proof.
  unfold handleFiles. cbv zeta.
  set (page0 := {| progressVisible := true; resultVisible := false;
                   errorVisible := false; progressValue := progressValue page;
                   status := status page; errorText := errorText page;
                   download := download page; console := console page |}).
  destruct (run_events batch initial)
    as (es1 & mid & es2 & Hc1 & Hmid & Hc2 & Hrun).
  change (events initial) with (@nil Event) in Hrun. rewrite app_nil_l in Hrun.
  set (p1 := render [Progress 10 "Checking files..."] page0).
  destruct (render_console_only es1 p1 Hc1) as (Hp1 & _ & He1 & _).
  destruct (render_mid mid (render es1 p1) Hmid) as (Hem & _ & Hpm).
  set (p2 := render mid (render es1 p1)) in *.
  destruct (processFiles batch initial) as [archive st'|message st'];
    cbn [progressVisible resultVisible errorVisible download progressValue
         status errorText];
    rewrite Hrun.
  - destruct (render_fixed
                ([Progress 10 "Checking files..."] ++ es1 ++ mid ++
                 [Progress 40 "Organizing files...";
                  Progress 60 "Converting charts..."] ++ es2 ++
                 [Progress 80 "Creating package...";
                  Progress 90 "Finalizing..."]) page0) as (Hv & _ & _).
    split; [exact Hv|]. split; [reflexivity|].
    rewrite !render_app. fold p1. fold p2.
    destruct (render_console_only es2
                (render [Progress 40 "Organizing files...";
                         Progress 60 "Converting charts..."] p2) Hc2)
      as (_ & _ & He2 & _).
    split; [|split; [reflexivity|split; reflexivity]].
    change (errorVisible
              (render es2
                 (render [Progress 40 "Organizing files...";
                          Progress 60 "Converting charts..."] p2)) = false).
    rewrite He2. change (errorVisible p2 = false). rewrite Hem, He1. reflexivity.
  - destruct (render_fixed
                ([Progress 10 "Checking files..."] ++ es1 ++ mid ++
                 [ErrorShown message]) page0) as (Hv & Hr & Hd).
    split; [exact Hv|]. split; [exact Hr|].
    split; [|split; [|split; [exact Hd|]]].
    + rewrite !render_app. reflexivity.
    + rewrite !render_app. reflexivity.
    + rewrite !render_app. fold p1. fold p2.
      change (progressValue p2 = 10%N ∨ progressValue p2 = 20%N).
      destruct Hpm as [Hp|Hp]; [left | right; exact Hp].
      rewrite Hp, Hp1. reflexivity.
Qed.

(** ** Archives that are not expanded, and a batch of three *)

Lemma zip_excludes s :
  endsWith s ".zip" = true →
  endsWith s ".ogg" = false ∧ endsWith s ".json" = false ∧
  endsWith s ".png" = false.
Proof.
  intros Hz. split_and!.
  - destruct (endsWith s ".ogg") eqn:E; [|reflexivity].
    pose proof (endsWith_agree s _ _ 0 Hz E) as H. simpl in H.
    specialize (H ltac:(lia) ltac:(lia)). discriminate.
  - destruct (endsWith s ".json") eqn:E; [|reflexivity].
    pose proof (endsWith_agree s _ _ 0 Hz E) as H. simpl in H.
    specialize (H ltac:(lia) ltac:(lia)). discriminate.
  - destruct (endsWith s ".png") eqn:E; [|reflexivity].
    pose proof (endsWith_agree s _ _ 0 Hz E) as H. simpl in H.
    specialize (H ltac:(lia) ltac:(lia)). discriminate.
Qed.

(** X15. When the run returns, a file of the working set whose name ends
    in [.zip] and has no [/] in it is not in the archive: a second
    archive of the batch is neither expanded nor packaged, and what it
    holds is lost without an error. *)
Theorem X15_other_archives_are_left_out
    (batch : list File) (st : State) (archive : list (string * Content))
    (st' : State) (r : ref) (o : FileObj) :
  processFiles batch st = Ok archive st' →
  In r (files st') →
  heap st' !! r = Some o →
  endsWith (name (file o)) ".zip" = true →
  includes (name (file o)) "/" = false →
  ∀ b content, ¬ In (archivePath b (file o), content) archive.
Proof.
  intros Hrun Hr Ho Hzip Hplain.
  destruct (flat_store_rules _ Hplain) as (Hs & Hd & Hi).
  destruct (zip_excludes _ Hzip) as (H1 & H2 & H3).
  apply (proj2 (archive_entries_match_rules _ _ _ _ Hrun) r o Hr Ho);
    congruence.
Qed.

(** X16. A batch of an audio file, a chart and an image, in this order,
    with names that have no [/] and end in [.ogg], [.json] and [.png],
    all three passing the filter and the chart parsing and mapping to
    [t]: the run returns the archive with exactly three entries, the
    audio file under [songs], the text of the converted chart under
    [data] and the image under [images]. *)
Theorem X16_audio_chart_image_give_three_entries
    (song chart image : File) (t : Chart.Target) (st : State) :
  isValid song = true → isValid chart = true → isValid image = true →
  includes (name song) "/" = false →
  includes (name chart) "/" = false →
  includes (name image) "/" = false →
  endsWith (name song) ".ogg" = true →
  endsWith (name chart) ".json" = true →
  endsWith (name image) ".png" = true →
  JSON_parse (text (blob chart)) ≫= convertToVSlice = Some t →
  ∃ st',
    processFiles [song; chart; image] st =
    Ok [ ("vslice_mod/songs/" +:+ name song, CFile song);
         ("vslice_mod/data/" +:+ name chart, CText (JSON_stringify t));
         ("vslice_mod/images/" +:+ name image, CFile image) ] st'.
Proof.
  intros Vs Vc Vi Ps Pc Pi Es Ec Ei Ht.
  pose proof (run_refines [song; chart; image] st) as Hrun.
  destruct (flat_store_rules _ Ps) as (Ss & Sd & Si).
  destruct (flat_store_rules _ Pc) as (Cs & Cd & Ci).
  destruct (flat_store_rules _ Pi) as (Is & Id & Ii).
  destruct (extensions_exclusive (name song)) as (S1 & S2 & _).
  destruct (extensions_exclusive (name chart)) as (C1 & _ & C3).
  destruct (extensions_exclusive (name image)) as (_ & I2 & I3).
  rewrite Es in S1, S2. rewrite Ec in C1, C3. rewrite Ei in I2, I3.
  simpl in S1, S2, C3. rewrite andb_true_r in C1, I2, I3.
  assert (Zs : isZip song = false).
  { unfold isZip. destruct (endsWith (name song) ".zip") eqn:E; [|reflexivity].
    apply zip_excludes in E. destruct E as (E & _). congruence. }
  assert (Zc : isZip chart = false).
  { unfold isZip. destruct (endsWith (name chart) ".zip") eqn:E; [|reflexivity].
    apply zip_excludes in E. destruct E as (_ & E & _). congruence. }
  assert (Zi : isZip image = false).
  { unfold isZip. destruct (endsWith (name image) ".zip") eqn:E; [|reflexivity].
    apply zip_excludes in E. destruct E as (_ & _ & E). congruence. }
  unfold workingSetOf in Hrun. simpl in Hrun.
  rewrite Vs, Vc, Vi in Hrun. simpl in Hrun. rewrite Zs, Zc, Zi in Hrun.
  replace (archiveOf [song; chart; image])
    with [ ("vslice_mod/songs/" +:+ name song, CFile song);
           ("vslice_mod/data/" +:+ name chart, CText (JSON_stringify t));
           ("vslice_mod/images/" +:+ name image, CFile image) ] in Hrun;
    [exact Hrun|].
  unfold archiveOf, writesOf, entryOf, contentOf. cbn [flat_map rule].
  rewrite Ss, Sd, Si, Cs, Cd, Ci, Is, Id, Ii.
  rewrite Es, Ec, Ei, S1, S2, C1, C3, I2, I3, Ht. reflexivity.
Qed.

(** ** The loop of [convertCharts], in any order *)

(** X17. The loop of [convertCharts] may visit the files in any order,
    and a file more than once: the heap it leaves depends only on which
    files it visits, and the working set and the buckets are not
    touched.  So converting the charts one after the other and
    converting them side by side give the same files. *)
Theorem X17_conversion_order_does_not_matter (l l' : list ref) (st : State) :
  (∀ r, In r l ↔ In r l') →
  heap (state_of (for_of l convertChart st))
  = heap (state_of (for_of l' convertChart st)) ∧
  files (state_of (for_of l convertChart st)) = files st ∧
  vsliceStructure (state_of (for_of l convertChart st)) = vsliceStructure st.
Proof.
  intros Hsame.
  destruct (for_of_convertChart l st) as (s & -> & Hf & Hs & Hh).
  destruct (for_of_convertChart l' st) as (s' & -> & _ & _ & Hh').
  cbn [state_of]. split; [|split; assumption].
  apply list_eq. intros r.
  destruct (Hh r) as [Hin Hout]. destruct (Hh' r) as [Hin' Hout'].
  destruct (In_dec Nat.eq_dec r l) as [Hl|Hl].
  - rewrite (Hin Hl), (Hin' (proj1 (Hsame r) Hl)). reflexivity.
  - rewrite (Hout Hl). symmetry. apply Hout'.
    intros Hl'. apply Hl, Hsame, Hl'.
Qed.

(** ** The two texts of the class *)

Lemma extractArchive_optimized_run st :
  extractArchive_optimized st =
  match List.find (at_ref (heap st) isZip) (files st) with
  | None => Ok () st
  | Some zipFile =>
    match unzip (heap st) zipFile with
    | Some fs =>
      Ok () {| heap := heap st ++ map fresh fs;
               files := List.filter (λ f, negb (Nat.eqb f zipFile)) (files st) ++
                        seq (List.length (heap st)) (List.length fs);
               vsliceStructure := vsliceStructure st;
               events := events st |}
    | None => Throw "Failed to extract ZIP" st
    end
  end.
Proof.
  unfold extractArchive_optimized. unfold_M_only. cbn [heap files].
  destruct (List.find _ _) as [z|]; [|reflexivity].
  unfold unzip, await. unfold_M_only. cbn [heap files].
  destruct (heap st !! z) as [o|]; simpl; [|reflexivity].
  destruct (loadAsync (blob (file o))) as [content|]; simpl; [|reflexivity].
  rewrite all_map_extractEntry. unfold readEntries.
  destruct (mapM entryFile _); reflexivity.
Qed.

(** X18. The [extractArchive] of the first text of the class and the one
    of the second do the same to the heap, the working set and the
    buckets, and fail on the same archives; they differ in that the
    second shows the progress 20 first and throws "Failed to extract ZIP
    file" where the first throws "Failed to extract ZIP".  The two
    [organizeFiles] fill the buckets alike and differ in the status text
    only. *)
Theorem X18_two_texts_of_extractArchive_and_organizeFiles (st : State) :
  match extractArchive st, extractArchive_optimized st with
  | Ok _ s, Ok _ s' =>
    s = add_events [Progress 20 "Extracting archive..."] s'
  | Throw message s, Throw message' s' =>
    message = "Failed to extract ZIP file" ∧
    message' = "Failed to extract ZIP" ∧
    s = add_events [Progress 20 "Extracting archive..."] st ∧ s' = st
  | _, _ => False
  end ∧
  match organizeFiles st, organizeFiles_optimized st with
  | Ok _ s, Ok _ s' =>
    heap s = heap s' ∧ files s = files s' ∧
    vsliceStructure s = vsliceStructure s' ∧
    events s = events st ++ [Progress 40 "Organizing files..."] ∧
    events s' = events st ++ [Progress 40 "Files organized"]
  | _, _ => False
  end.
Proof.
  split.
  - rewrite extractArchive_run, extractArchive_optimized_run.
    destruct (List.find _ _) as [z|]; [|reflexivity].
    destruct (unzip (heap st) z) as [fs|]; [reflexivity|].
    split_and!; reflexivity.
  - rewrite organizeFiles_run.
    change (organizeFiles_optimized st)
      with (Ok () {| heap := heap st; files := files st;
                     vsliceStructure :=
                       {| songs := List.filter (at_ref (heap st) isSong) (files st);
                          data := List.filter (at_ref (heap st) isData) (files st);
                          images := List.filter (at_ref (heap st) isImage) (files st) |};
                     events := events st ++ [Progress 40 "Files organized"] |}).
    split_and!; reflexivity.
Qed.

(** ** The warnings of the intake *)

(** X19. On a batch that is not empty [validateFiles] adds to the log
    the warnings for the rejected files and nothing else, in the order of
    the batch, whether it then throws or not: "Unsupported file type"
    when the extension is not allowed and "File too large" when the size
    is over the ceiling, each with the file's name, both when both checks
    fail, and no warning for a file it keeps. *)
Theorem X19_rejected_files_are_warned_about (batch : list File) (st : State) :
  batch ≠ [] →
  events (state_of (validateFiles batch st))
  = events st ++ flat_map warnings batch ∧
  ∀ f, In f batch →
       (warnings f = [] ↔ isValid f = true) ∧
       (isValidType f = false →
        In (Warn ("Unsupported file type: " +:+ name f)) (warnings f)) ∧
       (isValidSize f = false →
        In (Warn ("File too large: " +:+ name f)) (warnings f)) ∧
       List.length (warnings f)
       = (if isValidType f then 0 else 1) + (if isValidSize f then 0 else 1).
Proof.
  intros Hne. split.
  - rewrite validateFiles_run. destruct batch as [|f0 batch0]; [contradiction|].
    cbv zeta. destruct (validated (heap st) (f0 :: batch0)); reflexivity.
  - intros f _. unfold warnings, isValid.
    destruct (isValidType f), (isValidSize f); simpl;
      split_and!; try (intros; discriminate); try reflexivity; auto;
      split; (discriminate || reflexivity).
Qed.

End Converter.

(** * Concrete runs *)

Abbreviation example_run :=
  (processFiles Example.text Example.JSON_parse Example.JSON_stringify
     Example.loadAsync).

Lemma C5_witness :
  ∃ message st',
    example_run [Example.readme_txt] initial = Throw message st' ∧
    (message = "No files selected" ∨ message = "No supported files found") ∧
    vsliceStructure st' = vsliceStructure initial ∧
    events st' = events initial ++ [Progress 10 "Checking files..."] ++
                 flat_map warnings [Example.readme_txt] ++ [ErrorShown message].
Proof.
  exact (C5_no_usable_files_aborts Example.text Example.JSON_parse
           Example.JSON_stringify Example.loadAsync
           [Example.readme_txt] initial eq_refl).
Defined.

Lemma C7_witness :
  ∃ st',
    organizeFiles (Example.one_file Example.weird_png) = Ok () st' ∧
    In 0 (data (vsliceStructure st')) ∧ In 0 (images (vsliceStructure st')).
Proof.
  destruct (C7_classifier_rule_union (Example.one_file Example.weird_png) 0
              (fresh Example.weird_png) (or_introl eq_refl) eq_refl)
    as (st' & Hrun & _ & _ & _ & _ & _ & Hweird).
  exists st'. split; [exact Hrun | exact (Hweird eq_refl)].
Defined.

(** C2 as stated fails: a run on one audio file writes it at
    [vslice_mod/songs/track.ogg]; the archive has no entry at
    [songs/track.ogg], and its top-level folder is [vslice_mod/]. *)
Lemma C2_counterexample :
  ∃ archive st',
    example_run [Example.track_ogg] initial = Ok archive st' ∧
    songs (vsliceStructure st') = [0] ∧
    heap st' !! 0 = Some (fresh Example.track_ogg) ∧
    map fst archive = ["vslice_mod/songs/track.ogg"] ∧
    ¬ In ("songs/" +:+ name Example.track_ogg) (map fst archive).
Proof.
  eexists _, _. split; [vm_compute; reflexivity|].
  split; [reflexivity|]. split; [reflexivity|]. split; [reflexivity|].
  simpl. intros [H|[]]. discriminate.
Qed.

Lemma C2_witness :
  ∃ archive st',
    example_run [Example.track_ogg] initial = Ok archive st' ∧
    In "vslice_mod/songs/track.ogg" (map fst archive).
Proof.
  eassert (E : example_run [Example.track_ogg] initial = Ok _ _)
    by (vm_compute; reflexivity).
  eexists _, _. split; [exact E|].
  exact (proj1 (C2_entries_under_vslice_mod Example.text Example.JSON_parse
                  Example.JSON_stringify Example.loadAsync _ _ _ _ E)
               Songs 0 (fresh Example.track_ogg)
               (or_introl eq_refl) eq_refl eq_refl).
Defined.

(** C8 as stated fails: of two audio files with the same name, both
    surviving and neither converted, the archive has one entry at their
    path and it holds the bytes of the second; the bytes of the first are
    packaged nowhere. *)
Lemma C8_counterexample :
  ∃ archive st',
    example_run [Example.track_ogg; Example.track_ogg_again] initial
    = Ok archive st' ∧
    songs (vsliceStructure st') = [0; 1] ∧
    heap st' !! 0 = Some (fresh Example.track_ogg) ∧
    archive = [("vslice_mod/songs/track.ogg", CFile Example.track_ogg_again)] ∧
    ∀ path, ¬ In (path, CFile Example.track_ogg) archive.
Proof.
  eexists _, _. split; [vm_compute; reflexivity|].
  split; [reflexivity|]. split; [reflexivity|]. split; [reflexivity|].
  intros path [H|[]]. discriminate.
Qed.

(** An entry of the expanded archive with the name of a file of the batch
    is written after it, at the same path: the archive has the one entry,
    with the bytes of the archive's entry. *)
Remark entry_replaces_file_of_the_batch :
  ∃ st',
    example_run [Example.pack_zip; Example.track_ogg] initial
    = Ok [("vslice_mod/songs/track.ogg", CFile (newFile (Example.bytes "ZZZZ") "track.ogg"))]
         st'.
Proof. eexists. vm_compute. reflexivity. Qed.

Lemma C8_witness :
  ∃ archive st',
    example_run [Example.track_ogg; Example.track_ogg_again; Example.chart_json]
      initial
    = Ok archive st' ∧
    In ("vslice_mod/songs/track.ogg", CFile Example.track_ogg_again) archive ∧
    In ("vslice_mod/data/chart.json", CText "{ metadata, notes }") archive.
Proof.
  eassert (E : example_run [Example.track_ogg; Example.track_ogg_again;
                            Example.chart_json] initial = Ok _ _)
    by (vm_compute; reflexivity).
  eexists _, _. split; [exact E|].
  destruct (C8_packaged_content Example.text Example.JSON_parse
              Example.JSON_stringify Example.loadAsync _ _ _ _ E)
    as (_ & Hpacked & _).
  split.
  - exact (proj1 (Hpacked Songs 1 _ [0] [] eq_refl eq_refl eq_refl
                    (λ r' o' H, match H with end)) eq_refl).
  - exact (proj2 (Hpacked Data 2 _ [] [] eq_refl eq_refl eq_refl
                    (λ r' o' H, match H with end)) _ eq_refl).
Defined.


(** C3 as stated fails: with two archives in the batch only the first is
    expanded, the second stays in the working set, and so does an entry of
    the expanded archive whose name ends in [.zip]. *)
Lemma C3_counterexample :
  ∃ st',
    extractArchive Example.loadAsync
      (Example.two_files Example.extra_zip Example.mod_zip) = Ok () st' ∧
    files st' = [1; 2; 3] ∧
    (name ∘ file) <$> heap st' !! 1 = Some "mod.zip" ∧
    (name ∘ file) <$> heap st' !! 3 = Some "mod/inner.zip" ∧
    existsb (at_ref (heap st') (λ f, endsWith (name f) ".zip")) (files st') = true.
Proof.
  eexists. split; [vm_compute; reflexivity|].
  split; [reflexivity|]. split; [reflexivity|]. split; reflexivity.
Qed.

Lemma C3_witness :
  ∃ st',
    extractArchive Example.loadAsync
      (Example.two_files Example.mod_zip Example.track_ogg) = Ok () st' ∧
    ¬ In 0 (files st') ∧
    ∀ r, In r (files st') → at_ref (heap st') isZip r = false.
Proof.
  eassert (E : extractArchive Example.loadAsync
                 (Example.two_files Example.mod_zip Example.track_ogg) = Ok () _)
    by (vm_compute; reflexivity).
  eexists. split; [exact E|].
  destruct (C3_expanded_archive_leaves_working_set Example.loadAsync
              (Example.two_files Example.mod_zip Example.track_ogg) _ 0 eq_refl E)
    as [Hgone Hnone].
  split; [exact Hgone|]. apply Hnone.
  - intros r [<-|[<-|[]]] Hne; [congruence | reflexivity].
  - intros o content e [= <-] [= <-] He Hdir.
    destruct He as [<-|[<-|[<-|[<-|[]]]]]; try reflexivity; discriminate.
Defined.

(** C4 as stated fails on the place of the new files: the archive is the
    first file of the working set, and its entries come last, after the
    audio file that followed the archive, not where the archive was. *)
Lemma C4_counterexample :
  ∃ st',
    extractArchive Example.loadAsync
      (Example.two_files Example.mod_zip Example.track_ogg) = Ok () st' ∧
    files st' = [1; 2; 3; 4] ∧
    (name ∘ file) <$> heap st' !! 1 = Some "track.ogg" ∧
    insert_in_place 0 [2; 3; 4]
      (files (Example.two_files Example.mod_zip Example.track_ogg)) = [2; 3; 4; 1] ∧
    files st' ≠
    insert_in_place 0 [2; 3; 4]
      (files (Example.two_files Example.mod_zip Example.track_ogg)).
Proof.
  eexists. split; [vm_compute; reflexivity|].
  split; [reflexivity|]. split; [reflexivity|]. split; [reflexivity|].
  discriminate.
Qed.

Lemma C4_witness :
  ∃ st',
    extractArchive Example.loadAsync
      (Example.two_files Example.mod_zip Example.track_ogg) = Ok () st' ∧
    files st' = [1; 2; 3; 4] ∧
    (name ∘ file) <$> heap st' = ["mod.zip"; "track.ogg"; "songs/a.ogg";
                                  "data/b.json"; "images/c.png"].
Proof.
  destruct (C4_expansion_appends_entries Example.loadAsync
              (Example.two_files Example.mod_zip Example.track_ogg) eq_refl)
    as (z & o & before & after & Hfind & _ & _ & Ho & _ & Hexpand).
  vm_compute in Hfind. injection Hfind as <-.
  vm_compute in Ho. injection Ho as <-.
  destruct (Hexpand Example.mod_listing
              [newFile (Example.bytes "OggS") "songs/a.ogg";
               newFile (Example.bytes "{}") "data/b.json";
               newFile (Example.bytes "PNG") "images/c.png"] eq_refl)
    as (st' & Hrun & Hheap & Hfiles & _).
  { repeat constructor. }
  exists st'. split; [exact Hrun|]. split; [exact Hfiles|].
  rewrite Hheap. reflexivity.
Defined.

Lemma C10_witness :
  ∃ archive st' r o',
    example_run [Example.extra_zip] initial = Ok archive st' ∧
    In r (files st') ∧
    heap st' !! r = Some o' ∧
    name (file o') = "mod/songs/readme.txt" ∧
    isValidType (file o') = false ∧
    In r (songs (vsliceStructure st')).
Proof.
  eassert (E1 : validateFiles [Example.extra_zip]
                  (add_events [Progress 10 "Checking files..."] initial) = Ok () _)
    by (vm_compute; reflexivity).
  eassert (E : example_run [Example.extra_zip] initial = Ok _ _)
    by (vm_compute; reflexivity).
  destruct (C10_archive_entries_skip_validation Example.text Example.JSON_parse
              Example.JSON_stringify Example.loadAsync
              [Example.extra_zip] initial _ 0 (fresh Example.extra_zip)
              Example.extra_listing
              {| zname := "mod/songs/readme.txt"; dir := false;
                 async_blob := Some (Example.bytes "read me") |}
              _ _ E1 eq_refl eq_refl eq_refl (or_introl eq_refl) eq_refl E)
    as (_ & r & fileData & o' & _ & Hr & Ho' & Hfile & Hbuckets).
  eexists _, _, r, o'. split; [exact E|]. split; [exact Hr|].
  split; [exact Ho'|]. rewrite Hfile.
  split; [reflexivity|]. split; [reflexivity|].
  apply (Hbuckets Songs). rewrite Hfile. reflexivity.
Defined.

Lemma X7_witness :
  ∃ st',
    example_run [Example.broken_zip] initial
    = Throw "Failed to extract ZIP file" st' ∧
    files st' = [0] ∧ heap st' = [fresh Example.broken_zip].
Proof.
  eassert (E1 : validateFiles [Example.broken_zip]
                  (add_events [Progress 10 "Checking files..."] initial) = Ok () _)
    by (vm_compute; reflexivity).
  eexists. split.
  - exact (X7_failed_extraction_keeps_nothing Example.text Example.JSON_parse
             Example.JSON_stringify Example.loadAsync
             [Example.broken_zip] initial _ 0 (fresh Example.broken_zip)
             E1 eq_refl eq_refl (or_introl eq_refl)).
  - split; reflexivity.
Defined.

Lemma X8_witness :
  ∃ archive st' o,
    example_run [Example.broken_json; Example.chart_json; Example.track_ogg] initial
    = Ok archive st' ∧
    heap st' !! 0 = Some o ∧
    conversionError o = true ∧ converted o = None.
Proof.
  eassert (E : example_run [Example.broken_json; Example.chart_json;
                            Example.track_ogg] initial = Ok _ _)
    by (vm_compute; reflexivity).
  destruct (X8_conversion_outcome_of_each_file Example.text Example.JSON_parse
              Example.JSON_stringify Example.loadAsync _ _ _ _ 0 E
              (or_introl eq_refl))
    as (o & Ho & Hconv & Herr & _).
  assert (Hfile : file o = Example.broken_json).
  { cbn [heap] in Ho. injection Ho as <-. reflexivity. }
  rewrite Hfile in Hconv, Herr.
  eexists _, _, o. split; [exact E|]. split; [exact Ho|].
  split; [exact Herr | exact Hconv].
Defined.

Lemma X9_witness :
  ∃ archive st',
    example_run [Example.mod_zip; Example.track_ogg] initial = Ok archive st' ∧
    List.NoDup (files st') ∧
    songs (vsliceStructure st') = List.filter (at_ref (heap st') isSong) (files st').
Proof.
  eassert (E : example_run [Example.mod_zip; Example.track_ogg] initial = Ok _ _)
    by (vm_compute; reflexivity).
  destruct (X9_buckets_stay_filters_of_the_working_set Example.text
              Example.JSON_parse Example.JSON_stringify Example.loadAsync
              _ _ _ _ E) as (Hnd & _ & Hsongs & _).
  eexists _, _. split; [exact E|]. split; [exact Hnd | exact Hsongs].
Defined.

Lemma X10_witness :
  ∃ archive st',
    example_run [Example.upper_ogg; Example.track_ogg] initial = Ok archive st' ∧
    isValid Example.upper_ogg = true ∧
    ∀ b content, ¬ In (archivePath b Example.upper_ogg, content) archive.
Proof.
  eassert (E : example_run [Example.upper_ogg; Example.track_ogg] initial = Ok _ _)
    by (vm_compute; reflexivity).
  eexists _, _. split; [exact E|]. split; [reflexivity|].
  exact (proj2 (X10_unmatched_files_are_dropped Example.text Example.JSON_parse
                  Example.JSON_stringify Example.loadAsync _ _ _ _ E)
               0 (fresh Example.upper_ogg) (or_introl eq_refl) eq_refl
               eq_refl eq_refl eq_refl).
Defined.

Lemma X11_witness :
  ∃ st', example_run [Example.upper_zip] initial = Ok [] st'.
Proof.
  apply (X11_accepted_files_can_all_be_left_out Example.text Example.JSON_parse
           Example.JSON_stringify Example.loadAsync [Example.upper_zip] initial).
  - discriminate.
  - intros f [<-|[]]. repeat split; reflexivity.
Defined.

Lemma X13_witness :
  ∃ archive st',
    example_run [Example.chart_json; Example.track_ogg] initial = Ok archive st' ∧
    (List.length archive ≤ 2)%nat.
Proof.
  eassert (E : example_run [Example.chart_json; Example.track_ogg] initial = Ok _ _)
    by (vm_compute; reflexivity).
  eexists _, _. split; [exact E|].
  apply (X13_plain_names_are_packaged_at_most_once Example.text
           Example.JSON_parse Example.JSON_stringify Example.loadAsync _ _ _ _ E).
  intros r o [<-|[<-|[]]] [= <-]; reflexivity.
Defined.

Lemma X15_witness :
  ∃ archive st',
    example_run [Example.mod_zip; Example.extra_zip] initial = Ok archive st' ∧
    In 1 (files st') ∧
    ∀ b content, ¬ In (archivePath b Example.extra_zip, content) archive.
Proof.
  eassert (E : example_run [Example.mod_zip; Example.extra_zip] initial = Ok _ _)
    by (vm_compute; reflexivity).
  eexists _, _. split; [exact E|]. split; [left; reflexivity|].
  exact (X15_other_archives_are_left_out Example.text Example.JSON_parse
           Example.JSON_stringify Example.loadAsync _ _ _ _ 1
           (fresh Example.extra_zip) E (or_introl eq_refl) eq_refl
           eq_refl eq_refl).
Defined.

Lemma X16_witness :
  ∃ st',
    example_run [Example.track_ogg; Example.chart_json; Example.icon_png] initial =
    Ok [ ("vslice_mod/songs/track.ogg", CFile Example.track_ogg);
         ("vslice_mod/data/chart.json", CText "{ metadata, notes }");
         ("vslice_mod/images/icon.png", CFile Example.icon_png) ] st'.
Proof.
  exact (X16_audio_chart_image_give_three_entries Example.text Example.JSON_parse
           Example.JSON_stringify Example.loadAsync
           Example.track_ogg Example.chart_json Example.icon_png _ initial
           eq_refl eq_refl eq_refl eq_refl eq_refl eq_refl
           eq_refl eq_refl eq_refl eq_refl).
Defined.

Lemma X17_witness :
  heap (state_of (for_of [0; 1] (convertChart Example.text Example.JSON_parse)
                    (Example.two_files Example.broken_json Example.chart_json)))
  = heap (state_of (for_of [1; 0; 1] (convertChart Example.text Example.JSON_parse)
                      (Example.two_files Example.broken_json Example.chart_json))).
Proof.
  apply (X17_conversion_order_does_not_matter Example.text Example.JSON_parse
           [0; 1] [1; 0; 1]
           (Example.two_files Example.broken_json Example.chart_json)).
  intros r. simpl. tauto.
Defined.

Lemma X1_witness :
  ∃ t, convertToVSlice (VObj [("song", VStr "Test"); ("notes", VNull)]) = Some t ∧
       Chart.notes t = [].
Proof.
  eassert (E : convertToVSlice (VObj [("song", VStr "Test"); ("notes", VNull)])
               = Some _) by reflexivity.
  eexists. split; [exact E|].
  exact (proj2 (X1_convertToVSlice_domain
                  (VObj [("song", VStr "Test"); ("notes", VNull)]))
               _ E eq_refl).
Defined.

Lemma X2_witness :
  ∃ t, convertToVSlice (VObj [("bpm", VStr ""); ("notes", VArr [VNum 7])]) = Some t ∧
       truthy (Chart.bpm (Chart.metadata t)) = true ∧
       List.length (Chart.notes t) = 1.
Proof.
  eassert (E : convertToVSlice (VObj [("bpm", VStr ""); ("notes", VArr [VNum 7])])
               = Some _) by reflexivity.
  destruct (X2_target_fields_are_never_falsy _ _ E) as (_ & Hb & _ & _ & Hlen).
  eexists. split; [exact E|]. split; [exact Hb | exact (Hlen [VNum 7] eq_refl)].
Defined.

Lemma X3_witness :
  convertToVSlice (VObj [("player1", VStr "bf"); ("song", VStr "Test")])
  = convertToVSlice (VObj [("song", VStr "Test")]).
Proof.
  apply (X3_other_properties_are_dropped [("song", VStr "Test")] "player1" (VStr "bf")).
  simpl. intros [H|[H|[H|[H|[]]]]]; discriminate.
Defined.

Lemma X6_witness :
  ∃ s1, validateFiles [Example.track_ogg; Example.chart_json] initial = Ok () s1 ∧
        files s1 = [0; 1].
Proof.
  pose proof (X6_validateFiles_keeps_the_valid_files
                [Example.track_ogg; Example.chart_json] initial) as H.
  change (List.filter isValid [Example.track_ogg; Example.chart_json])
    with [Example.track_ogg; Example.chart_json] in H.
  destruct H as (s1 & Hrun & _ & _ & _ & Hall).
  exists s1. split; [exact Hrun | exact (Hall eq_refl)].
Defined.

Lemma X12_witness :
  isSong Example.track_ogg && isData Example.track_ogg = false.
Proof.
  exact (proj1 (proj2 (proj2 (proj2
    (X12_plain_names_match_at_most_one_rule Example.track_ogg eq_refl))))).
Defined.

Lemma X19_witness :
  events (state_of (validateFiles [Example.readme_txt; Example.track_ogg] initial))
  = [Warn "Unsupported file type: readme.txt"].
Proof.
  exact (proj1 (X19_rejected_files_are_warned_about
                  [Example.readme_txt; Example.track_ogg] initial
                  ltac:(discriminate))).
Defined.
